(** * Scrybin: the note store and its save protocol

    A shallow embedding of [note_manager.py] (class [NoteManager]) and of the
    parts of [app.py] (class [App]) that drive it, together with the slice of
    Python's [str], [dict] and [json] behaviour those methods rely on.

    - Python [str] values are sequences of code points ([list N]).
    - A Python [dict] is an insertion-ordered association list.
    - The file [notes.json] is the text Python reads from, or writes to, it.
    - [json.dump] / [json.load] are modelled on the text level. *)

From Stdlib Require Import List NArith ZArith Bool Lia String Ascii.
From Stdlib Require Decimal DecimalN Finite.
Import ListNotations.

Set Implicit Arguments.

(** ** Python strings *)

Module PyStr.

Definition codepoint := N.
Definition str := list codepoint.

(** A Python [str] only holds code points below [0x110000]. *)
Definition is_codepoint (c : codepoint) : bool := (c <? 0x110000)%N.
Definition is_str (s : str) : bool := forallb is_codepoint s.

(** ASCII literals, used to write the constants of the source. *)
Definition lit (s : string) : str :=
  List.map N_of_ascii (list_ascii_of_string s).

Fixpoint eqb (a b : str) : bool :=
  match a, b with
  | [], [] => true
  | x :: a', y :: b' => (x =? y)%N && eqb a' b'
  | _, _ => false
  end.

(** [s.startswith(p)] and the slice that follows the prefix. *)
Fixpoint strip_prefix (p s : str) : option str :=
  match p, s with
  | [], _ => Some s
  | x :: p', y :: s' => if (x =? y)%N then strip_prefix p' s' else None
  | _ :: _, [] => None
  end.

(** [str(n)] for a non-negative [int]: decimal digits, no leading zero. *)
Fixpoint digits_of_uint (u : Decimal.uint) : str :=
  match u with
  | Decimal.Nil => []
  | Decimal.D0 u' => 48%N :: digits_of_uint u'
  | Decimal.D1 u' => 49%N :: digits_of_uint u'
  | Decimal.D2 u' => 50%N :: digits_of_uint u'
  | Decimal.D3 u' => 51%N :: digits_of_uint u'
  | Decimal.D4 u' => 52%N :: digits_of_uint u'
  | Decimal.D5 u' => 53%N :: digits_of_uint u'
  | Decimal.D6 u' => 54%N :: digits_of_uint u'
  | Decimal.D7 u' => 55%N :: digits_of_uint u'
  | Decimal.D8 u' => 56%N :: digits_of_uint u'
  | Decimal.D9 u' => 57%N :: digits_of_uint u'
  end.

Definition str_of_int (n : N) : str := digits_of_uint (N.to_uint n).

(** [c.isspace()]: the code points Python treats as whitespace. *)
Definition isspace (c : codepoint) : bool :=
  ((9 <=? c) && (c <=? 13)
   || (28 <=? c) && (c <=? 32)
   || (c =? 0x85) || (c =? 0xA0) || (c =? 0x1680)
   || (0x2000 <=? c) && (c <=? 0x200A)
   || (c =? 0x2028) || (c =? 0x2029) || (c =? 0x202F)
   || (c =? 0x205F) || (c =? 0x3000))%N.

Fixpoint lstrip (s : str) : str :=
  match s with
  | c :: s' => if isspace c then lstrip s' else s
  | [] => []
  end.

Definition rstrip (s : str) : str := List.rev (lstrip (List.rev s)).

(** [s.strip()] *)
Definition strip (s : str) : str := rstrip (lstrip s).

(** [s.split()]: the maximal runs of characters that are not whitespace.
    [cur] holds the run being read, last character first. *)
Fixpoint words (cur s : str) : list str :=
  match s with
  | [] => match cur with [] => [] | _ :: _ => [List.rev cur] end
  | c :: s' =>
      if isspace c then
        match cur with
        | [] => words [] s'
        | _ :: _ => List.rev cur :: words [] s'
        end
      else words (c :: cur) s'
  end.

Definition split (s : str) : list str := words [] s.

(** Truth value of a [str]: the empty string is false. *)
Definition truthy (s : str) : bool :=
  match s with [] => false | _ :: _ => true end.

End PyStr.

Import PyStr.

(** ** Python dictionaries keyed by [str]

    Insertion-ordered, as [dict] is: assigning to a key that is present
    keeps its position, assigning to a new key appends it. *)

Module PyDict.

Section Ops.
Variable V : Type.

Definition dict := list (str * V).

(** [list(d.keys())] *)
Definition keys (d : dict) : list str := List.map fst d.

(** [k in d] *)
Fixpoint contains (k : str) (d : dict) : bool :=
  match d with
  | [] => false
  | (k', _) :: d' => PyStr.eqb k k' || contains k d'
  end.

(** [d[k]] when present *)
Fixpoint lookup (k : str) (d : dict) : option V :=
  match d with
  | [] => None
  | (k', v) :: d' => if PyStr.eqb k k' then Some v else lookup k d'
  end.

(** [d.get(k, default)] *)
Definition get (k : str) (default : V) (d : dict) : V :=
  match lookup k d with
  | Some v => v
  | None => default
  end.

(** [d[k] = v] *)
Fixpoint set (k : str) (v : V) (d : dict) : dict :=
  match d with
  | [] => [(k, v)]
  | (k', v') :: d' =>
      if PyStr.eqb k k' then (k', v) :: d' else (k', v') :: set k v d'
  end.

(** [del d[k]] (the caller has checked [k in d]) *)
Fixpoint del (k : str) (d : dict) : dict :=
  match d with
  | [] => []
  | (k', v') :: d' =>
      if PyStr.eqb k k' then del k d' else (k', v') :: del k d'
  end.

(** [dict(pairs)]: later pairs overwrite earlier ones. *)
Definition of_pairs (pairs : list (str * V)) : dict :=
  fold_left (fun d kv => set (fst kv) (snd kv) d) pairs [].

(** Representation invariant: a key occurs once. *)
Definition wf (d : dict) : Prop := NoDup (keys d).

End Ops.

End PyDict.

(** ** The [json] module, as [NoteManager] uses it

    [json.dump(obj, fp, indent=4)] on a [dict] of [str] to [str], and
    [json.load(fp)] on arbitrary text.  Text is a [str]: what Python reads
    from, or writes to, the file opened in text mode. *)

Module Json.

Local Open Scope N_scope.

(** *** Encoder ([ensure_ascii=True], the default) *)

Definition hexdigit (n : N) : codepoint :=
  if n <? 10 then 48 + n else 87 + n.

(** ['{0:04x}'.format(n)] for [n < 0x10000] *)
Definition hex4 (n : N) : str :=
  [hexdigit (n / 4096 mod 16); hexdigit (n / 256 mod 16);
   hexdigit (n / 16 mod 16); hexdigit (n mod 16)].

(** ['\\u{0:04x}'.format(n)] *)
Definition u_escape (n : N) : str := 92 :: 117 :: hex4 n.

(** The replacement [encode_basestring_ascii] applies to one character:
    [ESCAPE_DCT] for the quote, the backslash and the control characters,
    the character itself inside [' '..'~'], a [\uXXXX] escape below
    [0x10000], a surrogate pair above. *)
Definition escape (c : codepoint) : str :=
  if c =? 34 then [92; 34]
  else if c =? 92 then [92; 92]
  else if c =? 10 then [92; 110]
  else if c =? 13 then [92; 114]
  else if c =? 9 then [92; 116]
  else if c =? 12 then [92; 102]
  else if c =? 8 then [92; 98]
  else if (32 <=? c) && (c <=? 126) then [c]
  else if c <? 0x10000 then u_escape c
  else
    let n := c - 0x10000 in
    let s1 := N.lor 0xd800 (N.land (N.shiftr n 10) 0x3ff) in
    let s2 := N.lor 0xdc00 (N.land n 0x3ff) in
    u_escape s1 ++ u_escape s2.

Definition encode_basestring_ascii (s : str) : str :=
  34 :: flat_map escape s ++ [34].

Definition newline_indent : str := 10 :: lit "    ".
Definition item_separator : str := 44 :: newline_indent.
Definition key_separator : str := lit ": ".

Definition encode_item (kv : str * str) : str :=
  encode_basestring_ascii (fst kv) ++ key_separator
    ++ encode_basestring_ascii (snd kv).

(** [json.dumps(d, indent=4)] for a [dict] of [str] to [str]: ["{}"] when
    empty, otherwise one indented ["key": "value"] line per entry. *)
Definition dumps (d : PyDict.dict str) : str :=
  match d with
  | [] => lit "{}"
  | kv :: d' =>
      lit "{" ++ newline_indent ++ encode_item kv
        ++ flat_map (fun kv' => item_separator ++ encode_item kv') d'
        ++ [10] ++ lit "}"
  end.

(** *** Decoder

    The grammar [json.loads] accepts, scanned left to right.  Python's
    limits on nesting depth and on the length of integer literals are left
    out here; [Bounded], at the end of this module, has them. *)

#[local] Unset Elimination Schemes.
Inductive value : Type :=
| Null
| TrueV
| FalseV
| Int (z : Z)
| Float (literal : str)
| NaN
| Infinity
| NegInfinity
| String (s : str)
| Array (items : list value)
| Object (members : list (str * value)).
#[local] Set Elimination Schemes.

(** Result of a scan: a value and the text after it, a
    [JSONDecodeError], or a scan cut short by its step budget. *)
Inductive res (A : Type) : Type :=
| Ok (a : A)
| Malformed
| Exhausted.
Arguments Malformed {A}.
Arguments Exhausted {A}.

Definition bind {A B} (r : res A) (k : A -> res B) : res B :=
  match r with
  | Ok a => k a
  | Malformed => Malformed
  | Exhausted => Exhausted
  end.

Notation "' p <- r ;; k" := (bind r (fun p => k))
  (at level 61, p pattern, r at next level, right associativity).

(** [WHITESPACE.match(s, idx).end()] *)
Definition is_ws (c : codepoint) : bool :=
  (c =? 32) || (c =? 9) || (c =? 10) || (c =? 13).

Fixpoint skip_ws (s : str) : str :=
  match s with
  | c :: s' => if is_ws c then skip_ws s' else s
  | [] => []
  end.

Definition hexval (c : codepoint) : option N :=
  if (48 <=? c) && (c <=? 57) then Some (c - 48)
  else if (97 <=? c) && (c <=? 102) then Some (c - 87)
  else if (65 <=? c) && (c <=? 70) then Some (c - 55)
  else None.

(** [_decode_uXXXX]: four hexadecimal digits *)
Definition hex4val (h1 h2 h3 h4 : codepoint) : option N :=
  match hexval h1, hexval h2, hexval h3, hexval h4 with
  | Some d1, Some d2, Some d3, Some d4 =>
      Some (((d1 * 16 + d2) * 16 + d3) * 16 + d4)
  | _, _, _, _ => None
  end.

(** The [BACKSLASH] table *)
Definition unescape (e : codepoint) : option codepoint :=
  if e =? 34 then Some 34
  else if e =? 92 then Some 92
  else if e =? 47 then Some 47
  else if e =? 98 then Some 8
  else if e =? 102 then Some 12
  else if e =? 110 then Some 10
  else if e =? 114 then Some 13
  else if e =? 116 then Some 9
  else None.

Definition is_high_surrogate (u : N) : bool := (0xd800 <=? u) && (u <=? 0xdbff).
Definition is_low_surrogate (u : N) : bool := (0xdc00 <=? u) && (u <=? 0xdfff).

Definition join_surrogates (uni uni2 : N) : codepoint :=
  0x10000 + N.lor (N.shiftl (uni - 0xd800) 10) (uni2 - 0xdc00).

Definition cons_res (c : codepoint) (r : res (str * str)) : res (str * str) :=
  ' (x, rest) <- r ;; Ok (c :: x, rest).

(** [scanstring(s, end, strict=True)], entered after the opening quote:
    the decoded string and the text after the closing quote. *)
Fixpoint scanstring (s : str) : res (str * str) :=
  match s with
  | [] => Malformed
  | c :: r =>
      if c =? 34 then Ok ([], r)
      else if c =? 92 then
        match r with
        | [] => Malformed
        | e :: r1 =>
            if e =? 117 then
              match r1 with
              | h1 :: h2 :: h3 :: h4 :: r2 =>
                  match hex4val h1 h2 h3 h4 with
                  | None => Malformed
                  | Some uni =>
                      if is_high_surrogate uni then
                        match r2 with
                        | b :: u :: r3 =>
                            if (b =? 92) && (u =? 117) then
                              match r3 with
                              | g1 :: g2 :: g3 :: g4 :: r4 =>
                                  match hex4val g1 g2 g3 g4 with
                                  | None => Malformed
                                  | Some uni2 =>
                                      if is_low_surrogate uni2
                                      then cons_res (join_surrogates uni uni2)
                                             (scanstring r4)
                                      else cons_res uni (scanstring r2)
                                  end
                              | _ => Malformed
                              end
                            else cons_res uni (scanstring r2)
                        | _ => cons_res uni (scanstring r2)
                        end
                      else cons_res uni (scanstring r2)
                  end
              | _ => Malformed
              end
            else
              match unescape e with
              | Some ch => cons_res ch (scanstring r1)
              | None => Malformed
              end
        end
      else if c <? 32 then Malformed
      else cons_res c (scanstring r)
  end.

(** [NUMBER_RE]: an optional minus sign and an integer part (a lone zero,
    or a non-zero digit and more digits), then optionally a dot and
    digits, then optionally an exponent: [e] or [E], a sign, digits. *)
Definition is_digit (c : codepoint) : bool := (48 <=? c) && (c <=? 57).

Fixpoint span_digits (s : str) : str * str :=
  match s with
  | c :: s' =>
      if is_digit c
      then let (ds, rest) := span_digits s' in (c :: ds, rest)
      else ([], s)
  | [] => ([], [])
  end.

Definition int_of_digits (ds : str) : Z :=
  fold_left (fun acc d => (acc * 10 + Z.of_N (d - 48))%Z) ds 0%Z.

Definition match_integer (s : str) : option (str * str) :=
  match s with
  | c :: s' =>
      if c =? 48 then Some ([c], s')
      else if is_digit c
      then let (ds, rest) := span_digits s' in Some (c :: ds, rest)
      else None
  | [] => None
  end.

Definition match_frac (s : str) : str * str :=
  match s with
  | c :: s' =>
      if c =? 46 then
        match span_digits s' with
        | ([], _) => ([], s)
        | (ds, rest) => (c :: ds, rest)
        end
      else ([], s)
  | [] => ([], [])
  end.

Definition match_exp (s : str) : str * str :=
  match s with
  | c :: s' =>
      if (c =? 101) || (c =? 69) then
        let (sign, s'') :=
          match s' with
          | g :: t => if (g =? 45) || (g =? 43) then ([g], t) else ([], s')
          | [] => ([], s')
          end in
        match span_digits s'' with
        | ([], _) => ([], s)
        | (ds, rest) => (c :: sign ++ ds, rest)
        end
      else ([], s)
  | [] => ([], [])
  end.

Definition match_number (s : str) : option (value * str) :=
  let (neg, s1) :=
    match s with
    | c :: s' => if c =? 45 then (true, s') else (false, s)
    | [] => (false, s)
    end in
  match match_integer s1 with
  | None => None
  | Some (integer, s2) =>
      let (frac, s3) := match_frac s2 in
      let (exp, s4) := match_exp s3 in
      match frac, exp with
      | [], [] =>
          let z := int_of_digits integer in
          Some (Int (if neg then (- z)%Z else z), s4)
      | _, _ =>
          Some (Float ((if neg then [45] else []) ++ integer ++ frac ++ exp),
                s4)
      end
  end.

Definition match_literal (word : string) (v : value) (s : str)
  : option (value * str) :=
  match strip_prefix (lit word) s with
  | Some rest => Some (v, rest)
  | None => None
  end.

Definition orelse {A} (a b : option A) : option A :=
  match a with Some _ => a | None => b end.

(** [scan_once], [JSONObject] and [JSONArray].  [members] is entered after
    the opening quote of a key, [items] at the start of a value. *)
Fixpoint scan_once (fuel : nat) (s : str) {struct fuel} : res (value * str) :=
  match fuel with
  | O => Exhausted
  | S fuel' =>
      match s with
      | [] => Malformed
      | c :: r =>
          if c =? 34 then
            ' (x, rest) <- scanstring r ;; Ok (String x, rest)
          else if c =? 123 then
            match skip_ws r with
            | c1 :: r1 =>
                if c1 =? 125 then Ok (Object (PyDict.of_pairs []), r1)
                else if c1 =? 34 then
                  ' (pairs, rest) <- members fuel' r1 ;;
                  Ok (Object (PyDict.of_pairs pairs), rest)
                else Malformed
            | [] => Malformed
            end
          else if c =? 91 then
            match skip_ws r with
            | c1 :: r1 =>
                if c1 =? 93 then Ok (Array [], r1)
                else
                  ' (values, rest) <- items fuel' (c1 :: r1) ;;
                  Ok (Array values, rest)
            | [] => Malformed
            end
          else
            match
              orelse (match_literal "null" Null s)
             (orelse (match_literal "true" TrueV s)
             (orelse (match_literal "false" FalseV s)
             (orelse (match_number s)
             (orelse (match_literal "NaN" NaN s)
             (orelse (match_literal "Infinity" Infinity s)
                     (match_literal "-Infinity" NegInfinity s))))))
            with
            | Some r => Ok r
            | None => Malformed
            end
      end
  end

with members (fuel : nat) (s : str) {struct fuel}
  : res (list (str * value) * str) :=
  match fuel with
  | O => Exhausted
  | S fuel' =>
      ' (key, r1) <- scanstring s ;;
      match skip_ws r1 with
      | c :: r2 =>
          if c =? 58 then
            ' (v, r3) <- scan_once fuel' (skip_ws r2) ;;
            match skip_ws r3 with
            | d :: r4 =>
                if d =? 125 then Ok ([(key, v)], r4)
                else if d =? 44 then
                  match skip_ws r4 with
                  | q :: r5 =>
                      if q =? 34 then
                        ' (pairs, rest) <- members fuel' r5 ;;
                        Ok ((key, v) :: pairs, rest)
                      else Malformed
                  | [] => Malformed
                  end
                else Malformed
            | [] => Malformed
            end
          else Malformed
      | [] => Malformed
      end
  end

with items (fuel : nat) (s : str) {struct fuel}
  : res (list value * str) :=
  match fuel with
  | O => Exhausted
  | S fuel' =>
      ' (v, r1) <- scan_once fuel' s ;;
      match skip_ws r1 with
      | d :: r2 =>
          if d =? 93 then Ok ([v], r2)
          else if d =? 44 then
            ' (values, rest) <- items fuel' (skip_ws r2) ;;
            Ok (v :: values, rest)
          else Malformed
      | [] => Malformed
      end
  end.

(** [json.loads(s)]: no byte-order mark, one value, nothing but
    whitespace around it. *)
Definition loads_fuel (fuel : nat) (s : str) : res value :=
  match s with
  | 0xfeff :: _ => Malformed
  | _ =>
      ' (v, rest) <- scan_once fuel (skip_ws s) ;;
      match skip_ws rest with
      | [] => Ok v
      | _ :: _ => Malformed
      end
  end.

(** Each call of the scanner consumes a character at least every second
    step, so this budget is never used up ([loads_not_exhausted] below). *)
Definition loads (s : str) : res value := loads_fuel (2 * S (List.length s)) s.

(** [json.load(fp)] on the text of the file: the value, or [None] for
    [json.JSONDecodeError]. *)
Definition load (text : str) : option value :=
  match loads text with
  | Ok v => Some v
  | Malformed | Exhausted => None
  end.

(** The values a note collection can hold: an object whose members are
    all strings. *)
Fixpoint strings_of (ms : list (str * value)) : option (PyDict.dict str) :=
  match ms with
  | [] => Some []
  | (k, String v) :: ms' =>
      match strings_of ms' with
      | Some d => Some ((k, v) :: d)
      | None => None
      end
  | _ :: _ => None
  end.

Definition as_notes (v : value) : option (PyDict.dict str) :=
  match v with
  | Object ms => strings_of ms
  | _ => None
  end.

(** *** The interpreter's limits

    CPython's decoder gives up with [RecursionError] when objects and
    arrays nest deeper than the recursion limit leaves room for, and with
    [ValueError] on an integer literal of more digits than
    [sys.get_int_max_str_digits()] (the interpreter takes [0], for no
    limit, or a limit of 640 and more).  [scan_once] above leaves both
    out; [Bounded.scan_once] has them.  The two agree on every text that
    stays within the limits ([bounded_loads_agrees] below). *)

Module Bounded.

(** [nesting]: how many objects and arrays may be open at once where
    [json.load] is called.  [int_digits]: the digit limit, [0] for none. *)
Record limits : Type := { nesting : nat; int_digits : nat }.

Inductive failure : Type :=
| DecodeError
| RecursionError
| ValueError
| OutOfSteps.

Inductive answer (A : Type) : Type :=
| Got (a : A)
| Failed (e : failure).
Arguments Failed {A}.

Definition of_res {A} (r : res A) : answer A :=
  match r with
  | Ok a => Got a
  | Malformed => Failed DecodeError
  | Exhausted => Failed OutOfSteps
  end.

Definition and_then {A B} (a : answer A) (k : A -> answer B) : answer B :=
  match a with
  | Got x => k x
  | Failed e => Failed e
  end.

(** The digits of the integer part of the number at the start of [s]. *)
Definition integer_digits (s : str) : nat :=
  let s1 :=
    match s with
    | c :: s' => if c =? 45 then s' else s
    | [] => s
    end in
  match match_integer s1 with
  | Some (integer, _) => List.length integer
  | None => O
  end.

Section Scanner.
Variable lim : limits.

Definition too_long (s : str) : bool :=
  (0 <? int_digits lim)%nat && (int_digits lim <? integer_digits s)%nat.

(** [depth] is the number of objects and arrays open around [s]. *)
Fixpoint scan_once (fuel depth : nat) (s : str) {struct fuel}
  : answer (value * str) :=
  match fuel with
  | O => Failed OutOfSteps
  | S fuel' =>
      match s with
      | [] => Failed DecodeError
      | c :: r =>
          if c =? 34 then
            of_res (' (x, rest) <- scanstring r ;; Ok (String x, rest))
          else if c =? 123 then
            if (nesting lim <=? depth)%nat then Failed RecursionError
            else
              match skip_ws r with
              | c1 :: r1 =>
                  if c1 =? 125 then Got (Object (PyDict.of_pairs []), r1)
                  else if c1 =? 34 then
                    and_then (members fuel' (S depth) r1)
                      (fun '(pairs, rest) =>
                         Got (Object (PyDict.of_pairs pairs), rest))
                  else Failed DecodeError
              | [] => Failed DecodeError
              end
          else if c =? 91 then
            if (nesting lim <=? depth)%nat then Failed RecursionError
            else
              match skip_ws r with
              | c1 :: r1 =>
                  if c1 =? 93 then Got (Array [], r1)
                  else
                    and_then (items fuel' (S depth) (c1 :: r1))
                      (fun '(values, rest) => Got (Array values, rest))
              | [] => Failed DecodeError
              end
          else
            match
              orelse (match_literal "null" Null s)
             (orelse (match_literal "true" TrueV s)
             (orelse (match_literal "false" FalseV s)
             (orelse (match_number s)
             (orelse (match_literal "NaN" NaN s)
             (orelse (match_literal "Infinity" Infinity s)
                     (match_literal "-Infinity" NegInfinity s))))))
            with
            | Some (Int z, rest) =>
                if too_long s then Failed ValueError else Got (Int z, rest)
            | Some r => Got r
            | None => Failed DecodeError
            end
      end
  end

with members (fuel depth : nat) (s : str) {struct fuel}
  : answer (list (str * value) * str) :=
  match fuel with
  | O => Failed OutOfSteps
  | S fuel' =>
      and_then (of_res (scanstring s)) (fun '(key, r1) =>
      match skip_ws r1 with
      | c :: r2 =>
          if c =? 58 then
            and_then (scan_once fuel' depth (skip_ws r2)) (fun '(v, r3) =>
            match skip_ws r3 with
            | d :: r4 =>
                if d =? 125 then Got ([(key, v)], r4)
                else if d =? 44 then
                  match skip_ws r4 with
                  | q :: r5 =>
                      if q =? 34 then
                        and_then (members fuel' depth r5)
                          (fun '(pairs, rest) => Got ((key, v) :: pairs, rest))
                      else Failed DecodeError
                  | [] => Failed DecodeError
                  end
                else Failed DecodeError
            | [] => Failed DecodeError
            end)
          else Failed DecodeError
      | [] => Failed DecodeError
      end)
  end

with items (fuel depth : nat) (s : str) {struct fuel}
  : answer (list value * str) :=
  match fuel with
  | O => Failed OutOfSteps
  | S fuel' =>
      and_then (scan_once fuel' depth s) (fun '(v, r1) =>
      match skip_ws r1 with
      | d :: r2 =>
          if d =? 93 then Got ([v], r2)
          else if d =? 44 then
            and_then (items fuel' depth (skip_ws r2))
              (fun '(values, rest) => Got (v :: values, rest))
          else Failed DecodeError
      | [] => Failed DecodeError
      end)
  end.

(** [json.loads(s)] under the limits. *)
Definition loads (s : str) : answer value :=
  match s with
  | 0xfeff :: _ => Failed DecodeError
  | _ =>
      and_then (scan_once (2 * S (List.length s)) 0 (skip_ws s))
        (fun '(v, rest) =>
           match skip_ws rest with
           | [] => Got v
           | _ :: _ => Failed DecodeError
           end)
  end.

End Scanner.

End Bounded.

End Json.

(** ** The working directory

    [notes.json] is the only file the store names: [None] when it does not
    exist, otherwise its text.  Opening, reading and writing it are taken
    to succeed. *)

Record filesystem : Type := { notes_json : option str }.

(** The exceptions in play.  [JSONDecodeError] is what [json.load] raises.
    [PersistenceError] is the error kind the specification names; no
    statement of the source raises or catches it.  [AttributeError] and
    [TypeError] are what Python raises when [self.notes] is not a [dict]
    and when an argument has the wrong type. *)
Inductive exn : Type :=
| JSONDecodeError
| PersistenceError
| AttributeError
| TypeError.

(** How a call ends: it returns a value of the type its docstring names,
    it raises, or it returns a value [v] of another type: [Untyped v]. *)
Inductive outcome (A : Type) : Type :=
| Returned (a : A)
| Raised (e : exn)
| Untyped (v : Json.value).
Arguments Raised {A}.
Arguments Untyped {A}.

(** ** [note_manager.py] *)

Module NoteManager.

Record t : Type := { notes : PyDict.dict str; current_note : option str }.

Definition with_notes (self : t) (d : PyDict.dict str) : t :=
  {| notes := d; current_note := current_note self |}.

(** [__init__] *)
Definition init : t := {| notes := []; current_note := None |}.

(** The object in general.  [load_notes] binds [self.notes] to whatever
    [json.load] returns: [Rebound v c] is the object whose [notes] is [v],
    a value that is not a [dict] of [str] to [str], and whose
    [current_note] is [c].  [Notes self] is the object whose attributes
    are those of [self]. *)
Inductive obj : Type :=
| Notes (self : t)
| Rebound (v : Json.value) (current_note : option str).

(** [load_notes]: the value returned (or the exception) and the object
    afterwards. *)
Definition load_notes (fs : filesystem) (self : t)
  : outcome (PyDict.dict str) * obj :=
  match notes_json fs with
  | Some text =>
      match Json.load text with
      | Some v =>
          match Json.as_notes v with
          | Some d => (Returned d, Notes (with_notes self d))
          | None => (Untyped v, Rebound v (current_note self))
          end
      | None => (Raised JSONDecodeError, Notes self)
      end
  | None => (Returned (notes self), Notes self)
  end.

(** [save_notes_to_file]: the file is opened with mode ["w"] and holds the
    dump afterwards. *)
Definition save_notes_to_file (fs : filesystem) (self : t) : filesystem :=
  {| notes_json := Some (Json.dumps (notes self)) |}.

(** [f"{original_title} ({count})"] *)
Definition suffixed (original_title : str) (count : N) : str :=
  original_title ++ lit " (" ++ str_of_int count ++ lit ")".

(** The [while] loop of [add_new_note]; one unit of [fuel] per evaluation
    of its condition. *)
Fixpoint probe (fuel : nat) (d : PyDict.dict str)
    (original_title note_title : str) (count : N) : option str :=
  match fuel with
  | O => None
  | S fuel' =>
      if PyDict.contains note_title d
      then probe fuel' d original_title (suffixed original_title count)
             (count + 1)%N
      else Some note_title
  end.

Definition add_new_note_fuel (fuel : nat) (self : t) (note_title : str)
  : option (str * t) :=
  match probe fuel (notes self) note_title note_title 1%N with
  | Some title => Some (title, with_notes self (PyDict.set title [] (notes self)))
  | None => None
  end.

(** [add_new_note]: the returned title and the object afterwards.  The
    loop tests at most one title more than there are notes
    ([add_new_note_appends] below). *)
Definition add_new_note (self : t) (note_title : str) : option (str * t) :=
  add_new_note_fuel (S (List.length (notes self))) self note_title.

Definition delete_note (self : t) (note_title : str) : t :=
  if PyDict.contains note_title (notes self)
  then with_notes self (PyDict.del note_title (notes self))
  else self.

Definition get_note_content (self : t) (note_title : str) : str :=
  PyDict.get note_title [] (notes self).

Definition set_note_content (self : t) (note_title content : str) : t :=
  with_notes self (PyDict.set note_title content (notes self)).

Definition get_note_titles (self : t) : list str :=
  PyDict.keys (notes self).

(** The two methods [App.load_notes] calls once [load_notes] has run, on
    the object as it then is: what they return, or [None] for the
    [AttributeError] of a [self.notes] that is a [list], a [str], a
    number, a [bool] or [None], none of which has [keys] or [get]. *)
Module Obj.

(** [list(self.notes.keys())] *)
Definition get_note_titles (self : obj) : option (list str) :=
  match self with
  | Notes self => Some (NoteManager.get_note_titles self)
  | Rebound (Json.Object ms) _ => Some (PyDict.keys ms)
  | Rebound _ _ => None
  end.

(** [self.notes.get(note_title, "")] *)
Definition get_note_content (self : obj) (note_title : str)
  : option Json.value :=
  match self with
  | Notes self =>
      Some (Json.String (NoteManager.get_note_content self note_title))
  | Rebound (Json.Object ms) _ =>
      Some (PyDict.get note_title (Json.String []) ms)
  | Rebound _ _ => None
  end.

End Obj.

End NoteManager.

(** A store that holds notes is read as an object where one is expected,
    also inside a pair or under [Some]. *)
Coercion NoteManager.Notes : NoteManager.t >-> NoteManager.obj.
Arguments pair {A B} & a b.
Arguments Some {A} & a.

(** ** [text_editor.py]

    [text] is what [toPlainText()] returns. *)

Module TextEditor.

Definition get_word_count (text : str) : N :=
  N.of_nat (List.length (split text)).

End TextEditor.

(** ** [app.py]: the callbacks that reach the store

    The widgets are reduced to what the callbacks read and write: the items
    and current row of [notes_list], the text of [text_area].  The ribbon
    and the message boxes' looks are left out; a warning box is recorded by
    its message. *)

Module App.

Record window (M : Type) : Type := {
  note_manager : M;
  current_note : option str;
  notes_list : list str;
  current_row : option nat;
  text_area : str
}.

(** The window over a store that holds notes: every callback but
    [load_notes] starts from and ends in one. *)
Definition t : Type := window NoteManager.t.

Definition with_store (self : t) (nm : NoteManager.t) : t :=
  {| note_manager := nm; current_note := current_note self;
     notes_list := notes_list self; current_row := current_row self;
     text_area := text_area self |}.

(** [self.notes_list.addItem(item)] then
    [self.notes_list.setCurrentRow(self.notes_list.count() - 1)] *)
Definition add_item_and_select (self : t) (item : str) : t :=
  {| note_manager := note_manager self; current_note := current_note self;
     notes_list := notes_list self ++ [item];
     current_row := Some (List.length (notes_list self));
     text_area := text_area self |}.

(** [if self.current_note:] *)
Definition note_selected (self : t) : bool :=
  match current_note self with
  | Some title => truthy title
  | None => false
  end.

Definition load_selected_note (self : t) (item : str) : t :=
  {| note_manager := note_manager self; current_note := Some item;
     notes_list := notes_list self; current_row := current_row self;
     text_area := NoteManager.get_note_content (note_manager self) item |}.

(** The window over the note manager as [NoteManager.load_notes] leaves
    it. *)
Definition with_manager (self : t) (nm : NoteManager.obj)
  : window NoteManager.obj :=
  {| note_manager := nm; current_note := current_note self;
     notes_list := notes_list self; current_row := current_row self;
     text_area := text_area self |}.

(** [load_selected_note] on that window.  The content handed to
    [set_text] need not be a [str] then: [shown v] is what [setPlainText]
    makes of a value [v] of another type, the text the editor holds
    afterwards, or [None] when the call raises [TypeError]. *)
Definition load_selected_note_obj (shown : Json.value -> option str)
    (self : window NoteManager.obj) (item : str)
  : outcome unit * window NoteManager.obj :=
  let self1 :=
    {| note_manager := note_manager self; current_note := Some item;
       notes_list := notes_list self; current_row := current_row self;
       text_area := text_area self |} in
  let set_text (text : str) :=
    {| note_manager := note_manager self; current_note := Some item;
       notes_list := notes_list self; current_row := current_row self;
       text_area := text |} in
  match NoteManager.Obj.get_note_content (note_manager self) item with
  | Some (Json.String text) => (Returned tt, set_text text)
  | Some v =>
      match shown v with
      | Some text => (Returned tt, set_text text)
      | None => (Raised TypeError, self1)
      end
  | None => (Raised AttributeError, self1)
  end.

(** [load_notes], called once by [__init__]: nothing catches what
    [NoteManager.load_notes] or the calls after it raise. *)
Definition load_notes (shown : Json.value -> option str)
    (fs : filesystem) (self : t) : outcome unit * window NoteManager.obj :=
  match NoteManager.load_notes fs (note_manager self) with
  | (Raised e, nm) => (Raised e, with_manager self nm)
  | (_, nm) =>
      match NoteManager.Obj.get_note_titles nm with
      | Some titles =>
          let items := notes_list self ++ titles in
          let self1 :=
            {| note_manager := nm; current_note := current_note self;
               notes_list := items; current_row := current_row self;
               text_area := text_area self |} in
          match List.rev items with
          | last_item :: _ =>
              let self2 :=
                {| note_manager := nm; current_note := current_note self1;
                   notes_list := items;
                   current_row := Some (List.length items - 1)%nat;
                   text_area := text_area self1 |} in
              load_selected_note_obj shown self2 last_item
          | [] => (Returned tt, self1)
          end
      | None => (Raised AttributeError, with_manager self nm)
      end
  end.

(** [save_note]: the warning shown, if any, and the state afterwards. *)
Definition save_note (fs : filesystem) (self : t)
  : option string * filesystem * t :=
  match current_note self with
  | Some title =>
      if truthy title then
        let content := strip (text_area self) in
        let nm := NoteManager.set_note_content (note_manager self)
                    title content in
        (None, NoteManager.save_notes_to_file fs nm, with_store self nm)
      else (Some "No note selected!"%string, fs, self)
  | None => (Some "No note selected!"%string, fs, self)
  end.

(** [save_note_as]; [dialog] is what [QInputDialog.getText] returned.  The
    title [add_new_note] returns is dropped.  The result is [None] only
    where [add_new_note] is, which it never is. *)
Definition save_note_as (dialog : str * bool) (fs : filesystem) (self : t)
  : option (option string * filesystem * t) :=
  if note_selected self then
    let (note_title, ok) := dialog in
    if ok && truthy (strip note_title) then
      let note_title := strip note_title in
      let content := strip (text_area self) in
      match NoteManager.add_new_note (note_manager self) note_title with
      | Some (_, nm1) =>
          let nm2 := NoteManager.set_note_content nm1 note_title content in
          let self1 := add_item_and_select (with_store self nm2) note_title in
          let self2 :=
            {| note_manager := nm2; current_note := Some note_title;
               notes_list := notes_list self1;
               current_row := current_row self1;
               text_area := text_area self1 |} in
          Some (None, NoteManager.save_notes_to_file fs nm2, self2)
      | None => None
      end
    else Some (Some "Note title cannot be empty!"%string, fs, self)
  else Some (Some "No note selected!"%string, fs, self).

(** [new_note]; [dialog] is what [QInputDialog.getText] returned.  The
    item made current is the one just added. *)
Definition new_note (dialog : str * bool) (self : t) : option t :=
  let (note_title, ok) := dialog in
  let note_title :=
    if ok && truthy (strip note_title) then strip note_title
    else lit "New Note" in
  match NoteManager.add_new_note (note_manager self) note_title with
  | Some (title, nm) =>
      let self1 :=
        {| note_manager := nm; current_note := Some title;
           notes_list := notes_list self; current_row := current_row self;
           text_area := text_area self |} in
      Some (load_selected_note (add_item_and_select self1 title) title)
  | None => None
  end.

(** [self.notes_list.takeItem(row)]: nothing is taken when no row is
    current or the row does not exist. *)
Fixpoint take_row (row : nat) (items : list str) : list str :=
  match items, row with
  | [], _ => []
  | _ :: items', O => items'
  | item :: items', S row' => item :: take_row row' items'
  end.

Definition take_item (row : option nat) (items : list str) : list str :=
  match row with
  | Some r => take_row r items
  | None => items
  end.

(** [delete_note]; [confirm] tells whether the question box was answered
    with Yes, [row_after] is the row the list widget makes current once
    the item is taken. *)
Definition delete_note (confirm : bool) (row_after : option nat)
    (fs : filesystem) (self : t) : option string * filesystem * t :=
  match current_note self with
  | Some title =>
      if truthy title then
        if confirm then
          let nm := NoteManager.delete_note (note_manager self) title in
          (None, NoteManager.save_notes_to_file fs nm,
           {| note_manager := nm; current_note := None;
              notes_list := take_item (current_row self) (notes_list self);
              current_row := row_after;
              text_area := [] |})
        else (None, fs, self)
      else (Some "No note selected!"%string, fs, self)
  | None => (Some "No note selected!"%string, fs, self)
  end.

(** [update_ribbon]: the text the ribbon is given. *)
Definition update_ribbon (self : t) : str :=
  let word_count :=
    if note_selected self
    then TextEditor.get_word_count (text_area self)
    else 0%N in
  match current_note self with
  | Some title =>
      if truthy title
      then [34%N] ++ title ++ [34%N] ++ lit ", Words: "
             ++ str_of_int word_count
      else lit "No note selected."
  | None => lit "No note selected."
  end.

End App.

(** ** The store interface the editor calls

    [load], [titles], [addNew], [content], [setContent], [delete] and
    [persist], each dispatched to the method that implements it: the
    reply, the file and the store after the call. *)

Module Store.

Inductive op : Type :=
| Load
| Titles
| AddNew (title : str)
| Content (title : str)
| SetContent (title content : str)
| Delete (title : str)
| Persist.

Inductive reply : Type :=
| Done
| Title (title : str)
| TitleList (titles : list str)
| Text (content : str)
| Collection (d : PyDict.dict str).

Definition run (o : op) (fs : filesystem) (self : NoteManager.t)
  : option (outcome reply * filesystem * NoteManager.obj) :=
  match o with
  | Load =>
      match NoteManager.load_notes fs self with
      | (Returned d, self') => Some (Returned (Collection d), fs, self')
      | (Raised e, self') => Some (Raised e, fs, self')
      | (Untyped v, self') => Some (Untyped v, fs, self')
      end
  | Titles =>
      Some (Returned (TitleList (NoteManager.get_note_titles self)), fs, self)
  | AddNew title =>
      match NoteManager.add_new_note self title with
      | Some (title', self') => Some (Returned (Title title'), fs, self')
      | None => None
      end
  | Content title =>
      Some (Returned (Text (NoteManager.get_note_content self title)), fs, self)
  | SetContent title content =>
      Some (Returned Done, fs, NoteManager.set_note_content self title content)
  | Delete title =>
      Some (Returned Done, fs, NoteManager.delete_note self title)
  | Persist =>
      Some (Returned Done, NoteManager.save_notes_to_file fs self, self)
  end.

(** The title an operation is given, if it takes one. *)
Definition title_of (o : op) : option str :=
  match o with
  | AddNew title | Content title | SetContent title _ | Delete title =>
      Some title
  | Load | Titles | Persist => None
  end.

(** What the caller sees of a call: the reply and the store. *)
Definition seen (x : option (outcome reply * filesystem * NoteManager.obj))
  : option (outcome reply * NoteManager.obj) :=
  match x with
  | Some (r, _, self') => Some (r, self')
  | None => None
  end.

(** The file after a call. *)
Definition file_after
    (x : option (outcome reply * filesystem * NoteManager.obj))
  : option filesystem :=
  match x with
  | Some (_, fs', _) => Some fs'
  | None => None
  end.

End Store.

(** ** Notions used in the statements *)

(** The title tested by the [i]-th evaluation of the loop condition of
    [add_new_note], counting from zero: the requested title, then its
    suffixed variants. *)
Definition probed (original_title : str) (i : nat) : str :=
  match i with
  | O => original_title
  | S _ => NoteManager.suffixed original_title (N.of_nat i)
  end.

(** A high surrogate immediately followed by a low surrogate. *)
Fixpoint has_surrogate_pair (s : str) : bool :=
  match s with
  | a :: s' =>
      match s' with
      | b :: _ =>
          Json.is_high_surrogate a && Json.is_low_surrogate b
          || has_surrogate_pair s'
      | [] => false
      end
  | [] => false
  end.

Definition plain (s : str) : bool := is_str s && negb (has_surrogate_pair s).

Definition plain_notes (d : PyDict.dict str) : bool :=
  forallb (fun kv => plain (fst kv) && plain (snd kv)) d.

(** An editor on the note ["a"], holding [" new "] in its buffer. *)
Definition editing_a : App.t :=
  {| App.note_manager :=
       NoteManager.with_notes NoteManager.init [(lit "a", lit "old")];
     App.current_note := Some (lit "a");
     App.notes_list := [lit "a"];
     App.current_row := Some 0%nat;
     App.text_area := lit " new " |}.

(** The list widget shows the titles of the store, in its order. *)
Definition in_sync (app : App.t) : Prop :=
  App.notes_list app = NoteManager.get_note_titles (App.note_manager app).

(** What the decoder makes of a string the encoder wrote: each high
    surrogate immediately followed by a low one is joined with it. *)
Fixpoint join_pairs (s : str) : str :=
  match s with
  | [] => []
  | a :: s' =>
      match s' with
      | b :: s'' =>
          if Json.is_high_surrogate a && Json.is_low_surrogate b
          then Json.join_surrogates a b :: join_pairs s''
          else a :: join_pairs s'
      | [] => [a]
      end
  end.

Definition joined (d : PyDict.dict str) : PyDict.dict str :=
  PyDict.of_pairs
    (List.map (fun kv => (join_pairs (fst kv), join_pairs (snd kv))) d).

Definition str_notes (d : PyDict.dict str) : bool :=
  forallb (fun kv => is_str (fst kv) && is_str (snd kv)) d.

(** The characters of a text file that any ASCII-compatible encoding
    writes as they are. *)
Definition ascii_text (c : codepoint) : bool :=
  ((c =? 10) || (32 <=? c) && (c <=? 126))%N.

(** [n] calls of [add_new_note] in a row with the same title: the titles
    returned, in order, and the store at the end. *)
Fixpoint add_many (n : nat) (self : NoteManager.t) (t : str)
  : option (list str * NoteManager.t) :=
  match n with
  | O => Some ([], self)
  | S n' =>
      match NoteManager.add_new_note self t with
      | Some (title, self1) =>
          match add_many n' self1 t with
          | Some (titles, self2) => Some (title :: titles, self2)
          | None => None
          end
      | None => None
      end
  end.

(** The empty notes under the first probed titles from [j] on. *)
Definition fresh_notes (t : str) (j m : nat) : PyDict.dict str :=
  List.map (fun i => (probed t i, [])) (seq j m).

(** The pairs the decoder collects from a dumped collection. *)
Definition tagged_joined (d : PyDict.dict str) : list (str * Json.value) :=
  List.map (fun kv => (join_pairs (fst kv), Json.String (join_pairs (snd kv))))
    d.

(** ** Notions used in the proofs about the JSON text *)

Section JsonNotions.
Local Open Scope N_scope.

(** The two surrogates the encoder writes for a character above
    [0xffff], as sums. *)
Definition high_half (c : N) : N := 0xd800 + (c - 0x10000) / 1024.
Definition low_half (c : N) : N := 0xdc00 + (c - 0x10000) mod 1024.

(** The text after a [\uXXXX] escape opens with the escape of a low
    surrogate, or with a broken escape. *)
Definition low_escape_ahead (r2 : str) : bool :=
  match r2 with
  | b :: u :: r3 =>
      (b =? 92) && (u =? 117)
      && match r3 with
         | g1 :: g2 :: g3 :: g4 :: _ =>
             match Json.hex4val g1 g2 g3 g4 with
             | Some uni2 => Json.is_low_surrogate uni2
             | None => true
             end
         | _ => true
         end
  | _ => false
  end.

(** The members of the object the decoder builds from a dumped
    collection. *)
Definition tagged (d : PyDict.dict str) : list (str * Json.value) :=
  List.map (fun kv => (fst kv, Json.String (snd kv))) d.

(** The text of one entry, from the character after the opening quote of
    its key. *)
Definition entry_text (k v tl : str) : str :=
  flat_map Json.escape k
    ++ 34 :: 58 :: 32 :: 34 :: flat_map Json.escape v ++ 34 :: tl.

(** The entries after the first, each behind its separator. *)
Definition more_entries (d : PyDict.dict str) : str :=
  flat_map (fun kv' => Json.item_separator ++ Json.encode_item kv') d.

(** The scalar branch of [scan_once]. *)
Definition atom (s : str) : option (Json.value * str) :=
  Json.orelse (Json.match_literal "null" Json.Null s)
 (Json.orelse (Json.match_literal "true" Json.TrueV s)
 (Json.orelse (Json.match_literal "false" Json.FalseV s)
 (Json.orelse (Json.match_number s)
 (Json.orelse (Json.match_literal "NaN" Json.NaN s)
 (Json.orelse (Json.match_literal "Infinity" Json.Infinity s)
              (Json.match_literal "-Infinity" Json.NegInfinity s)))))).

(** The four forms the escape of a character takes. *)
Inductive escape_shape (c : codepoint) : Prop :=
| Short (e : codepoint) :
    Json.escape c = [92; e] -> e <> 117 -> Json.unescape e = Some c ->
    escape_shape c
| Verbatim :
    Json.escape c = [c] -> c <> 34 -> c <> 92 -> 32 <= c -> escape_shape c
| Hex :
    Json.escape c = Json.u_escape c -> c < 0x10000 -> escape_shape c
| Pair :
    Json.escape c = Json.u_escape (high_half c) ++ Json.u_escape (low_half c) ->
    0x10000 <= c -> c < 0x110000 -> escape_shape c.

(** What the bounded scanner answers, the scanner says too, unless a
    limit was hit. *)
Definition agrees {A : Type} (a : Json.Bounded.answer A) (r : Json.res A)
  : Prop :=
  match a with
  | Json.Bounded.Got x => r = Json.Ok x
  | Json.Bounded.Failed Json.Bounded.DecodeError => r = Json.Malformed
  | Json.Bounded.Failed Json.Bounded.OutOfSteps => r = Json.Exhausted
  | Json.Bounded.Failed Json.Bounded.RecursionError
  | Json.Bounded.Failed Json.Bounded.ValueError => True
  end.

End JsonNotions.

(** * Properties *)

Unset Implicit Arguments.


(** ** Strings *)

Section StrFacts.

Lemma eqb_eq (a b : str) : PyStr.eqb a b = true <-> a = b.
Proof.
  revert b; induction a as [|x a IH]; intros [|y b]; simpl;
    try (split; [discriminate | intro H; inversion H]); try tauto.
  rewrite andb_true_iff, N.eqb_eq, IH.
  split; [intros [-> ->]; reflexivity | intro H; inversion H; auto].
Qed.

Lemma eqb_refl (a : str) : PyStr.eqb a a = true.
Proof. apply eqb_eq; reflexivity. Qed.

Lemma eqb_neq (a b : str) : PyStr.eqb a b = false <-> a <> b.
Proof.
  rewrite <- eqb_eq. destruct (PyStr.eqb a b); split; congruence.
Qed.

Lemma eqb_sym (a b : str) : PyStr.eqb a b = PyStr.eqb b a.
Proof.
  destruct (PyStr.eqb a b) eqn:E.
  - apply eqb_eq in E; subst; symmetry; apply eqb_refl.
  - symmetry; apply eqb_neq; apply eqb_neq in E; congruence.
Qed.

Lemma digits_of_uint_inj (u v : Decimal.uint) :
  digits_of_uint u = digits_of_uint v -> u = v.
Proof.
  revert v; induction u; intros [] H; simpl in H;
    try discriminate; try reflexivity;
    injection H as H; f_equal; auto.
Qed.

Lemma str_of_int_inj (n m : N) : str_of_int n = str_of_int m -> n = m.
Proof.
  intro H. apply DecimalN.Unsigned.to_uint_inj, digits_of_uint_inj, H.
Qed.

Lemma suffixed_inj (t : str) (n m : N) :
  NoteManager.suffixed t n = NoteManager.suffixed t m -> n = m.
Proof.
  unfold NoteManager.suffixed; intro H.
  apply app_inv_head in H. apply app_inv_head in H.
  apply app_inv_tail in H. apply str_of_int_inj, H.
Qed.

Lemma suffixed_longer (t : str) (n : N) :
  (List.length t < List.length (NoteManager.suffixed t n))%nat.
Proof.
  unfold NoteManager.suffixed. rewrite !length_app. simpl. lia.
Qed.

Lemma suffixed_fresh (t : str) (n : N) : NoteManager.suffixed t n <> t.
Proof.
  intro H. pose proof (suffixed_longer t n) as L. rewrite H in L. lia.
Qed.

Lemma probed_inj (t : str) (i j : nat) : probed t i = probed t j -> i = j.
Proof.
  destruct i, j; simpl; intro H; auto.
  - symmetry in H; apply suffixed_fresh in H; contradiction.
  - apply suffixed_fresh in H; contradiction.
  - apply suffixed_inj in H. lia.
Qed.

End StrFacts.

(** ** Dictionaries *)

Section DictFacts.
Variable V : Type.
Implicit Types (d : PyDict.dict V) (k : str) (v : V).

Lemma contains_In k d : PyDict.contains k d = true <-> In k (PyDict.keys d).
Proof.
  induction d as [|[k' v'] d IH]; simpl.
  - split; [discriminate | tauto].
  - rewrite orb_true_iff, IH, eqb_eq. intuition congruence.
Qed.

Lemma contains_false_In k d :
  PyDict.contains k d = false <-> ~ In k (PyDict.keys d).
Proof.
  rewrite <- contains_In. destruct (PyDict.contains k d); split; congruence.
Qed.

Lemma lookup_absent k d : PyDict.contains k d = false -> PyDict.lookup k d = None.
Proof.
  induction d as [|[k' v'] d IH]; simpl; auto.
  intro H; apply orb_false_elim in H as [-> H]; auto.
Qed.

Lemma lookup_present k d :
  PyDict.contains k d = true -> exists v, PyDict.lookup k d = Some v.
Proof.
  induction d as [|[k' v'] d IH]; simpl; [discriminate|].
  destruct (PyStr.eqb k k'); simpl; eauto.
Qed.

Lemma set_absent k v d :
  PyDict.contains k d = false -> PyDict.set k v d = d ++ [(k, v)].
Proof.
  induction d as [|[k' v'] d IH]; simpl; auto.
  intro H; apply orb_false_elim in H as [-> H]. now rewrite IH.
Qed.

Lemma keys_set_present k v d :
  PyDict.contains k d = true -> PyDict.keys (PyDict.set k v d) = PyDict.keys d.
Proof.
  induction d as [|[k' v'] d IH]; simpl; [discriminate|].
  destruct (PyStr.eqb k k') eqn:E; simpl; auto.
  intro H; now rewrite IH.
Qed.

Lemma keys_set k v d :
  PyDict.keys (PyDict.set k v d)
  = if PyDict.contains k d then PyDict.keys d else PyDict.keys d ++ [k].
Proof.
  destruct (PyDict.contains k d) eqn:E.
  - now apply keys_set_present.
  - rewrite set_absent by assumption. unfold PyDict.keys.
    now rewrite map_app.
Qed.

Lemma lookup_set k' k v d :
  PyDict.lookup k' (PyDict.set k v d)
  = if PyStr.eqb k' k then Some v else PyDict.lookup k' d.
Proof.
  induction d as [|[k0 v0] d IH]; simpl.
  - destruct (PyStr.eqb k' k); reflexivity.
  - destruct (PyStr.eqb k k0) eqn:E; simpl.
    + apply eqb_eq in E; subst k0.
      destruct (PyStr.eqb k' k); reflexivity.
    + destruct (PyStr.eqb k' k0) eqn:E0; auto.
      apply eqb_eq in E0; subst k0.
      rewrite eqb_sym, E. reflexivity.
Qed.

Lemma contains_set k' k v d :
  PyDict.contains k' (PyDict.set k v d)
  = PyStr.eqb k' k || PyDict.contains k' d.
Proof.
  induction d as [|[k0 v0] d IH]; simpl.
  - now rewrite orb_false_r.
  - destruct (PyStr.eqb k k0) eqn:E; simpl.
    + apply eqb_eq in E; subst k0.
      destruct (PyStr.eqb k' k); reflexivity.
    + rewrite IH. destruct (PyStr.eqb k' k0), (PyStr.eqb k' k); reflexivity.
Qed.

Lemma contains_app k d d' :
  PyDict.contains k (d ++ d') = PyDict.contains k d || PyDict.contains k d'.
Proof.
  induction d as [|[k0 v0] d IH]; simpl; auto.
  now rewrite IH, orb_assoc.
Qed.

Lemma lookup_app_l k d d' :
  PyDict.contains k d = true -> PyDict.lookup k (d ++ d') = PyDict.lookup k d.
Proof.
  induction d as [|[k0 v0] d IH]; simpl; [discriminate|].
  destruct (PyStr.eqb k k0); simpl; auto.
Qed.

Lemma lookup_app_new k v d :
  PyDict.contains k d = false -> PyDict.lookup k (d ++ [(k, v)]) = Some v.
Proof.
  induction d as [|[k0 v0] d IH]; simpl.
  - now rewrite eqb_refl.
  - intro H; apply orb_false_elim in H as [-> H]. auto.
Qed.

Lemma del_absent k d : PyDict.contains k d = false -> PyDict.del k d = d.
Proof.
  induction d as [|[k' v'] d IH]; simpl; auto.
  intro H; apply orb_false_elim in H as [-> H]. now rewrite IH.
Qed.

Lemma contains_del k' k d :
  PyDict.contains k' (PyDict.del k d)
  = negb (PyStr.eqb k' k) && PyDict.contains k' d.
Proof.
  induction d as [|[k0 v0] d IH]; simpl.
  - now rewrite andb_false_r.
  - destruct (PyStr.eqb k k0) eqn:E; simpl; rewrite IH.
    + apply eqb_eq in E; subst k0.
      destruct (PyStr.eqb k' k); reflexivity.
    + destruct (PyStr.eqb k' k0) eqn:E0; simpl.
      * apply eqb_eq in E0; subst k0. now rewrite eqb_sym, E.
      * reflexivity.
Qed.

Lemma lookup_del k' k d :
  PyDict.lookup k' (PyDict.del k d)
  = if PyStr.eqb k' k then None else PyDict.lookup k' d.
Proof.
  induction d as [|[k0 v0] d IH]; simpl.
  - destruct (PyStr.eqb k' k); reflexivity.
  - destruct (PyStr.eqb k k0) eqn:E; simpl; rewrite IH.
    + apply eqb_eq in E; subst k0.
      destruct (PyStr.eqb k' k); reflexivity.
    + destruct (PyStr.eqb k' k0) eqn:E0; auto.
      apply eqb_eq in E0; subst k0. now rewrite eqb_sym, E.
Qed.

Lemma wf_set k v d : PyDict.wf d -> PyDict.wf (PyDict.set k v d).
Proof.
  unfold PyDict.wf. rewrite keys_set.
  destruct (PyDict.contains k d) eqn:E; auto.
  intro H. apply NoDup_app; auto.
  - constructor; [simpl; tauto | constructor].
  - intros x Hx [<-|[]]. apply contains_false_In in E. contradiction.
Qed.

Lemma wf_del k d : PyDict.wf d -> PyDict.wf (PyDict.del k d).
Proof.
  unfold PyDict.wf.
  induction d as [|[k0 v0] d IH]; simpl; auto.
  intro H; inversion H as [|? ? Hn Hd]; subst.
  destruct (PyStr.eqb k k0); auto.
  simpl; constructor; auto.
  intro Hin. apply contains_In in Hin. rewrite contains_del in Hin.
  apply andb_true_iff in Hin as [_ Hin]. apply contains_In in Hin.
  contradiction.
Qed.

(** [dict(pairs)] of pairs with distinct keys is those pairs, in order. *)
Lemma of_pairs_wf (pairs : list (str * V)) :
  PyDict.wf pairs -> PyDict.of_pairs pairs = pairs.
Proof.
  unfold PyDict.of_pairs.
  enough (G : forall acc : PyDict.dict V, PyDict.wf (acc ++ pairs) ->
            fold_left (fun d kv => PyDict.set (fst kv) (snd kv) d) pairs acc
            = acc ++ pairs) by (intro H; apply (G [] H)).
  induction pairs as [|[k v] ps IH]; intros acc H; simpl.
  - now rewrite app_nil_r.
  - assert (E : PyDict.contains k acc = false).
    { apply contains_false_In. unfold PyDict.wf, PyDict.keys in H.
      rewrite map_app in H. simpl in H.
      apply NoDup_remove_2 in H. intro Hin; apply H, in_or_app; now left. }
    rewrite set_absent by assumption.
    rewrite IH; rewrite <- app_assoc; auto.
Qed.

End DictFacts.

(** ** The note store *)

Section ProbeFacts.
Variable d : PyDict.dict str.
Variable t : str.

Lemma probe_step (fuel : nat) (x : str) (count : N) :
  NoteManager.probe (S fuel) d t x count
  = if PyDict.contains x d
    then NoteManager.probe fuel d t (NoteManager.suffixed t count) (count + 1)%N
    else Some x.
Proof. reflexivity. Qed.

Lemma probed_succ (i : nat) :
  probed t (S i) = NoteManager.suffixed t (N.of_nat (S i)).
Proof. reflexivity. Qed.

(** The loop stops at the first title of the sequence that is not a key,
    whatever fuel is left over. *)
Lemma probe_finds (k : nat) : forall (fuel j : nat),
  (forall i, (j <= i < j + k)%nat -> PyDict.contains (probed t i) d = true) ->
  PyDict.contains (probed t (j + k)) d = false ->
  (k < fuel)%nat ->
  NoteManager.probe fuel d t (probed t j) (N.of_nat (S j))
  = Some (probed t (j + k)).
Proof.
  induction k as [|k IH]; intros fuel j Hocc Hfree Hfuel;
    (destruct fuel as [|fuel]; [lia|]); rewrite probe_step.
  - rewrite Nat.add_0_r in Hfree. rewrite Hfree.
    now rewrite Nat.add_0_r.
  - rewrite (Hocc j) by lia.
    rewrite <- probed_succ.
    replace (N.of_nat (S j) + 1)%N with (N.of_nat (S (S j))) by lia.
    rewrite Nat.add_succ_r. apply (IH fuel (S j)).
    + intros i Hi. apply Hocc. lia.
    + now rewrite Nat.add_succ_r in Hfree.
    + lia.
Qed.

(** Either the first [n + 1] probed titles are all keys, or one of them is
    the first that is not. *)
Lemma occupied_or_first_free (n : nat) :
  (forall i, (i <= n)%nat -> PyDict.contains (probed t i) d = true)
  \/ exists k, (k <= n)%nat
       /\ PyDict.contains (probed t k) d = false
       /\ forall i, (i < k)%nat -> PyDict.contains (probed t i) d = true.
Proof.
  induction n as [|n [IH|(k & Hk & Hfree & Hocc)]].
  - destruct (PyDict.contains (probed t 0) d) eqn:E.
    + left; intros i Hi. now replace i with 0%nat by lia.
    + right; exists 0%nat. repeat split; auto. intros i Hi; lia.
  - destruct (PyDict.contains (probed t (S n)) d) eqn:E.
    + left; intros i Hi.
      destruct (Nat.eq_dec i (S n)) as [->|Hne]; auto. apply IH; lia.
    + right; exists (S n). repeat split; auto. intros i Hi; apply IH; lia.
  - right; exists k. repeat split; auto.
Qed.

(** Pigeonhole: the probed titles are pairwise distinct, so a finite
    collection cannot hold more of them than it has keys. *)
Lemma first_free :
  exists k, (k <= List.length d)%nat
    /\ PyDict.contains (probed t k) d = false
    /\ forall i, (i < k)%nat -> PyDict.contains (probed t i) d = true.
Proof.
  destruct (occupied_or_first_free (List.length d)) as [Hall|Hk]; auto.
  exfalso.
  set (cands := List.map (probed t) (seq 0 (S (List.length d)))).
  assert (Hnd : NoDup cands).
  { apply Finite.Injective_map_NoDup; [|apply seq_NoDup].
    intros i j; apply probed_inj. }
  assert (Hincl : incl cands (PyDict.keys d)).
  { intros x Hx. apply in_map_iff in Hx as (i & <- & Hi).
    apply in_seq in Hi. apply contains_In, Hall. lia. }
  pose proof (NoDup_incl_length Hnd Hincl) as L.
  unfold cands, PyDict.keys in L. rewrite !length_map, length_seq in L. lia.
Qed.

End ProbeFacts.

Lemma add_new_note_fuel_first_free (self : NoteManager.t) (t : str) (k : nat) :
  PyDict.contains (probed t k) (NoteManager.notes self) = false ->
  (forall i, (i < k)%nat ->
     PyDict.contains (probed t i) (NoteManager.notes self) = true) ->
  forall fuel, (k < fuel)%nat ->
  NoteManager.add_new_note_fuel fuel self t
  = Some (probed t k,
          NoteManager.with_notes self
            (NoteManager.notes self ++ [(probed t k, [])])).
Proof.
  intros Hfree Hocc fuel Hfuel. unfold NoteManager.add_new_note_fuel.
  change (NoteManager.probe fuel (NoteManager.notes self) t t 1%N)
    with (NoteManager.probe fuel (NoteManager.notes self) t (probed t 0)
            (N.of_nat 1)).
  rewrite (@probe_finds (NoteManager.notes self) t k fuel 0); auto.
  - simpl. now rewrite set_absent.
  - intros i Hi. apply Hocc. lia.
Qed.

Lemma add_new_note_fresh (self : NoteManager.t) (t : str) :
  PyDict.contains t (NoteManager.notes self) = false ->
  NoteManager.add_new_note self t
  = Some (t, NoteManager.with_notes self (NoteManager.notes self ++ [(t, [])])).
Proof.
  intro H. unfold NoteManager.add_new_note.
  apply (@add_new_note_fuel_first_free self t 0); auto; lia.
Qed.

Lemma add_new_note_collision (self : NoteManager.t) (t : str) :
  PyDict.contains t (NoteManager.notes self) = true ->
  exists n : N, (1 <= n)%N
    /\ (forall m, (1 <= m < n)%N ->
          PyDict.contains (NoteManager.suffixed t m) (NoteManager.notes self)
          = true)
    /\ PyDict.contains (NoteManager.suffixed t n) (NoteManager.notes self)
       = false
    /\ NoteManager.add_new_note self t
       = Some (NoteManager.suffixed t n,
               NoteManager.with_notes self
                 (NoteManager.notes self
                    ++ [(NoteManager.suffixed t n, [])])).
Proof.
  intro Hin.
  destruct (first_free (NoteManager.notes self) t) as (k & Hk & Hfree & Hocc).
  destruct k as [|k]; [simpl in Hfree; congruence|].
  exists (N.of_nat (S k)). rewrite <- probed_succ. repeat split.
  - lia.
  - intros m Hm. specialize (Hocc (N.to_nat m)).
    destruct (N.to_nat m) as [|i] eqn:E; [lia|].
    rewrite probed_succ, <- E, N2Nat.id in Hocc. apply Hocc. lia.
  - exact Hfree.
  - unfold NoteManager.add_new_note.
    apply add_new_note_fuel_first_free; auto. lia.
Qed.

Lemma add_new_note_appends (self : NoteManager.t) (t : str) :
  exists k, (k <= List.length (NoteManager.notes self))%nat
    /\ PyDict.contains (probed t k) (NoteManager.notes self) = false
    /\ (forall i, (i < k)%nat ->
          PyDict.contains (probed t i) (NoteManager.notes self) = true)
    /\ forall fuel, (k < fuel)%nat ->
         NoteManager.add_new_note_fuel fuel self t
         = Some (probed t k,
                 NoteManager.with_notes self
                   (NoteManager.notes self ++ [(probed t k, [])])).
Proof.
  destruct (first_free (NoteManager.notes self) t) as (k & Hk & Hfree & Hocc).
  exists k. repeat split; auto.
  intros fuel Hfuel. now apply add_new_note_fuel_first_free.
Qed.

(** C1. [add_new_note] returns the requested title when it is free and
    otherwise the first free title among ["t (1)"], ["t (2)"], ...; the
    title it returns was not a key, gets empty content, and every note
    already present keeps its content; three calls in a row on a collection
    holding none of the three titles return [t], ["t (1)"], ["t (2)"]. *)
Theorem add_new_note_unique_title (self : NoteManager.t) (t : str) :
  (PyDict.contains t (NoteManager.notes self) = false ->
     NoteManager.add_new_note self t
     = Some (t, NoteManager.with_notes self
                  (NoteManager.notes self ++ [(t, [])])))
  /\ (PyDict.contains t (NoteManager.notes self) = true ->
      exists n : N, (1 <= n)%N
        /\ (forall m, (1 <= m < n)%N ->
              PyDict.contains (NoteManager.suffixed t m)
                (NoteManager.notes self) = true)
        /\ PyDict.contains (NoteManager.suffixed t n)
             (NoteManager.notes self) = false
        /\ NoteManager.add_new_note self t
           = Some (NoteManager.suffixed t n,
                   NoteManager.with_notes self
                     (NoteManager.notes self
                        ++ [(NoteManager.suffixed t n, [])])))
  /\ (exists title self',
        NoteManager.add_new_note self t = Some (title, self')
        /\ PyDict.contains title (NoteManager.notes self) = false
        /\ NoteManager.get_note_content self' title = []
        /\ forall k, PyDict.contains k (NoteManager.notes self) = true ->
             PyDict.lookup k (NoteManager.notes self')
             = PyDict.lookup k (NoteManager.notes self))
  /\ (PyDict.contains t (NoteManager.notes self) = false ->
      PyDict.contains (NoteManager.suffixed t 1) (NoteManager.notes self)
        = false ->
      PyDict.contains (NoteManager.suffixed t 2) (NoteManager.notes self)
        = false ->
      exists s1 s2 s3,
        NoteManager.add_new_note self t = Some (t, s1)
        /\ NoteManager.add_new_note s1 t
           = Some (NoteManager.suffixed t 1, s2)
        /\ NoteManager.add_new_note s2 t
           = Some (NoteManager.suffixed t 2, s3)).
Proof.
  split; [apply add_new_note_fresh|].
  split; [apply add_new_note_collision|].
  split.
  - destruct (add_new_note_appends self t) as (k & Hk & Hfree & _ & Hrun).
    eexists _, _. split; [apply Hrun; lia|]. repeat split; auto.
    + unfold NoteManager.get_note_content, PyDict.get, NoteManager.with_notes.
      cbn [NoteManager.notes].
      rewrite lookup_app_new by assumption. reflexivity.
    + intros k' Hk'. simpl. now apply lookup_app_l.
  - intros H0 H1 H2.
    set (d := NoteManager.notes self) in *.
    set (s1 := NoteManager.with_notes self (d ++ [(t, [])])).
    set (s2 := NoteManager.with_notes s1
                 (NoteManager.notes s1 ++ [(NoteManager.suffixed t 1, [])])).
    set (s3 := NoteManager.with_notes s2
                 (NoteManager.notes s2 ++ [(NoteManager.suffixed t 2, [])])).
    exists s1, s2, s3.
    assert (E1 : PyStr.eqb (NoteManager.suffixed t 1) t = false)
      by apply eqb_neq, suffixed_fresh.
    assert (E2 : PyStr.eqb (NoteManager.suffixed t 2) t = false)
      by apply eqb_neq, suffixed_fresh.
    assert (E21 : PyStr.eqb (NoteManager.suffixed t 2)
                    (NoteManager.suffixed t 1) = false).
    { apply eqb_neq. intro H. apply suffixed_inj in H. discriminate. }
    split; [now apply add_new_note_fresh|]. split.
    + unfold NoteManager.add_new_note.
      apply (@add_new_note_fuel_first_free s1 t 1).
      * simpl. rewrite contains_app. simpl. fold d. now rewrite H1, E1.
      * intros i Hi. replace i with 0%nat by lia. simpl.
        rewrite contains_app. simpl. now rewrite eqb_refl, orb_true_r.
      * simpl. rewrite length_app. simpl. lia.
    + unfold NoteManager.add_new_note.
      apply (@add_new_note_fuel_first_free s2 t 2).
      * simpl. rewrite !contains_app. simpl. fold d.
        now rewrite H2, E2, E21.
      * intros i Hi.
        assert (Hi' : i = 0%nat \/ i = 1%nat) by lia.
        destruct Hi' as [-> | ->]; simpl; rewrite !contains_app; simpl;
          rewrite eqb_refl; now rewrite ?orb_true_r.
      * simpl. rewrite !length_app. simpl. lia.
Qed.

Lemma add_new_note_unique_title_witness :
  NoteManager.add_new_note NoteManager.init (lit "Ideas")
  = Some (lit "Ideas",
          NoteManager.with_notes NoteManager.init [(lit "Ideas", [])])
  /\ (exists n : N,
        NoteManager.add_new_note
          (NoteManager.with_notes NoteManager.init [(lit "Ideas", lit "x")])
          (lit "Ideas")
        = Some (NoteManager.suffixed (lit "Ideas") n,
                NoteManager.with_notes NoteManager.init
                  ([(lit "Ideas", lit "x")]
                     ++ [(NoteManager.suffixed (lit "Ideas") n, [])])))
  /\ (exists s1 s2 s3,
        NoteManager.add_new_note NoteManager.init (lit "t")
        = Some (lit "t", s1)
        /\ NoteManager.add_new_note s1 (lit "t") = Some (lit "t (1)", s2)
        /\ NoteManager.add_new_note s2 (lit "t") = Some (lit "t (2)", s3)).
Proof.
  split; [|split].
  - apply (proj1 (add_new_note_unique_title NoteManager.init (lit "Ideas"))).
    reflexivity.
  - destruct (proj1 (proj2
      (add_new_note_unique_title
         (NoteManager.with_notes NoteManager.init [(lit "Ideas", lit "x")])
         (lit "Ideas"))) eq_refl) as (n & _ & _ & _ & H).
    exists n. exact H.
  - apply (proj2 (proj2 (proj2
      (add_new_note_unique_title NoteManager.init (lit "t")))));
      reflexivity.
Defined.

(** C5. [set_note_content] is an upsert: afterwards the title is a key and
    its content is the one given; a title already present keeps its place
    in the list of titles, a new one is appended; every other title reads
    as before. *)
Theorem set_note_content_upsert (self : NoteManager.t) (t c : str) :
  In t (NoteManager.get_note_titles (NoteManager.set_note_content self t c))
  /\ NoteManager.get_note_content (NoteManager.set_note_content self t c) t = c
  /\ NoteManager.get_note_titles (NoteManager.set_note_content self t c)
     = (if PyDict.contains t (NoteManager.notes self)
        then NoteManager.get_note_titles self
        else NoteManager.get_note_titles self ++ [t])
  /\ forall k,
       NoteManager.get_note_content (NoteManager.set_note_content self t c) k
       = if PyStr.eqb k t then c else NoteManager.get_note_content self k.
Proof.
  unfold NoteManager.get_note_titles, NoteManager.get_note_content,
    NoteManager.set_note_content, PyDict.get; simpl.
  repeat split.
  - apply contains_In. now rewrite contains_set, eqb_refl.
  - now rewrite lookup_set, eqb_refl.
  - apply keys_set.
  - intro k. rewrite lookup_set. now destruct (PyStr.eqb k t).
Qed.

(** C6. [delete_note] removes the title when it is a key and changes
    nothing when it is not; either way the title is then no key and reads
    as the empty string, and the other notes are untouched. *)
Theorem delete_note_removes (self : NoteManager.t) (t : str) :
  (PyDict.contains t (NoteManager.notes self) = false ->
     NoteManager.delete_note self t = self)
  /\ ~ In t (NoteManager.get_note_titles (NoteManager.delete_note self t))
  /\ NoteManager.get_note_content (NoteManager.delete_note self t) t = []
  /\ (forall k, In k (NoteManager.get_note_titles
                        (NoteManager.delete_note self t))
                <-> k <> t /\ In k (NoteManager.get_note_titles self))
  /\ forall k,
       NoteManager.get_note_content (NoteManager.delete_note self t) k
       = if PyStr.eqb k t then [] else NoteManager.get_note_content self k.
Proof.
  assert (Hc : forall k,
    PyDict.contains k (NoteManager.notes (NoteManager.delete_note self t))
    = negb (PyStr.eqb k t) && PyDict.contains k (NoteManager.notes self)).
  { intro k. unfold NoteManager.delete_note.
    destruct (PyDict.contains t (NoteManager.notes self)) eqn:E; simpl.
    - apply contains_del.
    - destruct (PyStr.eqb k t) eqn:Ek; simpl; auto.
      apply eqb_eq in Ek; subst; auto. }
  assert (Hl : forall k,
    PyDict.lookup k (NoteManager.notes (NoteManager.delete_note self t))
    = if PyStr.eqb k t then None
      else PyDict.lookup k (NoteManager.notes self)).
  { intro k. unfold NoteManager.delete_note.
    destruct (PyDict.contains t (NoteManager.notes self)) eqn:E; simpl.
    - apply lookup_del.
    - destruct (PyStr.eqb k t) eqn:Ek; auto.
      apply eqb_eq in Ek; subst. now apply lookup_absent. }
  unfold NoteManager.get_note_titles, NoteManager.get_note_content, PyDict.get.
  repeat split.
  - intro H. unfold NoteManager.delete_note. now rewrite H.
  - intro H. apply contains_In in H. rewrite Hc, eqb_refl in H. discriminate.
  - now rewrite Hl, eqb_refl.
  - apply contains_In in H. rewrite Hc in H.
    apply andb_true_iff in H as [H _]. intros ->.
    rewrite eqb_refl in H. discriminate.
  - apply contains_In in H. rewrite Hc in H.
    apply andb_true_iff in H as [_ H]. now apply contains_In.
  - intros [Hne Hin]. apply contains_In. rewrite Hc.
    apply eqb_neq in Hne. rewrite Hne. now apply contains_In.
  - intro k. rewrite Hl. now destruct (PyStr.eqb k t).
Qed.

Lemma delete_note_removes_witness :
  NoteManager.delete_note
    (NoteManager.with_notes NoteManager.init [(lit "a", lit "b")])
    (lit "Nonexistent")
  = NoteManager.with_notes NoteManager.init [(lit "a", lit "b")].
Proof.
  apply (proj1 (delete_note_removes
                  (NoteManager.with_notes NoteManager.init
                     [(lit "a", lit "b")])
                  (lit "Nonexistent"))).
  reflexivity.
Defined.

(** C7. The content of a title that is not a key is the empty string. *)
Theorem get_note_content_absent (self : NoteManager.t) (t : str) :
  ~ In t (NoteManager.get_note_titles self) ->
  NoteManager.get_note_content self t = [].
Proof.
  intro H. apply contains_false_In in H.
  unfold NoteManager.get_note_content, PyDict.get.
  now rewrite lookup_absent.
Qed.

Lemma get_note_content_absent_witness :
  NoteManager.get_note_content
    (NoteManager.with_notes NoteManager.init [(lit "a", lit "b")]) (lit "c")
  = [].
Proof.
  apply get_note_content_absent. simpl.
  intros [H|[]]. discriminate H.
Defined.

(** C9. The loop of [add_new_note] ends: one of the first [len + 1] titles
    it can test, [len] being the number of notes, is not a key; with one
    unit of fuel per test the method returns that title, and more fuel
    changes nothing. *)
Theorem add_new_note_total (self : NoteManager.t) (t : str) :
  exists (n : nat) (title : str) (self' : NoteManager.t),
    (n <= List.length (NoteManager.notes self))%nat
    /\ title = probed t n
    /\ PyDict.contains title (NoteManager.notes self) = false
    /\ NoteManager.add_new_note self t = Some (title, self')
    /\ forall fuel, (n < fuel)%nat ->
         NoteManager.add_new_note_fuel fuel self t = Some (title, self').
Proof.
  destruct (add_new_note_appends self t) as (k & Hk & Hfree & _ & Hrun).
  exists k. eexists _, _. repeat split; eauto.
  apply Hrun. lia.
Qed.

Lemma add_new_note_total_witness :
  exists title self',
    NoteManager.add_new_note_fuel 7
      (NoteManager.with_notes NoteManager.init
         [(lit "a", []); (lit "a (1)", [])])
      (lit "a")
    = Some (title, self').
Proof.
  destruct (add_new_note_total
              (NoteManager.with_notes NoteManager.init
                 [(lit "a", []); (lit "a (1)", [])])
              (lit "a")) as (n & title & self' & Hn & _ & _ & _ & Hfuel).
  exists title, self'. apply Hfuel. simpl in Hn. lia.
Defined.

(** C10. An empty title is taken like any other: on a collection without
    it, [add_new_note] returns the empty string and appends it with empty
    content, so it is listed among the titles; and every operation of the
    store given the empty title returns normally. *)
Theorem empty_title_accepted (fs : filesystem) (self : NoteManager.t) :
  (PyDict.contains [] (NoteManager.notes self) = false ->
   exists self',
     NoteManager.add_new_note self [] = Some ([], self')
     /\ NoteManager.notes self' = NoteManager.notes self ++ [([], [])]
     /\ In [] (NoteManager.get_note_titles self')
     /\ NoteManager.get_note_content self' [] = [])
  /\ forall o, Store.title_of o = Some [] ->
       exists r fs' (self' : NoteManager.t),
         Store.run o fs self = Some (Returned r, fs', self').
Proof.
  split.
  - intro H. eexists; split; [now apply add_new_note_fresh|].
    repeat split.
    + unfold NoteManager.get_note_titles, PyDict.keys; simpl.
      rewrite map_app. apply in_or_app; right; simpl; auto.
    + unfold NoteManager.get_note_content, PyDict.get; simpl.
      now rewrite lookup_app_new.
  - intros o Ho. destruct o; simpl in Ho; try discriminate;
      injection Ho as ->; simpl; eauto.
    destruct (add_new_note_appends self []) as (n & Hn & _ & _ & H).
    unfold NoteManager.add_new_note. rewrite H by lia. eauto.
Qed.

Lemma empty_title_accepted_witness :
  (exists self',
     NoteManager.add_new_note NoteManager.init [] = Some ([], self')
     /\ In [] (NoteManager.get_note_titles self'))
  /\ exists r fs' (self' : NoteManager.t),
       Store.run (Store.Delete []) {| notes_json := None |} NoteManager.init
       = Some (Returned r, fs', self').
Proof.
  destruct (empty_title_accepted {| notes_json := None |} NoteManager.init)
    as [Hadd Hrun].
  split.
  - destruct (Hadd eq_refl) as (self' & H1 & _ & H2 & _).
    exists self'. split; assumption.
  - apply Hrun. reflexivity.
Defined.

(** ** The JSON text *)

(** Split on the first [match] or [if] of a hypothesis. *)
Ltac break_in H :=
  match type of H with
  | context [match ?x with _ => _ end] =>
      destruct x eqn:?; try discriminate H
  end.

Section JsonFacts.
Local Open Scope N_scope.

(** [lia] is to reason about the divisions by sixteen and by 1024. *)
Ltac Zify.zify_post_hook ::= Z.to_euclidean_division_equations.

Lemma hexval_hexdigit n : n < 16 -> Json.hexval (Json.hexdigit n) = Some n.
Proof.
  intro H. destruct n as [|p]; [reflexivity|].
  do 4 (try destruct p as [p|p|]); try reflexivity; exfalso; lia.
Qed.

(** *** Hexadecimal digits and surrogate arithmetic *)

Lemma hex4_arith c : c < 65536 ->
  ((c / 4096 mod 16 * 16 + c / 256 mod 16) * 16 + c / 16 mod 16) * 16
  + c mod 16 = c.
Proof. intro H. lia. Qed.

Lemma lor_shift_add a b : b < 1024 -> N.lor (a * 1024) b = a * 1024 + b.
Proof.
  intro H.
  rewrite <- N.lxor_lor, <- N.add_nocarry_lxor; auto.
  all: apply N.bits_inj; intro i; rewrite N.land_spec, N.bits_0.
  all: change 1024 with (2 ^ 10); rewrite <- N.shiftl_mul_pow2.
  all: destruct (N.lt_ge_cases i 10) as [Hi|Hi].
  all: try (rewrite N.shiftl_spec_low by assumption; reflexivity).
  all: destruct (N.eq_dec b 0) as [->|Hb]; [rewrite N.bits_0; apply andb_false_r|].
  all: rewrite (N.bits_above_log2 b i); [apply andb_false_r|].
  all: apply N.lt_le_trans with 10; auto; apply N.log2_lt_pow2; lia.
Qed.

Lemma hex4val_digits c : c < 65536 ->
  Json.hex4val (Json.hexdigit (c / 4096 mod 16)) (Json.hexdigit (c / 256 mod 16))
    (Json.hexdigit (c / 16 mod 16)) (Json.hexdigit (c mod 16)) = Some c.
Proof.
  intro H. unfold Json.hex4val.
  rewrite !hexval_hexdigit by (apply N.mod_lt; discriminate).
  now rewrite hex4_arith.
Qed.

Lemma surrogate_halves c :
  N.lor 0xd800 (N.land (N.shiftr (c - 0x10000) 10) 0x3ff) = 0xd800 + ((c - 0x10000) / 1024) mod 1024
  /\ N.lor 0xdc00 (N.land (c - 0x10000) 0x3ff) = low_half c.
Proof.
  unfold low_half.
  change 0x3ff with (N.ones 10). rewrite !N.land_ones, N.shiftr_div_pow2.
  change (2 ^ 10) with 1024.
  change 0xd800 with (54 * 1024). change 0xdc00 with (55 * 1024).
  split; apply lor_shift_add; apply N.mod_lt; discriminate.
Qed.

Lemma join_halves c : 0x10000 <= c -> c < 0x110000 ->
  Json.join_surrogates (high_half c) (low_half c) = c.
Proof.
  intros H1 H2. unfold Json.join_surrogates, high_half, low_half.
  replace (0xd800 + (c - 0x10000) / 1024 - 0xd800) with ((c - 0x10000) / 1024) by lia.
  replace (0xdc00 + (c - 0x10000) mod 1024 - 0xdc00) with ((c - 0x10000) mod 1024) by lia.
  rewrite N.shiftl_mul_pow2. change (2 ^ 10) with 1024.
  rewrite lor_shift_add by (apply N.mod_lt; discriminate).
  lia.
Qed.

(** *** One character: what [escape] writes, [scanstring] reads *)

Lemma escape_pair c : 0x10000 <= c -> c < 0x110000 ->
  Json.escape c = Json.u_escape (high_half c) ++ Json.u_escape (low_half c).
Proof.
  intros H1 H2. unfold Json.escape.
  repeat match goal with
  | |- context [?a =? ?b] => destruct (N.eqb_spec a b) as [E|_]; [lia|]
  end.
  destruct (N.leb_spec 32 c); [|lia]. destruct (N.leb_spec c 126); [lia|].
  destruct (N.ltb_spec c 0x10000); [lia|]. cbn [andb].
  destruct (surrogate_halves c) as [-> ->].
  unfold high_half. rewrite N.mod_small; [reflexivity|]. lia.
Qed.

Lemma escape_cases c : is_codepoint c = true -> escape_shape c.
Proof.
  unfold is_codepoint. intro Hc. apply N.ltb_lt in Hc.
  destruct (N.eqb_spec c 34) as [->|N34]; [now apply Short with 34|].
  destruct (N.eqb_spec c 92) as [->|N92]; [now apply Short with 92|].
  destruct (N.eqb_spec c 10) as [->|N10]; [now apply Short with 110|].
  destruct (N.eqb_spec c 13) as [->|N13]; [now apply Short with 114|].
  destruct (N.eqb_spec c 9) as [->|N9]; [now apply Short with 116|].
  destruct (N.eqb_spec c 12) as [->|N12]; [now apply Short with 102|].
  destruct (N.eqb_spec c 8) as [->|N8]; [now apply Short with 98|].
  assert (E : Json.escape c
              = if (32 <=? c) && (c <=? 126) then [c]
                else if c <? 0x10000 then Json.u_escape c
                else Json.u_escape (N.lor 0xd800 (N.land (N.shiftr (c - 0x10000) 10) 0x3ff))
                     ++ Json.u_escape (N.lor 0xdc00 (N.land (c - 0x10000) 0x3ff))).
  { unfold Json.escape.
    repeat match goal with
    | |- context [?a =? ?b] => destruct (N.eqb_spec a b) as [E|_]; [lia|]
    end. reflexivity. }
  destruct ((32 <=? c) && (c <=? 126)) eqn:Hp.
  - apply andb_true_iff in Hp as [Hp _]. apply N.leb_le in Hp.
    now apply Verbatim.
  - destruct (N.ltb_spec c 0x10000).
    + now apply Hex.
    + apply Pair; auto. now apply escape_pair.
Qed.

Lemma scanstring_short e ch tl :
  e <> 117 -> Json.unescape e = Some ch ->
  Json.scanstring (92 :: e :: tl) = Json.cons_res ch (Json.scanstring tl).
Proof.
  intros He Hu. cbn [Json.scanstring]. change (92 =? 34) with false.
  change (92 =? 92) with true. cbv iota.
  destruct (N.eqb_spec e 117); [contradiction|]. now rewrite Hu.
Qed.

Lemma scanstring_verbatim c tl :
  c <> 34 -> c <> 92 -> 32 <= c ->
  Json.scanstring (c :: tl) = Json.cons_res c (Json.scanstring tl).
Proof.
  intros H1 H2 H3. cbn [Json.scanstring].
  destruct (N.eqb_spec c 34); [contradiction|].
  destruct (N.eqb_spec c 92); [contradiction|].
  destruct (N.ltb_spec c 32); [lia|]. reflexivity.
Qed.

Lemma scanstring_unfold_u h1 h2 h3 h4 tl :
  Json.scanstring (92 :: 117 :: h1 :: h2 :: h3 :: h4 :: tl)
  = match Json.hex4val h1 h2 h3 h4 with
    | None => Json.Malformed
    | Some uni =>
        if Json.is_high_surrogate uni then
          match tl with
          | b :: u :: r3 =>
              if (b =? 92) && (u =? 117) then
                match r3 with
                | g1 :: g2 :: g3 :: g4 :: r4 =>
                    match Json.hex4val g1 g2 g3 g4 with
                    | None => Json.Malformed
                    | Some uni2 =>
                        if Json.is_low_surrogate uni2
                        then Json.cons_res (Json.join_surrogates uni uni2)
                               (Json.scanstring r4)
                        else Json.cons_res uni (Json.scanstring tl)
                    end
                | _ => Json.Malformed
                end
              else Json.cons_res uni (Json.scanstring tl)
          | _ => Json.cons_res uni (Json.scanstring tl)
          end
        else Json.cons_res uni (Json.scanstring tl)
    end.
Proof. reflexivity. Qed.

Lemma scanstring_hex x tl :
  x < 0x10000 ->
  (Json.is_high_surrogate x = true -> low_escape_ahead tl = false) ->
  Json.scanstring (Json.u_escape x ++ tl) = Json.cons_res x (Json.scanstring tl).
Proof.
  intros Hx Hahead. unfold Json.u_escape, Json.hex4. cbn [app].
  rewrite scanstring_unfold_u, hex4val_digits by assumption.
  destruct (Json.is_high_surrogate x); [|reflexivity].
  specialize (Hahead eq_refl).
  destruct tl as [|b [|u r3]]; try reflexivity.
  cbn [low_escape_ahead] in Hahead.
  destruct ((b =? 92) && (u =? 117)); [|reflexivity].
  cbn [andb] in Hahead.
  destruct r3 as [|g1 [|g2 [|g3 [|g4 r4]]]]; try discriminate.
  destruct (Json.hex4val g1 g2 g3 g4); [|discriminate].
  now rewrite Hahead.
Qed.

Lemma scanstring_pair c tl :
  0x10000 <= c -> c < 0x110000 ->
  Json.scanstring (Json.u_escape (high_half c) ++ Json.u_escape (low_half c) ++ tl)
  = Json.cons_res c (Json.scanstring tl).
Proof.
  intros H1 H2.
  assert (Hh : high_half c < 0x10000) by (unfold high_half; lia).
  assert (Hl : low_half c < 0x10000) by (unfold low_half; lia).
  unfold Json.u_escape, Json.hex4. cbn [app].
  rewrite scanstring_unfold_u, hex4val_digits by assumption.
  replace (Json.is_high_surrogate (high_half c)) with true.
  2:{ symmetry. unfold Json.is_high_surrogate, high_half.
      apply andb_true_iff; split; apply N.leb_le; lia. }
  change ((92 =? 92) && (117 =? 117)) with true. cbv iota. rewrite hex4val_digits by assumption.
  replace (Json.is_low_surrogate (low_half c)) with true.
  2:{ symmetry. unfold Json.is_low_surrogate, low_half.
      apply andb_true_iff; split; apply N.leb_le; lia. }
  now rewrite join_halves.
Qed.

(** *** A whole string *)

Lemma high_half_not_low c :
  0x10000 <= c -> c < 0x110000 -> Json.is_low_surrogate (high_half c) = false.
Proof.
  intros H1 H2. unfold Json.is_low_surrogate, high_half.
  apply andb_false_iff; left. apply N.leb_gt. lia.
Qed.

Lemma ahead_encoded s tl :
  is_str s = true ->
  match s with
  | c2 :: _ => Json.is_low_surrogate c2 = false
  | [] => True
  end ->
  low_escape_ahead (flat_map Json.escape s ++ 34 :: tl) = false.
Proof.
  destruct s as [|c2 s']; intros Hs Hlow.
  - destruct tl as [|u r3]; reflexivity.
  - cbn [flat_map]. rewrite <- app_assoc.
    apply andb_true_iff in Hs as [Hc _].
    destruct (escape_cases c2 Hc) as [e E He _ | E _ H92 _ | E Hx | E H1 H2];
      rewrite E.
    + cbn [app low_escape_ahead].
      destruct (N.eqb_spec e 117); [contradiction|]. reflexivity.
    + cbn [app].
      destruct (flat_map Json.escape s' ++ 34 :: tl) as [|u r3];
        [reflexivity|].
      cbn [low_escape_ahead].
      destruct (N.eqb_spec c2 92); [contradiction|]. reflexivity.
    + unfold Json.u_escape, Json.hex4. cbn [app low_escape_ahead].
      rewrite hex4val_digits by assumption. exact Hlow.
    + rewrite <- app_assoc.
      unfold Json.u_escape at 1. unfold Json.hex4 at 1.
      cbn [app low_escape_ahead].
      rewrite hex4val_digits by (unfold high_half; lia).
      now rewrite high_half_not_low.
Qed.

Lemma plain_cons c s :
  plain (c :: s) = true ->
  is_codepoint c = true
  /\ plain s = true
  /\ (Json.is_high_surrogate c = true ->
      match s with
      | c2 :: _ => Json.is_low_surrogate c2 = false
      | [] => True
      end).
Proof.
  unfold plain, is_str. intro H. apply andb_true_iff in H as [H1 H2].
  cbn [forallb] in H1. apply andb_true_iff in H1 as [Hc Hs].
  apply negb_true_iff in H2. rewrite Hs.
  destruct s as [|c2 s'].
  - repeat split; auto.
  - change (has_surrogate_pair (c :: c2 :: s'))
      with (Json.is_high_surrogate c && Json.is_low_surrogate c2
            || has_surrogate_pair (c2 :: s')) in H2.
    apply orb_false_iff in H2 as [Hp Hr].
    rewrite Hr. repeat split; auto.
    intro Hh. rewrite Hh in Hp. exact Hp.
Qed.

(** Decoding what the encoder wrote for a string gives the string back. *)
Lemma scanstring_encoded s : forall tl,
  plain s = true ->
  Json.scanstring (flat_map Json.escape s ++ 34 :: tl) = Json.Ok (s, tl).
Proof.
  induction s as [|c s IH]; intros tl Hp.
  - reflexivity.
  - apply plain_cons in Hp as (Hc & Hs & Hnext).
    assert (Hstr : is_str s = true).
    { unfold plain in Hs. now apply andb_true_iff in Hs as [Hs _]. }
    cbn [flat_map]. rewrite <- app_assoc.
    destruct (escape_cases c Hc) as [e E He Hu | E H34 H92 H32 | E Hx | E H1 H2];
      rewrite E.
    + cbn [app]. rewrite (scanstring_short e c _ He Hu), IH by assumption.
      reflexivity.
    + cbn [app]. rewrite scanstring_verbatim, IH by assumption. reflexivity.
    + rewrite scanstring_hex;
        [ rewrite IH by assumption; reflexivity
        | assumption
        | intro Hh; apply ahead_encoded; [exact Hstr | exact (Hnext Hh)] ].
    + rewrite <- app_assoc, scanstring_pair, IH by assumption. reflexivity.
Qed.

(** *** A dumped collection *)

Lemma encode_item_text k v tl :
  Json.encode_item (k, v) ++ tl = 34 :: entry_text k v tl.
Proof.
  unfold Json.encode_item, Json.encode_basestring_ascii, entry_text. cbn [fst snd].
  change Json.key_separator with [58; 32].
  cbn [app]. rewrite <- !app_assoc. cbn [app]. rewrite <- !app_assoc.
  reflexivity.
Qed.

Lemma more_entries_cons k v d tl :
  more_entries ((k, v) :: d) ++ tl
  = 44 :: 10 :: 32 :: 32 :: 32 :: 32 :: 34
      :: entry_text k v (more_entries d ++ tl).
Proof.
  unfold more_entries. cbn [flat_map]. rewrite <- !app_assoc.
  rewrite encode_item_text. reflexivity.
Qed.

Lemma dumps_cons k v d :
  Json.dumps ((k, v) :: d)
  = 123 :: 10 :: 32 :: 32 :: 32 :: 32 :: 34
      :: entry_text k v (more_entries d ++ [10; 125]).
Proof.
  unfold Json.dumps. fold (more_entries d).
  change (lit "{") with [123]. change Json.newline_indent with [10; 32; 32; 32; 32].
  change (lit "}") with [125].
  cbn [app]. rewrite encode_item_text. reflexivity.
Qed.

Lemma members_unfold fuel s :
  Json.members (S fuel) s
  = Json.bind (Json.scanstring s) (fun '(key, r1) =>
      match Json.skip_ws r1 with
      | c :: r2 =>
          if c =? 58 then
            Json.bind (Json.scan_once fuel (Json.skip_ws r2)) (fun '(v, r3) =>
              match Json.skip_ws r3 with
              | d :: r4 =>
                  if d =? 125 then Json.Ok ([(key, v)], r4)
                  else if d =? 44 then
                    match Json.skip_ws r4 with
                    | q :: r5 =>
                        if q =? 34 then
                          Json.bind (Json.members fuel r5) (fun '(pairs, rest) =>
                            Json.Ok ((key, v) :: pairs, rest))
                        else Json.Malformed
                    | [] => Json.Malformed
                    end
                  else Json.Malformed
              | [] => Json.Malformed
              end)
          else Json.Malformed
      | [] => Json.Malformed
      end).
Proof. reflexivity. Qed.

Lemma scan_once_string fuel r :
  Json.scan_once (S fuel) (34 :: r)
  = Json.bind (Json.scanstring r) (fun '(x, rest) =>
      Json.Ok (Json.String x, rest)).
Proof. reflexivity. Qed.

Lemma scan_once_object fuel r :
  Json.scan_once (S fuel) (123 :: 10 :: 32 :: 32 :: 32 :: 32 :: 34 :: r)
  = Json.bind (Json.members fuel r) (fun '(pairs, rest) =>
      Json.Ok (Json.Object (PyDict.of_pairs pairs), rest)).
Proof. reflexivity. Qed.

(** One entry, then whatever follows it. *)
Lemma members_entry fuel k v tl :
  plain k = true -> plain v = true ->
  Json.members (S (S fuel)) (entry_text k v tl)
  = match Json.skip_ws tl with
    | d :: r4 =>
        if d =? 125 then Json.Ok ([(k, Json.String v)], r4)
        else if d =? 44 then
          match Json.skip_ws r4 with
          | q :: r5 =>
              if q =? 34 then
                Json.bind (Json.members (S fuel) r5) (fun '(pairs, rest) =>
                  Json.Ok ((k, Json.String v) :: pairs, rest))
              else Json.Malformed
          | [] => Json.Malformed
          end
        else Json.Malformed
    | [] => Json.Malformed
    end.
Proof.
  intros Hk Hv. unfold entry_text.
  rewrite members_unfold, scanstring_encoded by assumption.
  cbn [Json.bind].
  change (Json.skip_ws (58 :: 32 :: 34 :: flat_map Json.escape v ++ 34 :: tl))
    with (58 :: 32 :: 34 :: flat_map Json.escape v ++ 34 :: tl).
  change (58 =? 58) with true. cbv iota.
  change (Json.skip_ws (32 :: 34 :: flat_map Json.escape v ++ 34 :: tl))
    with (34 :: flat_map Json.escape v ++ 34 :: tl).
  rewrite scan_once_string, scanstring_encoded by assumption.
  reflexivity.
Qed.

Lemma plain_notes_cons k v d :
  plain_notes ((k, v) :: d) = true ->
  plain k = true /\ plain v = true /\ plain_notes d = true.
Proof.
  unfold plain_notes. cbn [forallb fst snd]. intro H.
  apply andb_true_iff in H as [H1 H2].
  apply andb_true_iff in H1 as [Hk Hv]. auto.
Qed.

Lemma members_dumps d : forall k v fuel tl,
  plain k = true -> plain v = true -> plain_notes d = true ->
  (List.length d + 2 <= fuel)%nat ->
  Json.members fuel (entry_text k v (more_entries d ++ 10 :: 125 :: tl))
  = Json.Ok (tagged ((k, v) :: d), tl).
Proof.
  induction d as [|[k' v'] d IH]; intros k v fuel tl Hk Hv Hd Hfuel;
    (destruct fuel as [|[|fuel]]; [simpl in Hfuel; lia ..|]);
    rewrite members_entry by assumption.
  - reflexivity.
  - rewrite more_entries_cons.
    apply plain_notes_cons in Hd as (Hk' & Hv' & Hd).
    change (Json.skip_ws (44 :: ?x)) with (44 :: x).
    change (44 =? 125) with false. change (44 =? 44) with true. cbv iota.
    match goal with
    | |- context [Json.skip_ws (10 :: 32 :: 32 :: 32 :: 32 :: 34 :: ?x)] =>
        change (Json.skip_ws (10 :: 32 :: 32 :: 32 :: 32 :: 34 :: x))
          with (34 :: x)
    end.
    change (34 =? 34) with true. cbv iota.
    rewrite IH; auto. simpl in Hfuel; lia.
Qed.

Lemma strings_of_tagged d : Json.strings_of (tagged d) = Some d.
Proof.
  induction d as [|[k v] d IH]; [reflexivity|].
  change (tagged ((k, v) :: d)) with ((k, Json.String v) :: tagged d).
  cbn [Json.strings_of]. now rewrite IH.
Qed.

Lemma keys_tagged d : PyDict.keys (tagged d) = PyDict.keys d.
Proof. unfold tagged, PyDict.keys. rewrite map_map. reflexivity. Qed.

Lemma loads_fuel_dumps d fuel :
  PyDict.wf d -> plain_notes d = true ->
  (List.length d + 2 <= fuel)%nat ->
  Json.loads_fuel fuel (Json.dumps d) = Json.Ok (Json.Object (tagged d)).
Proof.
  intros Hwf Hd Hfuel. destruct d as [|[k v] d].
  - destruct fuel as [|fuel]; [simpl in Hfuel; lia|]. reflexivity.
  - apply plain_notes_cons in Hd as (Hk & Hv & Hd).
    rewrite dumps_cons.
    destruct fuel as [|fuel]; [lia|].
    unfold Json.loads_fuel.
    match goal with
    | |- context [Json.skip_ws (123 :: ?x)] =>
        change (Json.skip_ws (123 :: x)) with (123 :: x)
    end.
    cbv iota beta.
    rewrite scan_once_object.
    change [10; 125] with (10 :: 125 :: []).
    rewrite members_dumps; auto; [|simpl in Hfuel; lia].
    cbn [Json.bind Json.skip_ws].
    rewrite of_pairs_wf; [reflexivity|].
    unfold PyDict.wf. now rewrite keys_tagged.
Qed.

Lemma length_more_entries d :
  (List.length d <= List.length (more_entries d))%nat.
Proof.
  induction d as [|[k v] d IH]; [simpl; lia|].
  pose proof (more_entries_cons k v d []) as E.
  rewrite !app_nil_r in E. rewrite E. unfold entry_text.
  cbn [List.length]. rewrite length_app. cbn [List.length].
  rewrite length_app. cbn [List.length]. lia.
Qed.

Lemma length_dumps d : (List.length d <= List.length (Json.dumps d))%nat.
Proof.
  destruct d as [|[k v] d]; [simpl; lia|].
  rewrite dumps_cons. unfold entry_text.
  cbn [List.length]. rewrite length_app. cbn [List.length].
  rewrite length_app. cbn [List.length]. rewrite length_app.
  pose proof (length_more_entries d). lia.
Qed.

(** [json.load] of what [json.dump] wrote. *)
Lemma load_dumps d :
  PyDict.wf d -> plain_notes d = true ->
  Json.load (Json.dumps d) = Some (Json.Object (tagged d)).
Proof.
  intros Hwf Hd. unfold Json.load, Json.loads.
  rewrite loads_fuel_dumps; auto.
  pose proof (length_dumps d). lia.
Qed.

(** *** The step budget of the scanner *)

Lemma skip_ws_length s : (List.length (Json.skip_ws s) <= List.length s)%nat.
Proof.
  induction s as [|c s IH]; simpl; auto.
  destruct (Json.is_ws c); simpl; lia.
Qed.

Lemma skip_ws_cons c s r :
  Json.skip_ws s = c :: r -> (List.length r < List.length s)%nat.
Proof.
  intro H. pose proof (skip_ws_length s) as L. rewrite H in L. simpl in L. lia.
Qed.

Lemma cons_res_ok c r x rest :
  Json.cons_res c r = Json.Ok (x, rest) ->
  exists x', r = Json.Ok (x', rest).
Proof.
  unfold Json.cons_res, Json.bind. destruct r as [[x' rest']| |]; try discriminate.
  intro H; injection H as _ <-. eauto.
Qed.

Lemma scanstring_length : forall n s x rest,
  (List.length s <= n)%nat ->
  Json.scanstring s = Json.Ok (x, rest) ->
  (List.length rest < List.length s)%nat.
Proof.
  induction n as [|n IH]; intros s x rest Hn H.
  - destruct s; [discriminate H | simpl in Hn; lia].
  - destruct s as [|c r]; [discriminate H|].
    cbn [Json.scanstring] in H.
    repeat break_in H;
      try (injection H as _ <-; simpl; lia);
      apply cons_res_ok in H as [x' H];
      apply IH in H; simpl in *; lia.
Qed.

Lemma span_digits_length s ds rest :
  Json.span_digits s = (ds, rest) -> (List.length rest <= List.length s)%nat.
Proof.
  revert ds rest; induction s as [|c s IH]; intros ds rest H; simpl in H.
  - injection H as _ <-. auto.
  - destruct (Json.is_digit c).
    + destruct (Json.span_digits s) as [ds' rest'] eqn:E.
      injection H as _ <-. specialize (IH _ _ eq_refl). simpl; lia.
    + injection H as _ <-. auto.
Qed.

Lemma match_integer_length s ds rest :
  Json.match_integer s = Some (ds, rest) ->
  (List.length rest < List.length s)%nat.
Proof.
  unfold Json.match_integer. intro H. repeat break_in H.
  - injection H as _ <-. simpl; lia.
  - injection H as _ <-.
    match goal with E : Json.span_digits _ = _ |- _ =>
      apply span_digits_length in E end. simpl; lia.
Qed.

Lemma match_frac_length s ds rest :
  Json.match_frac s = (ds, rest) -> (List.length rest <= List.length s)%nat.
Proof.
  unfold Json.match_frac. intro H. repeat break_in H;
    injection H as _ <-; auto;
    match goal with E : Json.span_digits _ = _ |- _ =>
      apply span_digits_length in E end; simpl in *; lia.
Qed.

Lemma match_exp_length s ds rest :
  Json.match_exp s = (ds, rest) -> (List.length rest <= List.length s)%nat.
Proof.
  unfold Json.match_exp. intro H.
  destruct s as [|c s']; [injection H as _ <-; auto|].
  destruct ((c =? 101) || (c =? 69)); [|injection H as _ <-; auto].
  destruct (match s' with
            | [] => ([], s')
            | g :: t => if (g =? 45) || (g =? 43) then ([g], t) else ([], s')
            end) as [sign s''] eqn:Es.
  assert (L : (List.length s'' <= List.length s')%nat).
  { destruct s' as [|g t]; [injection Es as _ <-; auto|].
    destruct ((g =? 45) || (g =? 43)); injection Es as _ <-; simpl; lia. }
  destruct (Json.span_digits s'') as [ds' rest'] eqn:Ed.
  apply span_digits_length in Ed.
  destruct ds'; injection H as _ <-; simpl; lia.
Qed.

Lemma match_number_length s v rest :
  Json.match_number s = Some (v, rest) ->
  (List.length rest < List.length s)%nat.
Proof.
  unfold Json.match_number. intro H.
  match type of H with
  | match ?x with _ => _ end = _ => destruct x as [neg s1] eqn:E1
  end.
  assert (L1 : (List.length s1 <= List.length s)%nat).
  { destruct s as [|c s']; [injection E1 as _ <-; auto|].
    destruct (c =? 45); injection E1 as _ <-; simpl; lia. }
  destruct (Json.match_integer s1) as [[integer s2]|] eqn:E2; [|discriminate].
  apply match_integer_length in E2.
  destruct (Json.match_frac s2) as [frac s3] eqn:E3.
  apply match_frac_length in E3.
  destruct (Json.match_exp s3) as [exp s4] eqn:E4.
  apply match_exp_length in E4.
  destruct frac, exp; injection H as _ <-; lia.
Qed.

Lemma strip_prefix_length p s rest :
  strip_prefix p s = Some rest ->
  (List.length rest + List.length p = List.length s)%nat.
Proof.
  revert s; induction p as [|x p IH]; intros [|y s] H; simpl in H;
    try discriminate.
  - injection H as <-. simpl; lia.
  - injection H as <-. simpl; lia.
  - destruct (x =? y); [|discriminate]. apply IH in H. simpl; lia.
Qed.

Lemma match_literal_length word v0 s v rest :
  (0 < String.length word)%nat ->
  Json.match_literal word v0 s = Some (v, rest) ->
  (List.length rest < List.length s)%nat.
Proof.
  unfold Json.match_literal. intros Hw H.
  destruct (strip_prefix (lit word) s) as [rest'|] eqn:E; [|discriminate].
  injection H as _ <-. apply strip_prefix_length in E.
  assert (List.length (lit word) = String.length word) as L.
  { unfold lit. rewrite length_map. clear. induction word; simpl; auto. }
  lia.
Qed.

Lemma atom_length s v rest :
  atom s = Some (v, rest) -> (List.length rest < List.length s)%nat.
Proof.
  unfold atom, Json.orelse. intro H.
  repeat break_in H; try (injection H as ->);
    match goal with
    | E : Json.match_literal _ _ _ = Some _ |- _ =>
        apply match_literal_length in E; [exact E | simpl; lia]
    | E : Json.match_number _ = Some _ |- _ =>
        apply match_number_length in E; exact E
    end.
Qed.

Lemma scan_once_unfold fuel c r :
  Json.scan_once (S fuel) (c :: r)
  = if c =? 34 then
      Json.bind (Json.scanstring r) (fun '(x, rest) =>
        Json.Ok (Json.String x, rest))
    else if c =? 123 then
      match Json.skip_ws r with
      | c1 :: r1 =>
          if c1 =? 125 then Json.Ok (Json.Object (PyDict.of_pairs []), r1)
          else if c1 =? 34 then
            Json.bind (Json.members fuel r1) (fun '(pairs, rest) =>
              Json.Ok (Json.Object (PyDict.of_pairs pairs), rest))
          else Json.Malformed
      | [] => Json.Malformed
      end
    else if c =? 91 then
      match Json.skip_ws r with
      | c1 :: r1 =>
          if c1 =? 93 then Json.Ok (Json.Array [], r1)
          else
            Json.bind (Json.items fuel (c1 :: r1)) (fun '(values, rest) =>
              Json.Ok (Json.Array values, rest))
      | [] => Json.Malformed
      end
    else
      match atom (c :: r) with
      | Some res => Json.Ok res
      | None => Json.Malformed
      end.
Proof. reflexivity. Qed.

Lemma items_unfold fuel s :
  Json.items (S fuel) s
  = Json.bind (Json.scan_once fuel s) (fun '(v, r1) =>
      match Json.skip_ws r1 with
      | d :: r2 =>
          if d =? 93 then Json.Ok ([v], r2)
          else if d =? 44 then
            Json.bind (Json.items fuel (Json.skip_ws r2)) (fun '(values, rest) =>
              Json.Ok (v :: values, rest))
          else Json.Malformed
      | [] => Json.Malformed
      end).
Proof. reflexivity. Qed.

Ltac lengths :=
  repeat match goal with
  | E : Json.skip_ws _ = _ :: _ |- _ => apply skip_ws_cons in E
  | E : Json.scanstring _ = Json.Ok _ |- _ =>
      apply (scanstring_length _ _ _ _ (le_n _)) in E
  | E : atom _ = Some _ |- _ => apply atom_length in E
  end.

(** Whatever the scanner returns, it has consumed some text. *)
Lemma scan_consumes (fuel : nat) :
  (forall s v rest, Json.scan_once fuel s = Json.Ok (v, rest) ->
     (List.length rest < List.length s)%nat)
  /\ (forall s ps rest, Json.members fuel s = Json.Ok (ps, rest) ->
        (List.length rest < List.length s)%nat)
  /\ (forall s vs rest, Json.items fuel s = Json.Ok (vs, rest) ->
        (List.length rest < List.length s)%nat).
Proof.
  induction fuel as [|fuel (IHs & IHm & IHi)];
    [repeat split; intros; discriminate|].
  repeat split.
  - intros [|c r] v rest H; [discriminate H|].
    rewrite scan_once_unfold in H. unfold Json.bind in H.
    pose proof (skip_ws_length r) as Lr.
    repeat break_in H; first [injection H as _ <- | injection H as ->];
      repeat match goal with
      | E : Json.members fuel _ = Json.Ok _ |- _ => apply IHm in E
      | E : Json.items fuel _ = Json.Ok _ |- _ => apply IHi in E
      end; lengths;
      repeat match goal with
      | E : Json.skip_ws ?a = _ |- _ => rewrite E in *
      end; simpl in *; lia.
  - intros s ps rest H.
    rewrite members_unfold in H. unfold Json.bind in H.
    repeat break_in H; injection H as _ <-;
      repeat match goal with
      | E : Json.members fuel _ = Json.Ok _ |- _ => apply IHm in E
      | E : Json.scan_once fuel (Json.skip_ws ?a) = Json.Ok _ |- _ =>
          apply IHs in E; pose proof (skip_ws_length a)
      end; lengths; simpl in *; lia.
  - intros s vs rest H.
    rewrite items_unfold in H. unfold Json.bind in H.
    repeat break_in H; injection H as _ <-;
      repeat match goal with
      | E : Json.items fuel (Json.skip_ws ?a) = Json.Ok _ |- _ =>
          apply IHi in E; pose proof (skip_ws_length a)
      | E : Json.scan_once fuel _ = Json.Ok _ |- _ => apply IHs in E
      end; lengths; simpl in *; lia.
Qed.

Lemma cons_res_exhausted c r :
  Json.cons_res c r = Json.Exhausted -> r = Json.Exhausted.
Proof.
  unfold Json.cons_res, Json.bind. destruct r as [[x' rest']| |];
    try discriminate. reflexivity.
Qed.

Lemma scanstring_not_exhausted : forall n s,
  (List.length s <= n)%nat -> Json.scanstring s <> Json.Exhausted.
Proof.
  induction n as [|n IH]; intros s Hn H.
  - destruct s; [discriminate H | simpl in Hn; lia].
  - destruct s as [|c r]; [discriminate H|].
    cbn [Json.scanstring] in H.
    repeat break_in H;
      apply cons_res_exhausted in H; revert H; apply IH; simpl in *; lia.
Qed.

Ltac consumed :=
  repeat match goal with
  | E : Json.scan_once ?f (Json.skip_ws ?a) = Json.Ok _ |- _ =>
      apply (proj1 (scan_consumes f)) in E; pose proof (skip_ws_length a)
  | E : Json.scan_once ?f _ = Json.Ok _ |- _ =>
      apply (proj1 (scan_consumes f)) in E
  | E : Json.members ?f _ = Json.Ok _ |- _ =>
      apply (proj1 (proj2 (scan_consumes f))) in E
  | E : Json.items ?f _ = Json.Ok _ |- _ =>
      apply (proj2 (proj2 (scan_consumes f))) in E
  end; lengths.

(** The budget [loads] grants is never used up. *)
Lemma scan_not_exhausted (fuel : nat) :
  (forall s, (2 * List.length s < fuel)%nat ->
     Json.scan_once fuel s <> Json.Exhausted)
  /\ (forall s, (2 * List.length s < fuel)%nat ->
        Json.members fuel s <> Json.Exhausted)
  /\ (forall s, (2 * List.length s + 1 < fuel)%nat ->
        Json.items fuel s <> Json.Exhausted).
Proof.
  induction fuel as [|fuel (IHs & IHm & IHi)];
    [repeat split; intros; lia|].
  assert (Hstr : forall a, Json.scanstring a <> Json.Exhausted)
    by (intro a; apply scanstring_not_exhausted with (List.length a); auto).
  repeat split.
  - intros [|c r] Hf H; [discriminate H|].
    rewrite scan_once_unfold in H. unfold Json.bind in H.
    repeat break_in H;
      match goal with
      | E : Json.scanstring _ = Json.Exhausted |- _ => exact (Hstr _ E)
      | E : Json.members _ _ = Json.Exhausted |- _ => revert E; apply IHm
      | E : Json.items _ _ = Json.Exhausted |- _ => revert E; apply IHi
      end; consumed; simpl in *; lia.
  - intros s Hf H.
    rewrite members_unfold in H. unfold Json.bind in H.
    repeat break_in H;
      match goal with
      | E : Json.scanstring _ = Json.Exhausted |- _ => exact (Hstr _ E)
      | E : Json.members _ _ = Json.Exhausted |- _ => revert E; apply IHm
      | E : Json.scan_once _ (Json.skip_ws ?a) = Json.Exhausted |- _ =>
          revert E; apply IHs; pose proof (skip_ws_length a)
      end; consumed; simpl in *; lia.
  - intros s Hf H.
    rewrite items_unfold in H. unfold Json.bind in H.
    repeat break_in H;
      match goal with
      | E : Json.items _ (Json.skip_ws ?a) = Json.Exhausted |- _ =>
          revert E; apply IHi; pose proof (skip_ws_length a)
      | E : Json.scan_once _ _ = Json.Exhausted |- _ => revert E; apply IHs
      end; consumed; simpl in *; lia.
Qed.

Lemma loads_not_exhausted s : Json.loads s <> Json.Exhausted.
Proof.
  unfold Json.loads, Json.loads_fuel, Json.bind. intro H.
  assert (G : Json.scan_once (2 * S (List.length s)) (Json.skip_ws s)
              <> Json.Exhausted).
  { apply scan_not_exhausted. pose proof (skip_ws_length s). lia. }
  repeat break_in H; contradiction.
Qed.

(** [json.load] fails exactly when the scan reports a decoding error. *)
Lemma load_none s : Json.load s = None <-> Json.loads s = Json.Malformed.
Proof.
  unfold Json.load. pose proof (loads_not_exhausted s) as H.
  destruct (Json.loads s); split; congruence.
Qed.

(** *** The decoder under the interpreter's limits *)

Lemma agrees_of_res {A : Type} (r : Json.res A) :
  agrees (Json.Bounded.of_res r) r.
Proof. destruct r; reflexivity. Qed.

Lemma agrees_bind {A B : Type} (a : Json.Bounded.answer A) (r : Json.res A)
    (k : A -> Json.Bounded.answer B) (k' : A -> Json.res B) :
  agrees a r -> (forall x, agrees (k x) (k' x)) ->
  agrees (Json.Bounded.and_then a k) (Json.bind r k').
Proof.
  intros Ha Hk. destruct a as [x|[| | |]]; cbn in *; subst; cbn; auto.
Qed.

Lemma bounded_scan_agrees (lim : Json.Bounded.limits) (fuel : nat) :
  (forall depth s,
     agrees (Json.Bounded.scan_once lim fuel depth s) (Json.scan_once fuel s))
  /\ (forall depth s,
        agrees (Json.Bounded.members lim fuel depth s) (Json.members fuel s))
  /\ (forall depth s,
        agrees (Json.Bounded.items lim fuel depth s) (Json.items fuel s)).
Proof.
  induction fuel as [|fuel (IHs & IHm & IHi)];
    [repeat split; intros; reflexivity|].
  repeat split; intros depth s.
  - destruct s as [|c r]; [reflexivity|].
    rewrite scan_once_unfold. cbn [Json.Bounded.scan_once].
    fold (atom (c :: r)).
    destruct (c =? 34); [apply agrees_of_res|].
    destruct (c =? 123).
    { destruct (Json.Bounded.nesting lim <=? depth)%nat; [exact I|].
      destruct (Json.skip_ws r) as [|c1 r1]; [reflexivity|].
      destruct (c1 =? 125); [reflexivity|].
      destruct (c1 =? 34); [|reflexivity].
      apply agrees_bind; [apply IHm|]. intros [pairs rest]. reflexivity. }
    destruct (c =? 91).
    { destruct (Json.Bounded.nesting lim <=? depth)%nat; [exact I|].
      destruct (Json.skip_ws r) as [|c1 r1]; [reflexivity|].
      destruct (c1 =? 93); [reflexivity|].
      apply agrees_bind; [apply IHi|]. intros [values rest]. reflexivity. }
    destruct (atom (c :: r)) as [[v rest]|]; [|reflexivity].
    destruct v; try reflexivity.
    destruct (Json.Bounded.too_long lim (c :: r)); reflexivity.
  - rewrite members_unfold. cbn [Json.Bounded.members].
    apply agrees_bind; [apply agrees_of_res|]. intros [key r1].
    destruct (Json.skip_ws r1) as [|c r2]; [reflexivity|].
    destruct (c =? 58); [|reflexivity].
    apply agrees_bind; [apply IHs|]. intros [v r3].
    destruct (Json.skip_ws r3) as [|d r4]; [reflexivity|].
    destruct (d =? 125); [reflexivity|].
    destruct (d =? 44); [|reflexivity].
    destruct (Json.skip_ws r4) as [|q r5]; [reflexivity|].
    destruct (q =? 34); [|reflexivity].
    apply agrees_bind; [apply IHm|]. intros [pairs rest]. reflexivity.
  - rewrite items_unfold. cbn [Json.Bounded.items].
    apply agrees_bind; [apply IHs|]. intros [v r1].
    destruct (Json.skip_ws r1) as [|d r2]; [reflexivity|].
    destruct (d =? 93); [reflexivity|].
    destruct (d =? 44); [|reflexivity].
    apply agrees_bind; [apply IHi|]. intros [values rest]. reflexivity.
Qed.

(** [json.loads] under the limits of the interpreter: unless one of them
    is hit, it ends as [Json.loads] does, and it never runs out of
    steps. *)
Lemma bounded_loads_agrees (lim : Json.Bounded.limits) (s : str) :
  match Json.Bounded.loads lim s with
  | Json.Bounded.Got v => Json.loads s = Json.Ok v
  | Json.Bounded.Failed Json.Bounded.DecodeError =>
      Json.loads s = Json.Malformed
  | Json.Bounded.Failed Json.Bounded.OutOfSteps => False
  | Json.Bounded.Failed Json.Bounded.RecursionError
  | Json.Bounded.Failed Json.Bounded.ValueError => True
  end.
Proof.
  pose proof (loads_not_exhausted s) as Hne.
  assert (H : agrees (Json.Bounded.loads lim s) (Json.loads s)).
  { unfold Json.Bounded.loads, Json.loads, Json.loads_fuel.
    assert (G : agrees
                  (Json.Bounded.and_then
                     (Json.Bounded.scan_once lim (2 * S (List.length s)) 0
                        (Json.skip_ws s))
                     (fun '(v, rest) =>
                        match Json.skip_ws rest with
                        | [] => Json.Bounded.Got v
                        | _ :: _ => Json.Bounded.Failed Json.Bounded.DecodeError
                        end))
                  (Json.bind
                     (Json.scan_once (2 * S (List.length s)) (Json.skip_ws s))
                     (fun '(v, rest) =>
                        match Json.skip_ws rest with
                        | [] => Json.Ok v
                        | _ :: _ => Json.Malformed
                        end))).
    { apply agrees_bind; [apply bounded_scan_agrees|]. intros [v rest].
      destruct (Json.skip_ws rest); reflexivity. }
    destruct s as [|c s']; [exact G|].
    destruct c as [|p]; [exact G|].
    repeat (destruct p as [p|p|]; try exact G); reflexivity. }
  unfold agrees in H.
  destruct (Json.Bounded.loads lim s) as [v|[| | |]]; auto.
Qed.

End JsonFacts.

(** ** Persistence and the editor *)

(** C2. Amended: [save_notes_to_file] followed by [load_notes] on a fresh
    store gives back the collection, same titles in the same order with the
    same contents, provided no title and no content holds a high surrogate
    immediately followed by a low surrogate.  ([PyDict.wf] and the bound on
    code points inside [plain_notes] hold of every Python [dict] and
    [str].) *)
Theorem persist_load_roundtrip (fs : filesystem) (self : NoteManager.t) :
  PyDict.wf (NoteManager.notes self) ->
  plain_notes (NoteManager.notes self) = true ->
  NoteManager.load_notes (NoteManager.save_notes_to_file fs self)
    NoteManager.init
  = (Returned (NoteManager.notes self),
     NoteManager.with_notes NoteManager.init (NoteManager.notes self)).
Proof.
  intros Hwf Hp. unfold NoteManager.load_notes, NoteManager.save_notes_to_file.
  cbn [notes_json]. rewrite load_dumps by assumption.
  cbn [Json.as_notes]. now rewrite strings_of_tagged.
Qed.

Lemma persist_load_roundtrip_witness :
  NoteManager.load_notes
    (NoteManager.save_notes_to_file {| notes_json := None |}
       (NoteManager.with_notes NoteManager.init
          [(lit "Ideas", lit "buy milk")]))
    NoteManager.init
  = (Returned [(lit "Ideas", lit "buy milk")],
     NoteManager.with_notes NoteManager.init [(lit "Ideas", lit "buy milk")]).
Proof.
  apply (persist_load_roundtrip {| notes_json := None |}
           (NoteManager.with_notes NoteManager.init
              [(lit "Ideas", lit "buy milk")])).
  - repeat constructor. simpl. tauto.
  - reflexivity.
Defined.

(** C2 as stated fails: the two-character title made of the surrogates
    [U+D83D] and [U+DE00] is written as two [\u] escapes, which the decoder
    reads back as the single character [U+1F600]; the collection loaded
    has another key than the one saved. *)
Lemma persist_load_joins_surrogates :
  PyDict.wf [([0xd83d; 0xde00]%N, lit "x")]
  /\ is_str [0xd83d; 0xde00]%N = true
  /\ NoteManager.load_notes
       (NoteManager.save_notes_to_file {| notes_json := None |}
          (NoteManager.with_notes NoteManager.init
             [([0xd83d; 0xde00]%N, lit "x")]))
       NoteManager.init
     = (Returned [([0x1f600]%N, lit "x")],
        NoteManager.with_notes NoteManager.init [([0x1f600]%N, lit "x")])
  /\ NoteManager.load_notes
       (NoteManager.save_notes_to_file {| notes_json := None |}
          (NoteManager.with_notes NoteManager.init
             [([0xd83d; 0xde00]%N, lit "x")]))
       NoteManager.init
     <> (Returned [([0xd83d; 0xde00]%N, lit "x")],
         NoteManager.with_notes NoteManager.init
           [([0xd83d; 0xde00]%N, lit "x")]).
Proof.
  split; [repeat constructor; simpl; tauto|].
  split; [reflexivity|].
  split; [vm_compute; reflexivity|].
  vm_compute. discriminate.
Qed.

(** C3. Amended: on a store that holds notes, [load_notes] with no
    [notes.json] returns the collection in memory and leaves it as it is
    (empty for a store just built).  With a file that [json.load] decodes,
    the value decoded is bound to [self.notes] and returned: the
    collection the file holds when that value is an object of strings,
    and any other JSON value just the same, unchecked.  With a file that
    [json.load] rejects, [load_notes] ends in [json.JSONDecodeError] and
    the collection in memory is unchanged.  This holds under whatever
    limits the interpreter has; text on which a limit is hit, where
    [json.load] raises [RecursionError] or [ValueError], is left out. *)
Theorem load_notes_cases
    (lim : Json.Bounded.limits) (fs : filesystem) (self : NoteManager.t) :
  (notes_json fs = None ->
     NoteManager.load_notes fs self = (Returned (NoteManager.notes self), self)
     /\ NoteManager.load_notes fs NoteManager.init
        = (Returned [], NoteManager.init))
  /\ (forall text,
        notes_json fs = Some text ->
        match Json.Bounded.loads lim text with
        | Json.Bounded.Got v =>
            match Json.as_notes v with
            | Some d =>
                NoteManager.load_notes fs self
                = (Returned d, NoteManager.with_notes self d)
            | None =>
                NoteManager.load_notes fs self
                = (Untyped v,
                   NoteManager.Rebound v (NoteManager.current_note self))
            end
        | Json.Bounded.Failed Json.Bounded.DecodeError =>
            NoteManager.load_notes fs self = (Raised JSONDecodeError, self)
        | Json.Bounded.Failed Json.Bounded.RecursionError
        | Json.Bounded.Failed Json.Bounded.ValueError => True
        | Json.Bounded.Failed Json.Bounded.OutOfSteps => False
        end).
Proof.
  split.
  - intro Hf. unfold NoteManager.load_notes. now rewrite Hf.
  - intros text Hf. pose proof (bounded_loads_agrees lim text) as H.
    unfold NoteManager.load_notes, Json.load. rewrite Hf.
    destruct (Json.Bounded.loads lim text) as [v|[| | |]]; auto.
    + rewrite H. destruct (Json.as_notes v); reflexivity.
    + now rewrite H.
Qed.

Lemma load_notes_cases_witness :
  (NoteManager.load_notes {| notes_json := None |}
     (App.note_manager editing_a)
   = (Returned (NoteManager.notes (App.note_manager editing_a)),
      App.note_manager editing_a))
  /\ (NoteManager.load_notes
        {| notes_json := Some (Json.dumps [(lit "b", lit "c")]) |}
        (App.note_manager editing_a)
      = (Returned [(lit "b", lit "c")],
         NoteManager.with_notes (App.note_manager editing_a)
           [(lit "b", lit "c")]))
  /\ (NoteManager.load_notes {| notes_json := Some (lit "[1]") |}
        (App.note_manager editing_a)
      = (Untyped (Json.Array [Json.Int 1]),
         NoteManager.Rebound (Json.Array [Json.Int 1]) None))
  /\ (NoteManager.load_notes {| notes_json := Some (lit "{") |}
        (App.note_manager editing_a)
      = (Raised JSONDecodeError, App.note_manager editing_a)).
Proof.
  split; [|split; [|split]].
  - apply (proj1 (load_notes_cases
                    {| Json.Bounded.nesting := 2; Json.Bounded.int_digits := 0 |}
                    {| notes_json := None |} (App.note_manager editing_a))).
    reflexivity.
  - exact (proj2 (load_notes_cases
                    {| Json.Bounded.nesting := 2; Json.Bounded.int_digits := 0 |}
                    {| notes_json :=
                         Some (Json.dumps [(lit "b", lit "c")]) |}
                    (App.note_manager editing_a))
             (Json.dumps [(lit "b", lit "c")]) eq_refl).
  - exact (proj2 (load_notes_cases
                    {| Json.Bounded.nesting := 2; Json.Bounded.int_digits := 0 |}
                    {| notes_json := Some (lit "[1]") |}
                    (App.note_manager editing_a))
             (lit "[1]") eq_refl).
  - exact (proj2 (load_notes_cases
                    {| Json.Bounded.nesting := 2; Json.Bounded.int_digits := 0 |}
                    {| notes_json := Some (lit "{") |}
                    (App.note_manager editing_a))
             (lit "{") eq_refl).
Defined.

(** C3 as stated fails.  On the malformed file holding only an opening
    brace, [load_notes] raises [JSONDecodeError], not the
    [PersistenceError] of the specification, and [App.load_notes] does not
    catch it; and with no file, a store that holds a note returns that
    note, not an empty collection. *)
Lemma load_notes_malformed_propagates :
  NoteManager.load_notes {| notes_json := Some (lit "{") |} NoteManager.init
  = (Raised JSONDecodeError, NoteManager.init)
  /\ fst (NoteManager.load_notes {| notes_json := Some (lit "{") |}
            NoteManager.init)
     <> Raised PersistenceError
  /\ (forall shown,
        fst (App.load_notes shown {| notes_json := Some (lit "{") |}
               editing_a)
        = Raised JSONDecodeError)
  /\ fst (NoteManager.load_notes {| notes_json := None |}
            (App.note_manager editing_a))
     = Returned [(lit "a", lit "old")]
  /\ fst (NoteManager.load_notes {| notes_json := None |}
            (App.note_manager editing_a))
     <> Returned [].
Proof.
  split; [reflexivity|].
  split; [discriminate|].
  split; [intro shown; reflexivity|].
  split; [reflexivity|discriminate].
Qed.

(** C4. Amended: with a note selected and a title entered that is not
    blank, [save_note_as] calls [add_new_note] on the trimmed title, drops
    the title it returns, calls [set_note_content] on the trimmed title
    with the trimmed text of the buffer, and writes the file; the editor
    then tracks the trimmed title.  When that title was already a key,
    [add_new_note] has created a suffixed title, which is another title,
    was no key, and is left with empty content, while the note under the
    trimmed title now holds the trimmed text of the buffer. *)
Theorem save_note_as_keeps_requested_title
    (fs : filesystem) (app : App.t) (text : str) :
  App.note_selected app = true ->
  truthy (strip text) = true ->
  exists title nm1,
    NoteManager.add_new_note (App.note_manager app) (strip text)
    = Some (title, nm1)
    /\ App.save_note_as (text, true) fs app
       = Some (None,
               NoteManager.save_notes_to_file fs
                 (NoteManager.set_note_content nm1 (strip text)
                    (strip (App.text_area app))),
               {| App.note_manager :=
                    NoteManager.set_note_content nm1 (strip text)
                      (strip (App.text_area app));
                  App.current_note := Some (strip text);
                  App.notes_list := App.notes_list app ++ [strip text];
                  App.current_row := Some (List.length (App.notes_list app));
                  App.text_area := App.text_area app |})
    /\ (PyDict.contains (strip text)
          (NoteManager.notes (App.note_manager app)) = true ->
        (exists n : N, (1 <= n)%N /\ title = NoteManager.suffixed (strip text) n)
        /\ title <> strip text
        /\ PyDict.contains title (NoteManager.notes (App.note_manager app))
           = false
        /\ NoteManager.get_note_content
             (NoteManager.set_note_content nm1 (strip text)
                (strip (App.text_area app))) (strip text)
           = strip (App.text_area app)
        /\ In title
             (NoteManager.get_note_titles
                (NoteManager.set_note_content nm1 (strip text)
                   (strip (App.text_area app))))
        /\ NoteManager.get_note_content
             (NoteManager.set_note_content nm1 (strip text)
                (strip (App.text_area app))) title
           = []).
Proof.
  intros Hsel Htitle.
  destruct (add_new_note_appends (App.note_manager app) (strip text))
    as (k & Hk & Hfree & Hocc & Hrun).
  specialize (Hrun (S (List.length (NoteManager.notes (App.note_manager app))))
                ltac:(lia)).
  fold (NoteManager.add_new_note (App.note_manager app) (strip text)) in Hrun.
  eexists _, _. split; [exact Hrun|]. split.
  - unfold App.save_note_as. rewrite Hsel, Htitle, Hrun. reflexivity.
  - intro Hin.
    assert (Hne : probed (strip text) k <> strip text).
    { intro E. rewrite E in Hfree. congruence. }
    repeat split.
    + destruct k as [|k]; [simpl in Hfree; congruence|].
      exists (N.of_nat (S k)). split; [lia | reflexivity].
    + exact Hne.
    + exact Hfree.
    + unfold NoteManager.get_note_content, NoteManager.set_note_content,
        PyDict.get.
      cbn [NoteManager.notes NoteManager.with_notes].
      now rewrite lookup_set, eqb_refl.
    + unfold NoteManager.get_note_titles, NoteManager.set_note_content.
      cbn [NoteManager.notes NoteManager.with_notes].
      apply contains_In. rewrite contains_set, contains_app.
      cbn [PyDict.contains]. rewrite eqb_refl.
      now rewrite !orb_true_r.
    + unfold NoteManager.get_note_content, NoteManager.set_note_content,
        PyDict.get.
      cbn [NoteManager.notes NoteManager.with_notes].
      rewrite lookup_set.
      apply eqb_neq in Hne. rewrite Hne.
      now rewrite lookup_app_new.
Qed.

Lemma save_note_as_keeps_requested_title_witness :
  exists title nm1,
    NoteManager.add_new_note (App.note_manager editing_a) (strip (lit " a "))
    = Some (title, nm1)
    /\ title <> strip (lit " a ")
    /\ NoteManager.get_note_content
         (NoteManager.set_note_content nm1 (strip (lit " a "))
            (strip (App.text_area editing_a))) title
       = [].
Proof.
  destruct (save_note_as_keeps_requested_title {| notes_json := None |}
              editing_a (lit " a ") eq_refl eq_refl)
    as (title & nm1 & Hadd & _ & Hin).
  destruct (Hin eq_refl) as (_ & Hne & _ & _ & _ & Hempty).
  exists title, nm1. repeat split; assumption.
Defined.

(** C4 as stated fails.  Saving the note ["a"] as ["a"] with [" new "] in
    the buffer leaves ["new"] in the note ["a"], not the text of the
    buffer (the note ["a (1)"] is created empty, as claimed); and a title
    that is a key but blank, here one space, is refused with a warning and
    nothing is overwritten. *)
Lemma save_note_as_stores_trimmed_text :
  (exists w fs' app',
     App.save_note_as (lit "a", true) {| notes_json := None |} editing_a
     = Some (w, fs', app')
     /\ NoteManager.get_note_content (App.note_manager app') (lit "a")
        = lit "new"
     /\ NoteManager.get_note_content (App.note_manager app') (lit "a")
        <> App.text_area editing_a
     /\ NoteManager.get_note_content (App.note_manager app') (lit "a (1)")
        = [])
  /\ App.save_note_as (lit " ", true) {| notes_json := None |}
       (App.with_store editing_a
          (NoteManager.with_notes NoteManager.init [(lit " ", lit "old")]))
     = Some (Some "Note title cannot be empty!"%string,
             {| notes_json := None |},
             App.with_store editing_a
               (NoteManager.with_notes NoteManager.init
                  [(lit " ", lit "old")])).
Proof.
  split.
  - eexists _, _, _. split; [vm_compute; reflexivity|].
    repeat split; vm_compute; congruence.
  - reflexivity.
Qed.

(** C8. Amended: [save_notes_to_file] is the only operation of the store
    that writes the file, and [load_notes] the only one that reads it:
    every operation but [persist] leaves the file as it was; every
    operation but [load] replies and leaves the store the same whatever
    the file holds; and [persist] leaves the dump of the collection in the
    file whatever was there. *)
Theorem only_persist_writes_only_load_reads
    (o : Store.op) (fs : filesystem) (self : NoteManager.t) :
  (o <> Store.Persist ->
     Store.file_after (Store.run o fs self) = Some fs)
  /\ (o <> Store.Load ->
      forall fs2,
        Store.seen (Store.run o fs2 self) = Store.seen (Store.run o fs self))
  /\ (forall fs2,
        Store.file_after (Store.run Store.Persist fs2 self)
        = Some {| notes_json := Some (Json.dumps (NoteManager.notes self)) |}).
Proof.
  repeat split.
  - intro Hne. destruct o; cbn [Store.run]; try reflexivity.
    + destruct (NoteManager.load_notes fs self) as [[d|e|v] self'];
        reflexivity.
    + destruct (add_new_note_appends self title) as (n & Hn & _ & _ & H).
      unfold NoteManager.add_new_note. rewrite H by lia. reflexivity.
    + contradiction.
  - intros Hne fs2. destruct o; cbn [Store.run]; try reflexivity.
    + contradiction.
    + destruct (NoteManager.add_new_note self title) as [[t' self']|];
        reflexivity.
Qed.

Lemma only_persist_writes_only_load_reads_witness :
  Store.file_after
    (Store.run Store.Load
       {| notes_json := Some (Json.dumps [(lit "a", lit "b")]) |}
       NoteManager.init)
  = Some {| notes_json := Some (Json.dumps [(lit "a", lit "b")]) |}
  /\ Store.seen (Store.run (Store.AddNew (lit "a"))
                   {| notes_json := Some (lit "{") |} NoteManager.init)
     = Store.seen (Store.run (Store.AddNew (lit "a"))
                     {| notes_json := None |} NoteManager.init).
Proof.
  split.
  - apply (proj1 (only_persist_writes_only_load_reads Store.Load
                    {| notes_json := Some (Json.dumps [(lit "a", lit "b")]) |}
                    NoteManager.init)).
    discriminate.
  - apply (proj1 (proj2 (only_persist_writes_only_load_reads
                           (Store.AddNew (lit "a"))
                           {| notes_json := None |} NoteManager.init))).
    discriminate.
Defined.

(** C8 as stated fails: [load] reads the file.  On the same fresh store
    it returns the empty collection when there is no file and the
    collection of the file when there is one. *)
Lemma load_reads_the_file :
  Store.seen (Store.run Store.Load {| notes_json := None |} NoteManager.init)
  = Some (Returned (Store.Collection []), NoteManager.init)
  /\ Store.seen (Store.run Store.Load
                   {| notes_json := Some (Json.dumps [(lit "a", lit "b")]) |}
                   NoteManager.init)
     = Some (Returned (Store.Collection [(lit "a", lit "b")]),
             NoteManager.with_notes NoteManager.init [(lit "a", lit "b")])
  /\ Store.seen (Store.run Store.Load {| notes_json := None |}
                   NoteManager.init)
     <> Store.seen (Store.run Store.Load
                      {| notes_json :=
                           Some (Json.dumps [(lit "a", lit "b")]) |}
                      NoteManager.init).
Proof.
  repeat split; vm_compute; congruence.
Qed.

(** * Further properties *)

(** ** The store *)

Lemma with_notes_same (self : NoteManager.t) :
  NoteManager.with_notes self (NoteManager.notes self) = self.
Proof. destruct self; reflexivity. Qed.

Lemma delete_note_eq (self : NoteManager.t) (t : str) :
  NoteManager.delete_note self t
  = NoteManager.with_notes self (PyDict.del t (NoteManager.notes self)).
Proof.
  unfold NoteManager.delete_note.
  destruct (PyDict.contains t (NoteManager.notes self)) eqn:E; auto.
  rewrite del_absent by assumption. symmetry. apply with_notes_same.
Qed.

Section MoreDictFacts.
Variable V : Type.
Implicit Types (d : PyDict.dict V) (k : str) (v : V).

Lemma del_app k d d' :
  PyDict.del k (d ++ d') = PyDict.del k d ++ PyDict.del k d'.
Proof.
  induction d as [|[k0 v0] d IH]; simpl; auto.
  destruct (PyStr.eqb k k0); simpl; now rewrite IH.
Qed.

Lemma del_del k k' d :
  PyDict.del k (PyDict.del k' d) = PyDict.del k' (PyDict.del k d).
Proof.
  induction d as [|[k0 v0] d IH]; simpl; auto.
  destruct (PyStr.eqb k' k0) eqn:E', (PyStr.eqb k k0) eqn:E; simpl;
    rewrite ?E, ?E', IH; reflexivity.
Qed.

Lemma set_set k v v' d :
  PyDict.set k v' (PyDict.set k v d) = PyDict.set k v' d.
Proof.
  induction d as [|[k0 v0] d IH]; simpl.
  - now rewrite eqb_refl.
  - destruct (PyStr.eqb k k0) eqn:E; simpl; rewrite E; [reflexivity|].
    now rewrite IH.
Qed.

Lemma keys_del k d :
  PyDict.keys (PyDict.del k d)
  = filter (fun k' => negb (PyStr.eqb k k')) (PyDict.keys d).
Proof.
  induction d as [|[k0 v0] d IH]; simpl; auto.
  destruct (PyStr.eqb k k0); simpl; now rewrite IH.
Qed.

Lemma length_del k d :
  PyDict.wf d -> PyDict.contains k d = true ->
  S (List.length (PyDict.del k d)) = List.length d.
Proof.
  unfold PyDict.wf.
  induction d as [|[k0 v0] d IH]; simpl; [discriminate|].
  intros Hwf Hin. inversion Hwf as [|? ? Hn Hd]; subst.
  destruct (PyStr.eqb k k0) eqn:E; simpl in *.
  - apply eqb_eq in E; subst k0.
    rewrite del_absent; auto. now apply contains_false_In.
  - now rewrite IH.
Qed.

End MoreDictFacts.

(** X1. The store keeps its titles distinct: if no title is listed
    twice, none is after [set_note_content], after [delete_note] or
    after [add_new_note], which always returns. *)
Theorem store_keeps_titles_distinct (self : NoteManager.t) :
  NoDup (NoteManager.get_note_titles self) ->
  (forall t c,
     NoDup (NoteManager.get_note_titles
              (NoteManager.set_note_content self t c)))
  /\ (forall t,
        NoDup (NoteManager.get_note_titles (NoteManager.delete_note self t)))
  /\ (forall t, exists title self',
        NoteManager.add_new_note self t = Some (title, self')
        /\ NoDup (NoteManager.get_note_titles self')).
Proof.
  intro Hwf. repeat split.
  - intros t c. apply (wf_set _ t c _ Hwf).
  - intro t. rewrite delete_note_eq. apply (wf_del _ t _ Hwf).
  - intro t.
    destruct (add_new_note_appends self t) as (k & Hk & Hfree & _ & Hrun).
    eexists _, _. split; [apply Hrun; lia|].
    unfold NoteManager.get_note_titles. cbn [NoteManager.notes NoteManager.with_notes].
    pose proof (wf_set _ (probed t k) ([] : str) _ Hwf) as W.
    rewrite set_absent in W by exact Hfree. exact W.
Qed.

Lemma store_keeps_titles_distinct_witness :
  NoDup (NoteManager.get_note_titles
           (NoteManager.set_note_content
              (NoteManager.with_notes NoteManager.init [(lit "a", lit "b")])
              (lit "a") (lit "c"))).
Proof.
  apply (proj1 (store_keeps_titles_distinct
                  (NoteManager.with_notes NoteManager.init
                     [(lit "a", lit "b")])
                  ltac:(repeat constructor; simpl; tauto))).
Defined.

(** X2. Deleting the note [add_new_note] has just created gives back the
    store as it was before the call. *)
Theorem delete_undoes_add (self : NoteManager.t) (t title : str)
    (self' : NoteManager.t) :
  NoteManager.add_new_note self t = Some (title, self') ->
  NoteManager.delete_note self' title = self.
Proof.
  intro H.
  destruct (add_new_note_appends self t) as (k & Hk & Hfree & _ & Hrun).
  unfold NoteManager.add_new_note in H. rewrite Hrun in H by lia.
  injection H as <- <-.
  rewrite delete_note_eq. cbn [NoteManager.notes NoteManager.with_notes].
  rewrite del_app, del_absent by assumption.
  cbn [PyDict.del]. rewrite eqb_refl, app_nil_r.
  destruct self; reflexivity.
Qed.

Lemma delete_undoes_add_witness :
  NoteManager.delete_note
    (NoteManager.with_notes NoteManager.init
       [(lit "a", lit "b"); (lit "a (1)", [])])
    (lit "a (1)")
  = NoteManager.with_notes NoteManager.init [(lit "a", lit "b")].
Proof.
  apply (delete_undoes_add
           (NoteManager.with_notes NoteManager.init [(lit "a", lit "b")])
           (lit "a")).
  reflexivity.
Defined.

Lemma contains_fresh_notes (t : str) (x : str) (j m : nat) :
  PyDict.contains x (fresh_notes t j m) = true
  <-> exists i, (j <= i < j + m)%nat /\ probed t i = x.
Proof.
  rewrite contains_In. unfold fresh_notes, PyDict.keys.
  rewrite map_map. cbn [fst]. rewrite in_map_iff.
  split; intros (i & H1 & H2).
  - apply in_seq in H2. eauto.
  - exists i. split; auto. apply in_seq. lia.
Qed.

Lemma fresh_notes_snoc (t : str) (j m : nat) :
  fresh_notes t j (S m) = fresh_notes t j m ++ [(probed t (j + m), [])].
Proof.
  unfold fresh_notes. rewrite seq_S, map_app. reflexivity.
Qed.

Lemma add_after_fresh (self : NoteManager.t) (t : str) (n j : nat) :
  (forall i, (i < n)%nat ->
     PyDict.contains (probed t i) (NoteManager.notes self) = false) ->
  (j < n)%nat ->
  NoteManager.add_new_note
    (NoteManager.with_notes self
       (NoteManager.notes self ++ fresh_notes t 0 j)) t
  = Some (probed t j,
          NoteManager.with_notes self
            (NoteManager.notes self ++ fresh_notes t 0 (S j))).
Proof.
  intros Hfree Hj. unfold NoteManager.add_new_note.
  rewrite (add_new_note_fuel_first_free _ t j).
  - cbn [NoteManager.notes NoteManager.with_notes].
    now rewrite fresh_notes_snoc, app_assoc.
  - cbn [NoteManager.notes NoteManager.with_notes].
    rewrite contains_app, Hfree by assumption. cbn [orb].
    apply not_true_is_false. intro H.
    apply contains_fresh_notes in H as (i & Hi & E).
    apply probed_inj in E. lia.
  - intros i Hi. cbn [NoteManager.notes NoteManager.with_notes].
    rewrite contains_app. apply orb_true_iff; right.
    apply contains_fresh_notes. exists i. split; auto. lia.
  - cbn [NoteManager.notes NoteManager.with_notes].
    rewrite length_app. unfold fresh_notes.
    rewrite length_map, length_seq. lia.
Qed.

(** X3. On a store that holds none of the titles [t], ["t (1)"], ...,
    ["t (n-1)"], [n] calls of [add_new_note] with [t] return exactly
    these titles in this order and append them, empty, in this order. *)
Theorem add_many_numbers_the_titles (self : NoteManager.t) (t : str) (n : nat) :
  (forall i, (i < n)%nat ->
     PyDict.contains (probed t i) (NoteManager.notes self) = false) ->
  add_many n self t
  = Some (List.map (probed t) (seq 0 n),
          NoteManager.with_notes self
            (NoteManager.notes self
               ++ List.map (fun i => (probed t i, [])) (seq 0 n))).
Proof.
  intro Hfree.
  enough (G : forall m j, (j + m <= n)%nat ->
            add_many m
              (NoteManager.with_notes self
                 (NoteManager.notes self ++ fresh_notes t 0 j)) t
            = Some (List.map (probed t) (seq j m),
                    NoteManager.with_notes self
                      (NoteManager.notes self ++ fresh_notes t 0 (j + m)))).
  { specialize (G n 0%nat ltac:(lia)).
    unfold fresh_notes in G at 1. cbn [seq List.map] in G.
    rewrite app_nil_r in G.
    replace (NoteManager.with_notes self (NoteManager.notes self))
      with self in G by (destruct self; reflexivity).
    exact G. }
  induction m as [|m IH]; intros j Hj.
  - cbn [add_many seq List.map]. now rewrite Nat.add_0_r.
  - cbn [add_many]. rewrite (add_after_fresh self t n j) by (auto; lia).
    rewrite (IH (S j)) by lia.
    cbn [seq List.map]. now rewrite Nat.add_succ_r.
Qed.

Lemma add_many_numbers_the_titles_witness :
  add_many 4 NoteManager.init (lit "t")
  = Some ([lit "t"; lit "t (1)"; lit "t (2)"; lit "t (3)"],
          NoteManager.with_notes NoteManager.init
            [(lit "t", []); (lit "t (1)", []); (lit "t (2)", []);
             (lit "t (3)", [])]).
Proof.
  apply (add_many_numbers_the_titles NoteManager.init (lit "t") 4).
  intros i Hi. reflexivity.
Defined.

(** X4. Of two writes to the same title the last one wins: the store is
    the one the second write alone gives. *)
Theorem set_note_content_last_wins (self : NoteManager.t) (t c1 c2 : str) :
  NoteManager.set_note_content (NoteManager.set_note_content self t c1) t c2
  = NoteManager.set_note_content self t c2.
Proof.
  unfold NoteManager.set_note_content.
  cbn [NoteManager.notes NoteManager.with_notes]. now rewrite set_set.
Qed.

(** X5. A note deleted and then written again leaves its place and comes
    last among the titles, with the content written; the other notes
    keep their order and content. *)
Theorem recreated_note_goes_last (self : NoteManager.t) (t c : str) :
  NoteManager.get_note_titles
    (NoteManager.set_note_content (NoteManager.delete_note self t) t c)
  = filter (fun k => negb (PyStr.eqb t k)) (NoteManager.get_note_titles self)
      ++ [t]
  /\ forall k,
       NoteManager.get_note_content
         (NoteManager.set_note_content (NoteManager.delete_note self t) t c) k
       = if PyStr.eqb k t then c else NoteManager.get_note_content self k.
Proof.
  rewrite delete_note_eq.
  unfold NoteManager.get_note_titles, NoteManager.set_note_content,
    NoteManager.get_note_content, PyDict.get.
  cbn [NoteManager.notes NoteManager.with_notes]. split.
  - rewrite keys_set, contains_del, eqb_refl. cbn [negb andb].
    now rewrite keys_del.
  - intro k. rewrite lookup_set, lookup_del.
    now destruct (PyStr.eqb k t).
Qed.

(** X6. Two deletions give the same store in either order, and with
    distinct titles a deletion of a title that is present shortens the
    list of titles by exactly one. *)
Theorem delete_note_commutes (self : NoteManager.t) (a b : str) :
  NoteManager.delete_note (NoteManager.delete_note self a) b
  = NoteManager.delete_note (NoteManager.delete_note self b) a
  /\ (NoDup (NoteManager.get_note_titles self) ->
      In a (NoteManager.get_note_titles self) ->
      S (List.length (NoteManager.get_note_titles
                        (NoteManager.delete_note self a)))
      = List.length (NoteManager.get_note_titles self)).
Proof.
  split.
  - rewrite !delete_note_eq. cbn [NoteManager.notes NoteManager.with_notes].
    now rewrite del_del.
  - intros Hwf Hin. rewrite delete_note_eq.
    unfold NoteManager.get_note_titles, PyDict.keys in *.
    cbn [NoteManager.notes NoteManager.with_notes].
    rewrite !length_map. apply length_del; auto.
    now apply contains_In.
Qed.

Lemma delete_note_commutes_witness :
  S (List.length
       (NoteManager.get_note_titles
          (NoteManager.delete_note
             (NoteManager.with_notes NoteManager.init
                [(lit "a", lit "b"); (lit "c", [])])
             (lit "a"))))
  = List.length
      (NoteManager.get_note_titles
         (NoteManager.with_notes NoteManager.init
            [(lit "a", lit "b"); (lit "c", [])])).
Proof.
  apply (proj2 (delete_note_commutes
                  (NoteManager.with_notes NoteManager.init
                     [(lit "a", lit "b"); (lit "c", [])])
                  (lit "a") (lit "c"))).
  - repeat constructor; simpl; intuition discriminate.
  - simpl. auto.
Defined.

(** ** The file *)

Section MoreJsonFacts.
Local Open Scope N_scope.

(** *** What is written is plain ASCII *)

Lemma hexdigit_ascii n : n < 16 -> ascii_text (Json.hexdigit n) = true.
Proof.
  intro H. destruct n as [|p]; [reflexivity|].
  do 4 (try destruct p as [p|p|]); try reflexivity; exfalso; lia.
Qed.

Lemma u_escape_ascii n : forallb ascii_text (Json.u_escape n) = true.
Proof.
  unfold Json.u_escape, Json.hex4. cbn [forallb].
  rewrite !hexdigit_ascii by (apply N.mod_lt; discriminate). reflexivity.
Qed.

Lemma escape_ascii c : forallb ascii_text (Json.escape c) = true.
Proof.
  unfold Json.escape.
  repeat match goal with
  | |- context [if ?a =? ?b then _ else _] =>
      destruct (a =? b); [reflexivity|]
  end.
  destruct ((32 <=? c) && (c <=? 126)) eqn:E.
  - cbn [forallb]. unfold ascii_text. rewrite E.
    now rewrite orb_true_r.
  - destruct (c <? 65536); [apply u_escape_ascii|].
    rewrite forallb_app, !u_escape_ascii. reflexivity.
Qed.

Lemma encode_ascii s :
  forallb ascii_text (Json.encode_basestring_ascii s) = true.
Proof.
  unfold Json.encode_basestring_ascii. cbn [forallb].
  rewrite forallb_app. cbn [forallb]. rewrite andb_true_r.
  change (ascii_text 34) with true. cbn [andb].
  induction s as [|c s IH]; [reflexivity|].
  cbn [flat_map]. now rewrite forallb_app, escape_ascii, IH.
Qed.

Lemma encode_item_ascii kv : forallb ascii_text (Json.encode_item kv) = true.
Proof.
  unfold Json.encode_item. rewrite !forallb_app, !encode_ascii. reflexivity.
Qed.

Lemma dumps_ascii d : forallb ascii_text (Json.dumps d) = true.
Proof.
  destruct d as [|kv d]; [reflexivity|].
  unfold Json.dumps. rewrite !forallb_app, encode_item_ascii.
  change (forallb ascii_text (lit "{")) with true.
  change (forallb ascii_text Json.newline_indent) with true.
  change (forallb ascii_text [10]) with true.
  change (forallb ascii_text (lit "}")) with true.
  cbn [andb]. rewrite andb_true_r.
  induction d as [|kv' d IH]; [reflexivity|].
  cbn [flat_map]. rewrite !forallb_app, encode_item_ascii, IH.
  reflexivity.
Qed.

(** *** Strings with surrogate pairs *)

Lemma escape_surrogate y :
  0xd800 <= y -> y <= 0xdfff -> Json.escape y = Json.u_escape y.
Proof.
  intros H1 H2. unfold Json.escape.
  repeat match goal with
  | |- context [?a =? ?b] => destruct (N.eqb_spec a b) as [E|_]; [lia|]
  end.
  destruct (N.leb_spec 32 y); [|lia]. destruct (N.leb_spec y 126); [lia|].
  destruct (N.ltb_spec y 0x10000); [|lia]. reflexivity.
Qed.

Lemma high_bounds x : Json.is_high_surrogate x = true -> 0xd800 <= x <= 0xdbff.
Proof.
  unfold Json.is_high_surrogate. intro H.
  apply andb_true_iff in H as [H1 H2].
  apply N.leb_le in H1, H2. lia.
Qed.

Lemma low_bounds x : Json.is_low_surrogate x = true -> 0xdc00 <= x <= 0xdfff.
Proof.
  unfold Json.is_low_surrogate. intro H.
  apply andb_true_iff in H as [H1 H2].
  apply N.leb_le in H1, H2. lia.
Qed.

Lemma scanstring_joined x y tl :
  Json.is_high_surrogate x = true -> Json.is_low_surrogate y = true ->
  Json.scanstring (Json.u_escape x ++ Json.u_escape y ++ tl)
  = Json.cons_res (Json.join_surrogates x y) (Json.scanstring tl).
Proof.
  intros Hx Hy.
  pose proof (high_bounds x Hx). pose proof (low_bounds y Hy).
  unfold Json.u_escape, Json.hex4. cbn [app].
  rewrite scanstring_unfold_u, hex4val_digits by lia.
  rewrite Hx.
  change ((92 =? 92) && (117 =? 117)) with true. cbv iota.
  rewrite hex4val_digits by lia. now rewrite Hy.
Qed.

(** One character that is not joined with the next. *)
Lemma scanstring_step (c : codepoint) (s tl : str) :
  is_codepoint c = true -> is_str s = true ->
  (Json.is_high_surrogate c = true ->
   match s with
   | c2 :: _ => Json.is_low_surrogate c2 = false
   | [] => True
   end) ->
  Json.scanstring (Json.escape c ++ flat_map Json.escape s ++ 34 :: tl)
  = Json.cons_res c (Json.scanstring (flat_map Json.escape s ++ 34 :: tl)).
Proof.
  intros Hc Hs Hnext.
  destruct (escape_cases c Hc) as [e E He Hu | E H34 H92 H32 | E Hx | E H1 H2];
    rewrite E.
  - cbn [app]. now apply scanstring_short.
  - cbn [app]. now apply scanstring_verbatim.
  - apply scanstring_hex;
      [ assumption
      | intro Hh; apply ahead_encoded; [assumption | exact (Hnext Hh)] ].
  - rewrite <- app_assoc. now apply scanstring_pair.
Qed.

Lemma join_pairs_alone (c : codepoint) (s : str) :
  (Json.is_high_surrogate c = true ->
   match s with
   | c2 :: _ => Json.is_low_surrogate c2 = false
   | [] => True
   end) ->
  join_pairs (c :: s) = c :: join_pairs s.
Proof.
  intro H. destruct s as [|c2 s']; [reflexivity|].
  cbn [join_pairs].
  destruct (Json.is_high_surrogate c); [|reflexivity].
  now rewrite (H eq_refl).
Qed.

(** Decoding what the encoder wrote for any string. *)
Lemma scanstring_encoded_any : forall n s tl,
  (List.length s <= n)%nat -> is_str s = true ->
  Json.scanstring (flat_map Json.escape s ++ 34 :: tl)
  = Json.Ok (join_pairs s, tl).
Proof.
  induction n as [|n IH]; intros s tl Hn Hs.
  - destruct s; [reflexivity | simpl in Hn; lia].
  - destruct s as [|c s]; [reflexivity|].
    unfold is_str in Hs. cbn [forallb] in Hs.
    apply andb_true_iff in Hs as [Hc Hs].
    cbn [flat_map]. rewrite <- app_assoc.
    destruct (Json.is_high_surrogate c) eqn:Hh.
    + destruct s as [|c2 s'].
      * rewrite scanstring_step by (auto; rewrite Hh; auto).
        reflexivity.
      * destruct (Json.is_low_surrogate c2) eqn:Hl.
        -- cbn [forallb] in Hs. apply andb_true_iff in Hs as [Hc2 Hs'].
           pose proof (high_bounds c Hh). pose proof (low_bounds c2 Hl).
           cbn [flat_map]. rewrite <- app_assoc.
           rewrite (escape_surrogate c), (escape_surrogate c2)
             by (clear - H H0; unfold codepoint in *; lia).
           rewrite scanstring_joined by assumption.
           rewrite IH by (auto; simpl in Hn; lia).
           cbn [join_pairs]. now rewrite Hh, Hl.
        -- rewrite (scanstring_step c (c2 :: s') tl);
             [| assumption | exact Hs | intros _; exact Hl].
           rewrite (IH (c2 :: s'));
             [| cbn [List.length] in *; lia | exact Hs].
           rewrite (join_pairs_alone c (c2 :: s')) by (intros _; exact Hl).
           reflexivity.
    + rewrite (scanstring_step c s tl);
        [| assumption | exact Hs | intro; congruence].
      rewrite (IH s); [| cbn [List.length] in *; lia | exact Hs].
      rewrite (join_pairs_alone c s) by (intro; congruence). reflexivity.
Qed.

Lemma str_notes_cons k v d :
  str_notes ((k, v) :: d) = true ->
  is_str k = true /\ is_str v = true /\ str_notes d = true.
Proof.
  unfold str_notes. cbn [forallb fst snd]. intro H.
  apply andb_true_iff in H as [H1 H2].
  apply andb_true_iff in H1 as [Hk Hv]. auto.
Qed.

Lemma members_entry_any fuel (k v tl : str) :
  is_str k = true -> is_str v = true ->
  Json.members (S (S fuel)) (entry_text k v tl)
  = match Json.skip_ws tl with
    | d :: r4 =>
        if d =? 125
        then Json.Ok ([(join_pairs k, Json.String (join_pairs v))], r4)
        else if d =? 44 then
          match Json.skip_ws r4 with
          | q :: r5 =>
              if q =? 34 then
                Json.bind (Json.members (S fuel) r5) (fun '(pairs, rest) =>
                  Json.Ok ((join_pairs k, Json.String (join_pairs v)) :: pairs,
                           rest))
              else Json.Malformed
          | [] => Json.Malformed
          end
        else Json.Malformed
    | [] => Json.Malformed
    end.
Proof.
  intros Hk Hv. unfold entry_text.
  rewrite members_unfold.
  rewrite (scanstring_encoded_any (List.length k) k) by auto.
  cbn [Json.bind].
  change (Json.skip_ws (58 :: 32 :: 34 :: flat_map Json.escape v ++ 34 :: tl))
    with (58 :: 32 :: 34 :: flat_map Json.escape v ++ 34 :: tl).
  change (58 =? 58) with true. cbv iota.
  change (Json.skip_ws (32 :: 34 :: flat_map Json.escape v ++ 34 :: tl))
    with (34 :: flat_map Json.escape v ++ 34 :: tl).
  rewrite scan_once_string.
  rewrite (scanstring_encoded_any (List.length v) v) by auto.
  reflexivity.
Qed.

Lemma members_dumps_any (d : PyDict.dict str) : forall (k v : str) fuel tl,
  is_str k = true -> is_str v = true -> str_notes d = true ->
  (List.length d + 2 <= fuel)%nat ->
  Json.members fuel (entry_text k v (more_entries d ++ 10 :: 125 :: tl))
  = Json.Ok (tagged_joined ((k, v) :: d), tl).
Proof.
  induction d as [|[k' v'] d IH]; intros k v fuel tl Hk Hv Hd Hfuel;
    (destruct fuel as [|[|fuel]]; [simpl in Hfuel; lia ..|]);
    rewrite members_entry_any by assumption.
  - reflexivity.
  - rewrite more_entries_cons.
    apply str_notes_cons in Hd as (Hk' & Hv' & Hd).
    change (Json.skip_ws (44 :: ?x)) with (44 :: x).
    change (44 =? 125) with false. change (44 =? 44) with true. cbv iota.
    match goal with
    | |- context [Json.skip_ws (10 :: 32 :: 32 :: 32 :: 32 :: 34 :: ?x)] =>
        change (Json.skip_ws (10 :: 32 :: 32 :: 32 :: 32 :: 34 :: x))
          with (34 :: x)
    end.
    change (34 =? 34) with true. cbv iota.
    rewrite IH; auto. simpl in Hfuel; lia.
Qed.

Lemma loads_dumps_any (d : PyDict.dict str) :
  str_notes d = true ->
  Json.loads (Json.dumps d)
  = Json.Ok (Json.Object (PyDict.of_pairs (tagged_joined d))).
Proof.
  intro Hd. unfold Json.loads.
  pose proof (length_dumps d) as L.
  remember (2 * S (List.length (Json.dumps d)))%nat as fuel eqn:Ef.
  assert (Hfuel : (List.length d + 2 <= fuel)%nat) by lia.
  clear Ef L. destruct d as [|[k v] d].
  - destruct fuel as [|fuel]; [simpl in Hfuel; lia|]. reflexivity.
  - apply str_notes_cons in Hd as (Hk & Hv & Hd).
    rewrite dumps_cons.
    destruct fuel as [|fuel]; [lia|].
    unfold Json.loads_fuel.
    match goal with
    | |- context [Json.skip_ws (123 :: ?x)] =>
        change (Json.skip_ws (123 :: x)) with (123 :: x)
    end.
    cbv iota beta.
    rewrite scan_once_object.
    change [10; 125] with (10 :: 125 :: []).
    rewrite members_dumps_any;
      [reflexivity | assumption | assumption | assumption
      | simpl in Hfuel; lia].
Qed.

(** *** Collections out of objects *)

Lemma strings_of_set ms d (k v : str) :
  Json.strings_of ms = Some d ->
  Json.strings_of (PyDict.set k (Json.String v) ms) = Some (PyDict.set k v d).
Proof.
  revert d; induction ms as [|[k0 v0] ms IH]; intros d H.
  - injection H as <-. reflexivity.
  - cbn [Json.strings_of] in H.
    destruct v0; try discriminate.
    destruct (Json.strings_of ms) as [d0|] eqn:E; [|discriminate].
    injection H as <-. cbn [PyDict.set].
    destruct (PyStr.eqb k k0).
    + cbn [Json.strings_of]. now rewrite E.
    + cbn [Json.strings_of]. now rewrite (IH d0 eq_refl).
Qed.

Lemma strings_of_of_pairs (ps : list (str * str)) :
  Json.strings_of
    (PyDict.of_pairs (List.map (fun kv => (fst kv, Json.String (snd kv))) ps))
  = Some (PyDict.of_pairs ps).
Proof.
  unfold PyDict.of_pairs.
  enough (G : forall ms d, Json.strings_of ms = Some d ->
    Json.strings_of
      (fold_left (fun m kv => PyDict.set (fst kv) (snd kv) m)
         (List.map (fun kv => (fst kv, Json.String (snd kv))) ps) ms)
    = Some (fold_left (fun m kv => PyDict.set (fst kv) (snd kv) m) ps d))
    by (apply G; reflexivity).
  induction ps as [|[k v] ps IH]; intros ms d H; [exact H|].
  cbn [List.map fold_left fst snd]. apply IH. now apply strings_of_set.
Qed.

Lemma strings_of_keys ms d :
  Json.strings_of ms = Some d -> PyDict.keys d = PyDict.keys ms.
Proof.
  revert d; induction ms as [|[k0 v0] ms IH]; intros d H.
  - injection H as <-. reflexivity.
  - cbn [Json.strings_of] in H.
    destruct v0; try discriminate.
    destruct (Json.strings_of ms) as [d0|] eqn:E; [|discriminate].
    injection H as <-. cbn [PyDict.keys List.map fst].
    f_equal. now apply IH.
Qed.

Lemma wf_of_pairs (V : Type) (ps : list (str * V)) :
  PyDict.wf (PyDict.of_pairs ps).
Proof.
  unfold PyDict.of_pairs.
  enough (G : forall acc : PyDict.dict V, PyDict.wf acc ->
    PyDict.wf (fold_left (fun d kv => PyDict.set (fst kv) (snd kv) d) ps acc))
    by (apply G; constructor).
  induction ps as [|[k v] ps IH]; intros acc H; [exact H|].
  cbn [fold_left]. apply IH. now apply wf_set.
Qed.

Lemma match_literal_value word v0 s v rest :
  Json.match_literal word v0 s = Some (v, rest) -> v = v0.
Proof.
  unfold Json.match_literal.
  destruct (strip_prefix (lit word) s); [|discriminate].
  intro H; now injection H as <- _.
Qed.

Lemma match_number_value s v rest :
  Json.match_number s = Some (v, rest) ->
  (exists z, v = Json.Int z) \/ (exists l, v = Json.Float l).
Proof.
  unfold Json.match_number.
  match goal with
  | |- match ?x with _ => _ end = _ -> _ => destruct x as [neg s1]
  end.
  destruct (Json.match_integer s1) as [[integer s2]|]; [|discriminate].
  destruct (Json.match_frac s2) as [frac s3].
  destruct (Json.match_exp s3) as [exp s4].
  destruct frac, exp; intro H; injection H as <- _; eauto.
Qed.

Lemma atom_not_object s ms rest : atom s <> Some (Json.Object ms, rest).
Proof.
  unfold atom, Json.orelse. intro H.
  repeat match type of H with
  | match ?a with Some _ => _ | None => _ end = _ =>
      destruct a as [[v r]|] eqn:?
  end;
  try (injection H as -> ->);
  repeat match goal with
  | E : Json.match_literal _ _ _ = Some _ |- _ =>
      apply match_literal_value in E; discriminate E
  | E : Json.match_number _ = Some _ |- _ =>
      apply match_number_value in E as [[z E]|[l E]]; discriminate E
  end.
Qed.

Lemma scan_once_object_wf fuel s ms rest :
  Json.scan_once fuel s = Json.Ok (Json.Object ms, rest) -> PyDict.wf ms.
Proof.
  destruct fuel as [|fuel]; [discriminate|].
  destruct s as [|c r]; [discriminate|].
  rewrite scan_once_unfold. unfold Json.bind. intro H.
  repeat break_in H; try discriminate H;
    try (injection H as <- _; apply wf_of_pairs).
  exfalso. destruct p. injection H as -> ->.
  eapply atom_not_object; eassumption.
Qed.

Lemma load_object_wf text ms :
  Json.load text = Some (Json.Object ms) -> PyDict.wf ms.
Proof.
  unfold Json.load. destruct (Json.loads text) as [v| |] eqn:E;
    try discriminate.
  intro H; injection H as ->.
  unfold Json.loads, Json.loads_fuel, Json.bind in E.
  destruct (Json.scan_once (2 * S (List.length text)) (Json.skip_ws text))
    as [[v rest]| |] eqn:Es;
    repeat break_in E; try discriminate E;
    injection E as ->; eapply scan_once_object_wf; exact Es.
Qed.

Lemma skip_ws_blank s : forallb Json.is_ws s = true -> Json.skip_ws s = [].
Proof.
  induction s as [|c s IH]; [reflexivity|].
  cbn [forallb Json.skip_ws]. intro H.
  apply andb_true_iff in H as [-> H]. auto.
Qed.

Lemma load_blank s : forallb Json.is_ws s = true -> Json.load s = None.
Proof.
  intro H. unfold Json.load, Json.loads, Json.loads_fuel.
  rewrite skip_ws_blank by assumption.
  destruct s as [|c s]; [reflexivity|].
  cbn [Json.scan_once Nat.mul Json.bind].
  destruct c as [|p]; [reflexivity|].
  repeat (destruct p as [p|p|]; try reflexivity).
Qed.

End MoreJsonFacts.

(** X7. The file [save_notes_to_file] writes holds only line feeds and
    the printable ASCII characters, whatever the notes hold. *)
Theorem persisted_file_is_ascii (fs : filesystem) (self : NoteManager.t) :
  exists text,
    notes_json (NoteManager.save_notes_to_file fs self) = Some text
    /\ forallb ascii_text text = true.
Proof.
  eexists. split; [reflexivity|]. apply dumps_ascii.
Qed.

Lemma tagged_joined_map (d : PyDict.dict str) :
  tagged_joined d
  = List.map (fun kv => (fst kv, Json.String (snd kv)))
      (List.map (fun kv => (join_pairs (fst kv), join_pairs (snd kv))) d).
Proof. unfold tagged_joined. now rewrite map_map. Qed.

(** X8. [load_notes] never fails on a file [save_notes_to_file] wrote,
    into whatever store: it returns the saved collection with every
    surrogate pair joined into its character, titles that thereby
    coincide merged (first position, last content), and makes it the
    collection in memory. *)
Theorem load_after_persist (fs : filesystem) (self target : NoteManager.t) :
  str_notes (NoteManager.notes self) = true ->
  NoteManager.load_notes (NoteManager.save_notes_to_file fs self) target
  = (Returned (joined (NoteManager.notes self)),
     NoteManager.with_notes target (joined (NoteManager.notes self))).
Proof.
  intro H. unfold NoteManager.load_notes, NoteManager.save_notes_to_file.
  cbn [notes_json]. unfold Json.load.
  rewrite loads_dumps_any by assumption.
  cbn [Json.as_notes]. rewrite tagged_joined_map, strings_of_of_pairs.
  reflexivity.
Qed.

Lemma load_after_persist_witness :
  NoteManager.load_notes
    (NoteManager.save_notes_to_file {| notes_json := None |}
       (NoteManager.with_notes NoteManager.init
          [([0xd83d; 0xde00]%N, lit "x"); ([0x1f600]%N, lit "y")]))
    (NoteManager.with_notes NoteManager.init [(lit "old", [])])
  = (Returned [([0x1f600]%N, lit "y")],
     NoteManager.with_notes NoteManager.init [([0x1f600]%N, lit "y")]).
Proof.
  apply (load_after_persist {| notes_json := None |}
           (NoteManager.with_notes NoteManager.init
              [([0xd83d; 0xde00]%N, lit "x"); ([0x1f600]%N, lit "y")])
           (NoteManager.with_notes NoteManager.init [(lit "old", [])])).
  reflexivity.
Defined.

(** X9. Whatever the file holds, what [load_notes] returns is what
    [self.notes] is afterwards, a note collection or not; and whenever
    that is a [dict], so that [get_note_titles] returns, the titles are
    distinct: a repeated key of the file is kept once. *)
Theorem loaded_titles_are_distinct
    (fs : filesystem) (self : NoteManager.t)
    (r : outcome (PyDict.dict str)) (o : NoteManager.obj) :
  NoDup (NoteManager.get_note_titles self) ->
  NoteManager.load_notes fs self = (r, o) ->
  (forall d, r = Returned d ->
     exists self', o = NoteManager.Notes self' /\ NoteManager.notes self' = d)
  /\ (forall v, r = Untyped v ->
        o = NoteManager.Rebound v (NoteManager.current_note self))
  /\ (forall titles,
        NoteManager.Obj.get_note_titles o = Some titles -> NoDup titles).
Proof.
  intros Hwf. unfold NoteManager.load_notes.
  destruct (notes_json fs) as [text|].
  - destruct (Json.load text) as [v|] eqn:El.
    + destruct (Json.as_notes v) as [d'|] eqn:Ed;
        intro H; injection H as <- <-; repeat split; try discriminate.
      * intros d H; injection H as <-. eexists; split; reflexivity.
      * intros titles H; injection H as <-.
        destruct v; try discriminate. cbn [Json.as_notes] in Ed.
        unfold NoteManager.get_note_titles.
        cbn [NoteManager.notes NoteManager.with_notes].
        rewrite (strings_of_keys _ _ Ed).
        apply (load_object_wf _ _ El).
      * intros v' H; now injection H as <-.
      * intros titles H. destruct v; try discriminate.
        injection H as <-. apply (load_object_wf _ _ El).
    + intro H; injection H as <- <-; repeat split; try discriminate.
      intros titles H; now injection H as <-.
  - intro H; injection H as <- <-; repeat split; try discriminate.
    + intros d H; injection H as <-. eexists; split; reflexivity.
    + intros titles H; now injection H as <-.
Qed.

Lemma loaded_titles_are_distinct_witness :
  NoteManager.load_notes
    {| notes_json :=
         Some ([123] ++ Json.encode_basestring_ascii (lit "a") ++ lit ": 1, "
                 ++ Json.encode_basestring_ascii (lit "a") ++ lit ": 2"
                 ++ [125])%N |}
    NoteManager.init
  = (Untyped (Json.Object [(lit "a", Json.Int 2)]),
     NoteManager.Rebound (Json.Object [(lit "a", Json.Int 2)]) None)
  /\ NoDup [lit "a"].
Proof.
  split; [reflexivity|].
  apply (proj2 (proj2 (loaded_titles_are_distinct
                         {| notes_json :=
                              Some ([123]
                                      ++ Json.encode_basestring_ascii (lit "a")
                                      ++ lit ": 1, "
                                      ++ Json.encode_basestring_ascii (lit "a")
                                      ++ lit ": 2" ++ [125])%N |}
                         NoteManager.init
                         (Untyped (Json.Object [(lit "a", Json.Int 2)]))
                         (NoteManager.Rebound
                            (Json.Object [(lit "a", Json.Int 2)]) None)
                         (NoDup_nil _) eq_refl))
           [lit "a"]).
  reflexivity.
Defined.

(** X10. A file that exists but is empty, or holds only JSON whitespace,
    makes [load_notes] raise [JSONDecodeError] and leaves the store as
    it was. *)
Theorem blank_file_is_rejected (text : str) (self : NoteManager.t) :
  forallb Json.is_ws text = true ->
  NoteManager.load_notes {| notes_json := Some text |} self
  = (Raised JSONDecodeError, self).
Proof.
  intro H. unfold NoteManager.load_notes. cbn [notes_json].
  now rewrite load_blank.
Qed.

Lemma blank_file_is_rejected_witness :
  NoteManager.load_notes {| notes_json := Some [] |} NoteManager.init
  = (Raised JSONDecodeError, NoteManager.init)
  /\ NoteManager.load_notes {| notes_json := Some [32; 10]%N |} NoteManager.init
     = (Raised JSONDecodeError, NoteManager.init).
Proof.
  split.
  - apply (blank_file_is_rejected [] NoteManager.init). reflexivity.
  - apply (blank_file_is_rejected [32; 10]%N NoteManager.init). reflexivity.
Defined.

(** ** The editor *)

(** *** [strip] *)

Lemma lstrip_split (s : str) :
  exists a, s = a ++ lstrip s /\ forallb isspace a = true.
Proof.
  induction s as [|c s (a & E & Ha)]; [exists []; auto|].
  cbn [lstrip]. destruct (isspace c) eqn:Hc.
  - exists (c :: a). cbn [forallb app]. rewrite Hc, Ha.
    split; [now f_equal | reflexivity].
  - exists []. auto.
Qed.

Lemma lstrip_head (s : str) (c : codepoint) :
  hd_error (lstrip s) = Some c -> isspace c = false.
Proof.
  induction s as [|x s IH]; [discriminate|].
  cbn [lstrip]. destruct (isspace x) eqn:Hx; auto.
  cbn [hd_error]. congruence.
Qed.

Lemma rstrip_split (s : str) :
  exists b, s = rstrip s ++ b /\ forallb isspace b = true.
Proof.
  unfold rstrip. destruct (lstrip_split (List.rev s)) as (a & E & Ha).
  exists (List.rev a). split.
  - rewrite <- rev_app_distr, <- E. now rewrite rev_involutive.
  - rewrite forallb_forall in *. intros x Hx. apply Ha. now apply in_rev.
Qed.

(** [strip] cuts whitespace off both ends and nothing else. *)
Lemma strip_split (s : str) :
  exists a b, s = a ++ strip s ++ b
    /\ forallb isspace a = true /\ forallb isspace b = true.
Proof.
  unfold strip. destruct (lstrip_split s) as (a & Ea & Ha).
  destruct (rstrip_split (lstrip s)) as (b & Eb & Hb).
  exists a, b. repeat split; auto. now rewrite <- Eb.
Qed.

Lemma strip_ends (s : str) (c : codepoint) :
  hd_error (strip s) = Some c \/ hd_error (List.rev (strip s)) = Some c ->
  isspace c = false.
Proof.
  intros [H|H].
  - apply (lstrip_head s).
    destruct (rstrip_split (lstrip s)) as (b & Eb & _).
    fold (strip s) in Eb. rewrite Eb.
    destruct (strip s); [discriminate|exact H].
  - unfold strip, rstrip in H. rewrite rev_involutive in H.
    now apply lstrip_head in H.
Qed.

Lemma strip_blank (s : str) : forallb isspace s = true -> strip s = [].
Proof.
  intro H. assert (E : lstrip s = []).
  { induction s as [|c s IH]; [reflexivity|].
    cbn [forallb] in H. apply andb_true_iff in H as [Hc Hs].
    cbn [lstrip]. rewrite Hc. auto. }
  unfold strip. now rewrite E.
Qed.

Lemma has_surrogate_pair_app (a b : str) :
  has_surrogate_pair (a ++ b) = false ->
  has_surrogate_pair a = false /\ has_surrogate_pair b = false.
Proof.
  induction a as [|x a IH]; [auto|].
  destruct a as [|y a].
  - cbn [app]. intro H. split; [reflexivity|].
    destruct b as [|z b]; [reflexivity|].
    change (has_surrogate_pair (x :: z :: b))
      with (Json.is_high_surrogate x && Json.is_low_surrogate z
            || has_surrogate_pair (z :: b)) in H.
    now apply orb_false_iff in H.
  - change (has_surrogate_pair ((x :: y :: a) ++ b))
      with (Json.is_high_surrogate x && Json.is_low_surrogate y
            || has_surrogate_pair ((y :: a) ++ b)).
    change (has_surrogate_pair (x :: y :: a))
      with (Json.is_high_surrogate x && Json.is_low_surrogate y
            || has_surrogate_pair (y :: a)).
    intro H. apply orb_false_iff in H as [H1 H2].
    destruct (IH H2) as [Ha Hb]. now rewrite H1, Ha.
Qed.

Lemma plain_app (a b : str) :
  plain (a ++ b) = true -> plain a = true /\ plain b = true.
Proof.
  unfold plain, is_str. rewrite forallb_app. intro H.
  apply andb_true_iff in H as [H1 H2].
  apply andb_true_iff in H1 as [Ha Hb].
  apply negb_true_iff, has_surrogate_pair_app in H2 as [Pa Pb].
  now rewrite Ha, Hb, Pa, Pb.
Qed.

Lemma plain_strip (s : str) : plain s = true -> plain (strip s) = true.
Proof.
  intro H. destruct (strip_split s) as (a & b & E & _ & _).
  rewrite E in H. apply plain_app in H as [_ H].
  now apply plain_app in H as [H _].
Qed.

(** *** [split] *)

Lemma words_blank (cur b : str) :
  forallb isspace b = true ->
  words cur b = match cur with [] => [] | _ :: _ => [List.rev cur] end.
Proof.
  intro H.
  assert (E : words [] b = []).
  { induction b as [|c b IH]; [reflexivity|].
    cbn [forallb] in H. apply andb_true_iff in H as [Hc Hb].
    cbn [words]. rewrite Hc. auto. }
  destruct b as [|c b]; [reflexivity|].
  cbn [forallb] in H. apply andb_true_iff in H as [Hc Hb].
  cbn [words]. rewrite Hc.
  assert (E' : words [] b = []).
  { cbn [words] in E. now rewrite Hc in E. }
  destruct cur; now rewrite E'.
Qed.

Lemma words_app_blank (s b : str) : forall cur,
  forallb isspace b = true -> words cur (s ++ b) = words cur s.
Proof.
  induction s as [|c s IH]; intros cur H.
  - cbn [app]. now rewrite words_blank.
  - cbn [app words]. destruct (isspace c); [|auto].
    destruct cur; now rewrite IH.
Qed.

Lemma words_blank_app (a s : str) :
  forallb isspace a = true -> words [] (a ++ s) = words [] s.
Proof.
  induction a as [|c a IH]; [reflexivity|].
  cbn [forallb]. intro H. apply andb_true_iff in H as [Hc Ha].
  cbn [app words]. rewrite Hc. auto.
Qed.

Lemma words_app_space (a b : str) (c : codepoint) : forall cur,
  isspace c = true ->
  words cur (a ++ c :: b) = words cur a ++ words [] b.
Proof.
  induction a as [|x a IH]; intros cur Hc.
  - cbn [app words]. rewrite Hc. now destruct cur.
  - cbn [app words]. destruct (isspace x); [|auto].
    destruct cur; now rewrite IH.
Qed.

Lemma words_nil_blank (s : str) : forall cur,
  words cur s = [] -> cur = [] /\ forallb isspace s = true.
Proof.
  induction s as [|c s IH]; intros cur H.
  - destruct cur; [auto|discriminate].
  - cbn [words] in H. cbn [forallb].
    destruct (isspace c).
    + destruct cur; [|discriminate]. destruct (IH [] H). auto.
    + destruct (IH _ H) as [E _]. discriminate.
Qed.

Lemma split_strip (text : str) : split (strip text) = split text.
Proof.
  destruct (strip_split text) as (a & b & E & Ha & Hb).
  unfold split. rewrite E at 2.
  now rewrite words_blank_app, words_app_blank.
Qed.

(** X11. The words [get_word_count] counts are those of the trimmed
    text: [strip] changes neither the words nor their number, and the
    count is zero exactly for a text of whitespace only. *)
Theorem word_count_ignores_trim (text : str) :
  split (strip text) = split text
  /\ TextEditor.get_word_count (strip text) = TextEditor.get_word_count text
  /\ (TextEditor.get_word_count text = 0%N <-> forallb isspace text = true).
Proof.
  pose proof (split_strip text) as E.
  unfold TextEditor.get_word_count. rewrite E. repeat split.
  - intro H. unfold split in H.
    destruct (words [] text) eqn:W; [|discriminate].
    now apply words_nil_blank in W.
  - intro H. unfold split. now rewrite words_blank.
Qed.

Lemma word_count_ignores_trim_witness :
  TextEditor.get_word_count [32; 9; 10]%N = 0%N.
Proof.
  apply (proj2 (proj2 (word_count_ignores_trim [32; 9; 10]%N))).
  reflexivity.
Defined.

(** X12. Across a whitespace character the words, and so the word
    counts, of the two sides add up. *)
Theorem word_count_adds_up (a b : str) (c : codepoint) :
  isspace c = true ->
  split (a ++ c :: b) = split a ++ split b
  /\ TextEditor.get_word_count (a ++ c :: b)
     = (TextEditor.get_word_count a + TextEditor.get_word_count b)%N.
Proof.
  intro Hc. unfold TextEditor.get_word_count, split.
  rewrite words_app_space by assumption. split; [reflexivity|].
  rewrite length_app. lia.
Qed.

Lemma word_count_adds_up_witness :
  TextEditor.get_word_count (lit "buy milk" ++ 10%N :: lit " and  eggs ")
  = (TextEditor.get_word_count (lit "buy milk")
     + TextEditor.get_word_count (lit " and  eggs "))%N.
Proof.
  apply (proj2 (word_count_adds_up (lit "buy milk") (lit " and  eggs ") 10%N
                  eq_refl)).
Defined.

Lemma plain_notes_set (k v : str) (d : PyDict.dict str) :
  plain k = true -> plain v = true -> plain_notes d = true ->
  plain_notes (PyDict.set k v d) = true.
Proof.
  intros Hk Hv. unfold plain_notes.
  induction d as [|[k0 v0] d IH]; cbn [PyDict.set forallb fst snd].
  - now rewrite Hk, Hv.
  - intro H. apply andb_true_iff in H as [H1 H2].
    apply andb_true_iff in H1 as [Hk0 Hv0].
    destruct (PyStr.eqb k k0); cbn [forallb fst snd].
    + now rewrite Hk0, Hv, H2.
    + now rewrite Hk0, Hv0, IH.
Qed.

Lemma take_row_filter (l : list str) : forall (r : nat) (x : str),
  NoDup l -> nth_error l r = Some x ->
  App.take_row r l = filter (fun k => negb (PyStr.eqb x k)) l.
Proof.
  induction l as [|y l IH]; intros r x Hnd Hn.
  - destruct r; discriminate.
  - inversion Hnd as [|? ? Hy Hl]; subst. destruct r as [|r].
    + injection Hn as ->. cbn [App.take_row filter].
      rewrite eqb_refl. cbn [negb].
      symmetry. apply forallb_filter_id.
      apply forallb_forall. intros k Hk.
      apply negb_true_iff, eqb_neq. intros ->. contradiction.
    + cbn [nth_error] in Hn. cbn [App.take_row filter].
      assert (Hne : PyStr.eqb x y = false).
      { apply eqb_neq. intros ->. apply Hy. eapply nth_error_In; eauto. }
      rewrite Hne. cbn [negb]. f_equal. now apply IH.
Qed.

Lemma take_row_other (l : list str) : forall (r : nat) (x : str),
  NoDup l -> nth_error l r = Some x ->
  forall y, In y (App.take_row r l) <-> In y l /\ y <> x.
Proof.
  intros r x Hnd Hn y. rewrite (take_row_filter l r x Hnd Hn).
  rewrite filter_In, negb_true_iff, eqb_neq. intuition congruence.
Qed.

(** X13. [new_note] tracks the title [add_new_note] returned, for the
    trimmed title entered or for [New Note] when the dialog is cancelled
    or blank: that title was no key, becomes the current note with an
    empty buffer, and is appended to the list and to the store alike, so
    a list that showed the titles of the store still does. *)
Theorem new_note_tracks_returned_title (dialog : str * bool) (self : App.t) :
  exists title nm self',
    NoteManager.add_new_note (App.note_manager self)
      (if snd dialog && truthy (strip (fst dialog))
       then strip (fst dialog) else lit "New Note")
    = Some (title, nm)
    /\ App.new_note dialog self = Some self'
    /\ App.note_manager self' = nm
    /\ App.current_note self' = Some title
    /\ App.notes_list self' = App.notes_list self ++ [title]
    /\ App.current_row self' = Some (List.length (App.notes_list self))
    /\ App.text_area self' = []
    /\ ~ In title (NoteManager.get_note_titles (App.note_manager self))
    /\ NoteManager.get_note_titles nm
       = NoteManager.get_note_titles (App.note_manager self) ++ [title]
    /\ (in_sync self -> in_sync self').
Proof.
  destruct dialog as [text ok]. cbn [fst snd].
  set (requested := if ok && truthy (strip text) then strip text
                    else lit "New Note").
  destruct (add_new_note_appends (App.note_manager self) requested)
    as (k & Hk & Hfree & _ & Hrun).
  specialize (Hrun (S (List.length (NoteManager.notes (App.note_manager self))))
                ltac:(lia)).
  fold (NoteManager.add_new_note (App.note_manager self) requested) in Hrun.
  eexists _, _, _. split; [exact Hrun|].
  split; [unfold App.new_note; fold requested; rewrite Hrun; reflexivity|].
  cbn [App.load_selected_note App.add_item_and_select App.note_manager
       App.current_note App.notes_list App.current_row App.text_area].
  assert (Ht : NoteManager.get_note_titles
                 (NoteManager.with_notes (App.note_manager self)
                    (NoteManager.notes (App.note_manager self)
                       ++ [(probed requested k, [])]))
               = NoteManager.get_note_titles (App.note_manager self)
                   ++ [probed requested k]).
  { unfold NoteManager.get_note_titles, PyDict.keys.
    cbn [NoteManager.notes NoteManager.with_notes]. now rewrite map_app. }
  repeat split; auto.
  - unfold NoteManager.get_note_content, PyDict.get.
    cbn [NoteManager.notes NoteManager.with_notes].
    now rewrite lookup_app_new.
  - now apply contains_false_In.
  - unfold in_sync. cbn [App.notes_list App.note_manager].
    intros ->. symmetry. exact Ht.
Qed.

Lemma new_note_tracks_returned_title_witness :
  exists self',
    App.new_note (lit " a ", true) editing_a = Some self'
    /\ App.current_note self' = Some (lit "a (1)")
    /\ in_sync self'.
Proof.
  destruct (new_note_tracks_returned_title (lit " a ", true) editing_a)
    as (title & nm & self' & Hadd & Hnew & _ & Hcur & _ & _ & _ & _ & _ & Hsync).
  exists self'. repeat split; auto.
  - rewrite Hcur. vm_compute in Hadd. now injection Hadd as <- _.
  - apply Hsync. reflexivity.
Defined.

(** X14. With a note selected, [save_note] stores the trimmed buffer
    under its title, leaves the other notes alone, and writes a file
    from which a fresh store loads exactly the collection now in memory
    (titles distinct, no surrogate pair in the notes, the title or the
    buffer). *)
Theorem save_note_round_trip (fs : filesystem) (app : App.t) (title : str) :
  App.current_note app = Some title -> truthy title = true ->
  NoDup (NoteManager.get_note_titles (App.note_manager app)) ->
  plain_notes (NoteManager.notes (App.note_manager app)) = true ->
  plain title = true -> plain (App.text_area app) = true ->
  exists fs' app',
    App.save_note fs app = (None, fs', app')
    /\ NoteManager.get_note_content (App.note_manager app') title
       = strip (App.text_area app)
    /\ (forall k, k <> title ->
          NoteManager.get_note_content (App.note_manager app') k
          = NoteManager.get_note_content (App.note_manager app) k)
    /\ NoteManager.load_notes fs' NoteManager.init
       = (Returned (NoteManager.notes (App.note_manager app')),
          NoteManager.with_notes NoteManager.init
            (NoteManager.notes (App.note_manager app'))).
Proof.
  intros Hcur Ht Hwf Hp Hpt Hpb.
  eexists _, _. split; [unfold App.save_note; rewrite Hcur, Ht; reflexivity|].
  cbn [App.with_store App.note_manager].
  split; [|split].
  - unfold NoteManager.get_note_content, NoteManager.set_note_content,
      PyDict.get. cbn [NoteManager.notes NoteManager.with_notes].
    now rewrite lookup_set, eqb_refl.
  - intros k Hk.
    unfold NoteManager.get_note_content, NoteManager.set_note_content,
      PyDict.get. cbn [NoteManager.notes NoteManager.with_notes].
    rewrite lookup_set. apply eqb_neq in Hk. now rewrite Hk.
  - unfold NoteManager.load_notes, NoteManager.save_notes_to_file.
    cbn [notes_json]. rewrite load_dumps.
    + cbn [Json.as_notes]. now rewrite strings_of_tagged.
    + apply (wf_set _ _ _ _ Hwf).
    + apply plain_notes_set; auto. now apply plain_strip.
Qed.

Lemma save_note_round_trip_witness :
  exists fs' app',
    App.save_note {| notes_json := None |} editing_a = (None, fs', app')
    /\ NoteManager.load_notes fs' NoteManager.init
       = (Returned (NoteManager.notes (App.note_manager app')),
          NoteManager.with_notes NoteManager.init
            (NoteManager.notes (App.note_manager app'))).
Proof.
  destruct (save_note_round_trip {| notes_json := None |} editing_a (lit "a"))
    as (fs' & app' & H1 & _ & _ & H2);
    try reflexivity.
  - repeat constructor. simpl. tauto.
  - exists fs', app'. split; assumption.
Defined.

(** X15. What [save_note] stores is the buffer less whitespace at its
    two ends: the buffer is that content between two runs of whitespace,
    and the content neither starts nor ends with a whitespace character. *)
Theorem save_note_stores_trimmed_buffer
    (fs : filesystem) (app : App.t) (title : str) :
  App.current_note app = Some title -> truthy title = true ->
  exists a b,
    App.text_area app
    = a ++ NoteManager.get_note_content
             (App.note_manager (snd (App.save_note fs app))) title ++ b
    /\ forallb isspace a = true /\ forallb isspace b = true
    /\ forall c,
         hd_error (NoteManager.get_note_content
                     (App.note_manager (snd (App.save_note fs app))) title)
         = Some c
         \/ hd_error (List.rev
                        (NoteManager.get_note_content
                           (App.note_manager (snd (App.save_note fs app)))
                           title))
            = Some c ->
         isspace c = false.
Proof.
  intros Hcur Ht.
  assert (E : NoteManager.get_note_content
                (App.note_manager (snd (App.save_note fs app))) title
              = strip (App.text_area app)).
  { unfold App.save_note. rewrite Hcur, Ht. cbn [snd App.with_store App.note_manager].
    unfold NoteManager.get_note_content, NoteManager.set_note_content,
      PyDict.get. cbn [NoteManager.notes NoteManager.with_notes].
    now rewrite lookup_set, eqb_refl. }
  rewrite E. destruct (strip_split (App.text_area app)) as (a & b & Es & Ha & Hb).
  exists a, b. repeat split; auto. apply strip_ends.
Qed.

Lemma save_note_stores_trimmed_buffer_witness :
  exists a b,
    App.text_area editing_a
    = a ++ NoteManager.get_note_content
             (App.note_manager
                (snd (App.save_note {| notes_json := None |} editing_a)))
             (lit "a") ++ b
    /\ forallb isspace a = true /\ forallb isspace b = true.
Proof.
  destruct (save_note_stores_trimmed_buffer {| notes_json := None |}
              editing_a (lit "a") eq_refl eq_refl)
    as (a & b & H1 & H2 & H3 & _).
  exists a, b. repeat split; assumption.
Defined.

(** X16. Saving again right after a save changes nothing: same warning,
    same file, same state. *)
Theorem save_note_idempotent (fs : filesystem) (app : App.t) :
  App.save_note (snd (fst (App.save_note fs app))) (snd (App.save_note fs app))
  = App.save_note fs app.
Proof.
  unfold App.save_note at 2 3 4.
  destruct (App.current_note app) as [title|] eqn:Hcur.
  - destruct (truthy title) eqn:Ht.
    + cbn [fst snd]. unfold App.save_note.
      cbn [App.with_store App.current_note App.text_area App.note_manager].
      rewrite Hcur, Ht.
      unfold NoteManager.set_note_content, NoteManager.save_notes_to_file.
      cbn [NoteManager.notes NoteManager.with_notes NoteManager.current_note].
      now rewrite set_set.
    + cbn [fst snd]. unfold App.save_note. now rewrite Hcur, Ht.
  - cbn [fst snd]. unfold App.save_note. now rewrite Hcur.
Qed.

(** X17. A note whose title is the empty string can be opened, but then
    counts as no note selected: [save_note], [save_note_as] and
    [delete_note] only warn and change nothing, and the ribbon says that
    no note is selected. *)
Theorem empty_title_cannot_be_saved
    (fs : filesystem) (app : App.t) (dialog : str * bool)
    (confirm : bool) (row_after : option nat) :
  App.current_note (App.load_selected_note app []) = Some []
  /\ App.save_note fs (App.load_selected_note app [])
     = (Some "No note selected!"%string, fs, App.load_selected_note app [])
  /\ App.save_note_as dialog fs (App.load_selected_note app [])
     = Some (Some "No note selected!"%string, fs,
             App.load_selected_note app [])
  /\ App.delete_note confirm row_after fs (App.load_selected_note app [])
     = (Some "No note selected!"%string, fs, App.load_selected_note app [])
  /\ App.update_ribbon (App.load_selected_note app [])
     = lit "No note selected.".
Proof. repeat split. Qed.

(** X18. [save_note_as] appends the trimmed title entered to the list.
    When it was no key, a list that showed the titles of the store still
    does; when it was a key, list and store part: the title is listed
    twice while the suffixed note the store created is in the store and
    not in the list. *)
Theorem save_note_as_list_and_store
    (fs : filesystem) (app : App.t) (text : str) :
  App.note_selected app = true -> truthy (strip text) = true ->
  in_sync app ->
  exists w fs' app',
    App.save_note_as (text, true) fs app = Some (w, fs', app')
    /\ App.notes_list app' = App.notes_list app ++ [strip text]
    /\ (PyDict.contains (strip text)
          (NoteManager.notes (App.note_manager app)) = false ->
        in_sync app')
    /\ (PyDict.contains (strip text)
          (NoteManager.notes (App.note_manager app)) = true ->
        ~ in_sync app'
        /\ In (strip text) (App.notes_list app)
        /\ exists title,
             In title (NoteManager.get_note_titles (App.note_manager app'))
             /\ ~ In title (App.notes_list app')).
Proof.
  intros Hsel Ht Hsync. unfold in_sync in Hsync.
  set (t := strip text) in *.
  destruct (add_new_note_appends (App.note_manager app) t)
    as (k & Hk & Hfree & Hocc & Hrun).
  specialize (Hrun (S (List.length (NoteManager.notes (App.note_manager app))))
                ltac:(lia)).
  fold (NoteManager.add_new_note (App.note_manager app) t) in Hrun.
  eexists _, _, _. split.
  { unfold App.save_note_as. fold t. rewrite Hsel, Ht, Hrun. reflexivity. }
  cbn [App.notes_list App.note_manager App.add_item_and_select App.with_store].
  split; [reflexivity|].
  assert (Hkeys : NoteManager.get_note_titles
            (NoteManager.set_note_content
               (NoteManager.with_notes (App.note_manager app)
                  (NoteManager.notes (App.note_manager app)
                     ++ [(probed t k, [])]))
               t (strip (App.text_area app)))
          = NoteManager.get_note_titles (App.note_manager app)
              ++ [probed t k]).
  { unfold NoteManager.get_note_titles, NoteManager.set_note_content.
    cbn [NoteManager.notes NoteManager.with_notes].
    rewrite keys_set, contains_app.
    destruct k as [|k].
    - cbn [probed PyDict.contains]. rewrite eqb_refl. cbn [orb].
      rewrite orb_true_r. unfold PyDict.keys. now rewrite map_app.
    - pose proof (Hocc 0%nat ltac:(lia)) as H0. cbn [probed] in H0.
      rewrite H0. cbn [orb].
      unfold PyDict.keys. now rewrite map_app. }
  split.
  - intro Hnew. unfold in_sync. cbn [App.notes_list App.note_manager].
    destruct k as [|k];
      [|pose proof (Hocc 0%nat ltac:(lia)) as H0; cbn [probed] in H0;
        congruence].
    rewrite Hsync. symmetry. exact Hkeys.
  - intro Hin.
    assert (Hne : probed t k <> t).
    { intro E. rewrite E in Hfree. congruence. }
    split; [|split].
    + unfold in_sync. cbn [App.notes_list App.note_manager].
      intro E. rewrite Hsync in E.
      assert (E' : NoteManager.get_note_titles (App.note_manager app) ++ [t]
                   = NoteManager.get_note_titles (App.note_manager app)
                       ++ [probed t k])
        by (etransitivity; [exact E | exact Hkeys]).
      apply app_inv_head in E'. injection E' as E'. congruence.
    + rewrite Hsync. now apply contains_In.
    + exists (probed t k). split.
      * assert (G : In (probed t k)
                      (NoteManager.get_note_titles (App.note_manager app)
                         ++ [probed t k]))
          by (apply in_or_app; right; simpl; auto).
        exact (eq_rect _ (fun l => In (probed t k) l) G _ (eq_sym Hkeys)).
      * rewrite Hsync. intro G. apply in_app_or in G as [G|[G|[]]].
        -- apply contains_false_In in Hfree. contradiction.
        -- congruence.
Qed.

Lemma save_note_as_list_and_store_witness :
  exists w fs' app',
    App.save_note_as (lit "a", true) {| notes_json := None |} editing_a
    = Some (w, fs', app')
    /\ ~ in_sync app'.
Proof.
  destruct (save_note_as_list_and_store {| notes_json := None |}
              editing_a (lit "a") eq_refl eq_refl eq_refl)
    as (w & fs' & app' & H & _ & _ & Hold).
  exists w, fs', app'. split; [exact H|]. apply Hold. reflexivity.
Defined.

(** X19. Starting with an empty list and whatever the file holds:
    [App.load_notes] raises what [NoteManager.load_notes] raises and
    changes nothing else.  Otherwise the note manager is as
    [NoteManager.load_notes] left it; if its [notes] is no [dict],
    [get_note_titles] fails with [AttributeError] and the list stays
    empty; if it is one, the list shows its titles, in order, and unless
    there are none the last one becomes the current note and row, and the
    call returns whenever the content of that note is a string.  On a
    file that holds a note collection it always returns. *)
Theorem load_notes_opens_last_note
    (shown : Json.value -> option str) (fs : filesystem) (app : App.t)
    (r : outcome (PyDict.dict str)) (nm : NoteManager.obj) :
  App.notes_list app = [] ->
  NoteManager.load_notes fs (App.note_manager app) = (r, nm) ->
  exists r' app',
    App.load_notes shown fs app = (r', app')
    /\ App.note_manager app' = nm
    /\ match r with
       | Raised e => r' = Raised e /\ app' = App.with_manager app nm
       | Returned _ | Untyped _ =>
           match NoteManager.Obj.get_note_titles nm with
           | None =>
               r' = Raised AttributeError /\ app' = App.with_manager app nm
           | Some titles =>
               App.notes_list app' = titles
               /\ match List.rev titles with
                  | [] => r' = Returned tt /\ app' = App.with_manager app nm
                  | k :: _ =>
                      App.current_note app' = Some k
                      /\ App.current_row app'
                         = Some (List.length titles - 1)%nat
                      /\ (forall text,
                            NoteManager.Obj.get_note_content nm k
                            = Some (Json.String text) ->
                            r' = Returned tt)
                  end
           end
       end
    /\ (forall d, r = Returned d -> r' = Returned tt).
Proof.
  intros Hl Hload. unfold App.load_notes. rewrite Hload, Hl.
  cbn [List.app].
  assert (Ht : forall d, r = Returned d ->
                 exists self', nm = NoteManager.Notes self').
  { intros d ->. revert Hload. unfold NoteManager.load_notes.
    destruct (notes_json fs) as [text|].
    - destruct (Json.load text) as [v|]; [|discriminate].
      destruct (Json.as_notes v); [|discriminate].
      intro H; injection H as _ <-. eauto.
    - intro H; injection H as _ <-. eauto. }
  assert (G : exists r' app',
    match NoteManager.Obj.get_note_titles nm with
    | Some titles =>
        match List.rev titles with
        | [] =>
            (Returned tt,
             {| App.note_manager := nm;
                App.current_note := App.current_note app;
                App.notes_list := titles;
                App.current_row := App.current_row app;
                App.text_area := App.text_area app |})
        | last_item :: _ =>
            App.load_selected_note_obj shown
              {| App.note_manager := nm;
                 App.current_note := App.current_note app;
                 App.notes_list := titles;
                 App.current_row := Some (List.length titles - 1)%nat;
                 App.text_area := App.text_area app |} last_item
        end
    | None => (Raised AttributeError, App.with_manager app nm)
    end = (r', app')
    /\ App.note_manager app' = nm
    /\ match NoteManager.Obj.get_note_titles nm with
       | None =>
           r' = Raised AttributeError /\ app' = App.with_manager app nm
       | Some titles =>
           App.notes_list app' = titles
           /\ match List.rev titles with
              | [] => r' = Returned tt /\ app' = App.with_manager app nm
              | k :: _ =>
                  App.current_note app' = Some k
                  /\ App.current_row app'
                     = Some (List.length titles - 1)%nat
                  /\ (forall text,
                        NoteManager.Obj.get_note_content nm k
                        = Some (Json.String text) ->
                        r' = Returned tt)
              end
       end
    /\ ((exists self', nm = NoteManager.Notes self') -> r' = Returned tt)).
  { destruct (NoteManager.Obj.get_note_titles nm) as [titles|] eqn:Et.
    - destruct (List.rev titles) as [|k rest] eqn:Er.
      + eexists _, _. split; [reflexivity|]. split; [reflexivity|].
        split; [|reflexivity].
        split; [reflexivity|]. split; [reflexivity|].
        assert (E : titles = []).
        { apply (f_equal (@List.rev str)) in Er.
          now rewrite rev_involutive in Er. }
        unfold App.with_manager. now rewrite Hl, E.
      + unfold App.load_selected_note_obj.
        cbn [App.note_manager App.current_note App.notes_list
             App.current_row App.text_area].
        destruct (NoteManager.Obj.get_note_content nm k) as [v|] eqn:Ec.
        * destruct v;
            try (match goal with
                 | |- context [shown ?v] => destruct (shown v)
                 end;
                 eexists _, _; repeat split;
                 first [ reflexivity
                       | intros text H; first [reflexivity | discriminate H]
                       | intros (self' & ->);
                         first [reflexivity | discriminate Ec] ]).
          eexists _, _. split; [reflexivity|]. split; [reflexivity|].
          split; [|reflexivity].
          split; [reflexivity|]. split; [reflexivity|].
          split; [reflexivity|]. reflexivity.
        * exfalso. destruct nm as [self'|v c]; [discriminate Ec|].
          destruct v; discriminate.
    - eexists _, _. split; [reflexivity|]. split; [reflexivity|].
      split; [split; reflexivity|].
      intros (self' & ->). discriminate Et. }
  destruct r as [d|e|v].
  - destruct G as (r' & app' & G1 & G2 & G3 & G4).
    exists r', app'. repeat split; try assumption.
    intros d' _. apply G4. eauto.
  - eexists _, _. split; [reflexivity|]. split; [reflexivity|].
    split; [split; reflexivity|]. discriminate.
  - destruct G as (r' & app' & G1 & G2 & G3 & G4).
    exists r', app'. repeat split; try assumption. discriminate.
Qed.

Lemma load_notes_opens_last_note_witness :
  exists app',
    App.load_notes (fun _ => None)
      {| notes_json :=
           Some ([123] ++ Json.encode_basestring_ascii (lit "b") ++ lit ": 1, "
                   ++ Json.encode_basestring_ascii (lit "a") ++ lit ": "
                   ++ Json.encode_basestring_ascii (lit "x") ++ [125])%N |}
      {| App.note_manager := NoteManager.init; App.current_note := None;
         App.notes_list := []; App.current_row := None;
         App.text_area := [] |}
    = (Returned tt, app')
    /\ App.note_manager app'
       = NoteManager.Rebound
           (Json.Object [(lit "b", Json.Int 1); (lit "a", Json.String (lit "x"))])
           None
    /\ App.notes_list app' = [lit "b"; lit "a"]
    /\ App.current_note app' = Some (lit "a")
    /\ App.current_row app' = Some 1%nat.
Proof.
  destruct (load_notes_opens_last_note (fun _ => None)
              {| notes_json :=
                   Some ([123] ++ Json.encode_basestring_ascii (lit "b")
                           ++ lit ": 1, "
                           ++ Json.encode_basestring_ascii (lit "a")
                           ++ lit ": "
                           ++ Json.encode_basestring_ascii (lit "x")
                           ++ [125])%N |}
              {| App.note_manager := NoteManager.init;
                 App.current_note := None;
                 App.notes_list := []; App.current_row := None;
                 App.text_area := [] |}
              (Untyped
                 (Json.Object
                    [(lit "b", Json.Int 1); (lit "a", Json.String (lit "x"))]))
              (NoteManager.Rebound
                 (Json.Object
                    [(lit "b", Json.Int 1); (lit "a", Json.String (lit "x"))])
                 None)
              eq_refl eq_refl)
    as (r' & app' & H1 & H2 & (H3 & H4 & H5 & H6) & _).
  exists app'. rewrite H1, (H6 (lit "x") eq_refl).
  repeat split; assumption.
Defined.

(** X20. With a note selected, [delete_note] does nothing when the
    question is not answered with Yes; answered with Yes it deletes that
    note from the store, writes the file from the store so changed,
    clears the buffer and the selection, after which [save_note] only
    warns. *)
Theorem delete_note_confirmed
    (row_after : option nat) (fs : filesystem) (app : App.t) (title : str) :
  App.current_note app = Some title -> truthy title = true ->
  App.delete_note false row_after fs app = (None, fs, app)
  /\ exists fs' app',
       App.delete_note true row_after fs app = (None, fs', app')
       /\ App.note_manager app'
          = NoteManager.delete_note (App.note_manager app) title
       /\ ~ In title (NoteManager.get_note_titles (App.note_manager app'))
       /\ fs' = NoteManager.save_notes_to_file fs (App.note_manager app')
       /\ App.current_note app' = None
       /\ App.text_area app' = []
       /\ App.save_note fs' app'
          = (Some "No note selected!"%string, fs', app').
Proof.
  intros Hcur Ht. unfold App.delete_note. rewrite Hcur, Ht.
  split; [reflexivity|].
  eexists _, _. split; [reflexivity|].
  cbn [App.note_manager App.current_note App.text_area].
  repeat split.
  rewrite delete_note_eq. unfold NoteManager.get_note_titles.
  cbn [NoteManager.notes NoteManager.with_notes].
  intro H. apply contains_In in H.
  rewrite contains_del, eqb_refl in H. discriminate.
Qed.

Lemma delete_note_confirmed_witness :
  App.delete_note false None {| notes_json := None |} editing_a
  = (None, {| notes_json := None |}, editing_a).
Proof.
  apply (proj1 (delete_note_confirmed None {| notes_json := None |}
                  editing_a (lit "a") eq_refl eq_refl)).
Defined.

(** X21. [delete_note] takes the current row off the list, not the title
    it deletes. When the row shows the open note, list and store stay in
    step; when it shows another note, the deleted title stays listed
    while the other note, still in the store, leaves the list. *)
Theorem delete_note_takes_current_row
    (row_after : option nat) (fs : filesystem) (app : App.t)
    (title x : str) (r : nat) :
  App.current_note app = Some title -> truthy title = true ->
  in_sync app ->
  NoDup (NoteManager.get_note_titles (App.note_manager app)) ->
  In title (NoteManager.get_note_titles (App.note_manager app)) ->
  App.current_row app = Some r ->
  nth_error (App.notes_list app) r = Some x ->
  (x = title ->
     in_sync (snd (App.delete_note true row_after fs app)))
  /\ (x <> title ->
      In title (App.notes_list (snd (App.delete_note true row_after fs app)))
      /\ ~ In title
           (NoteManager.get_note_titles
              (App.note_manager
                 (snd (App.delete_note true row_after fs app))))
      /\ ~ In x
           (App.notes_list (snd (App.delete_note true row_after fs app)))
      /\ In x
           (NoteManager.get_note_titles
              (App.note_manager
                 (snd (App.delete_note true row_after fs app))))).
Proof.
  intros Hcur Ht Hsync Hnd Hin Hrow Hx. unfold in_sync in Hsync.
  assert (Hnd' : NoDup (App.notes_list app)) by now rewrite Hsync.
  unfold App.delete_note. rewrite Hcur, Ht. cbn [snd].
  cbn [App.note_manager App.notes_list]. rewrite Hrow. cbn [App.take_item].
  assert (Hk : NoteManager.get_note_titles
                 (NoteManager.delete_note (App.note_manager app) title)
               = filter (fun k => negb (PyStr.eqb title k))
                   (NoteManager.get_note_titles (App.note_manager app))).
  { rewrite delete_note_eq. unfold NoteManager.get_note_titles.
    cbn [NoteManager.notes NoteManager.with_notes]. apply keys_del. }
  split.
  - intros ->. unfold in_sync. cbn [App.note_manager App.notes_list].
    rewrite Hk, <- Hsync. now apply take_row_filter.
  - intro Hne. rewrite Hk.
    rewrite !(take_row_other _ _ _ Hnd' Hx), !filter_In, !negb_true_iff,
      !eqb_neq.
    rewrite <- Hsync in *. repeat split; auto.
    + tauto.
    + tauto.
    + eapply nth_error_In; eauto.
Qed.

Lemma delete_note_takes_current_row_witness :
  In (lit "a")
    (App.notes_list
       (snd (App.delete_note true None {| notes_json := None |}
               {| App.note_manager :=
                    NoteManager.with_notes NoteManager.init
                      [(lit "a", lit "x"); (lit "b", lit "y")];
                  App.current_note := Some (lit "a");
                  App.notes_list := [lit "a"; lit "b"];
                  App.current_row := Some 1%nat;
                  App.text_area := lit "x" |}))).
Proof.
  apply (proj2 (delete_note_takes_current_row None {| notes_json := None |}
                  {| App.note_manager :=
                       NoteManager.with_notes NoteManager.init
                         [(lit "a", lit "x"); (lit "b", lit "y")];
                     App.current_note := Some (lit "a");
                     App.notes_list := [lit "a"; lit "b"];
                     App.current_row := Some 1%nat;
                     App.text_area := lit "x" |}
                  (lit "a") (lit "b") 1%nat
                  eq_refl eq_refl eq_refl
                  ltac:(repeat constructor; simpl; intuition discriminate)
                  ltac:(simpl; auto) eq_refl eq_refl)).
  discriminate.
Defined.

(** X22. After a save the ribbon shows, between quotes, the title and
    the word count of the content just stored under it. *)
Theorem ribbon_counts_saved_words
    (fs : filesystem) (app : App.t) (title : str) :
  App.current_note app = Some title -> truthy title = true ->
  App.update_ribbon (snd (App.save_note fs app))
  = [34%N] ++ title ++ [34%N] ++ lit ", Words: "
      ++ str_of_int
           (TextEditor.get_word_count
              (NoteManager.get_note_content
                 (App.note_manager (snd (App.save_note fs app))) title)).
Proof.
  intros Hcur Ht. unfold App.save_note. rewrite Hcur, Ht. cbn [snd].
  unfold App.update_ribbon, App.note_selected.
  cbn [App.with_store App.current_note App.text_area App.note_manager].
  rewrite Hcur, Ht.
  unfold NoteManager.get_note_content, NoteManager.set_note_content,
    PyDict.get. cbn [NoteManager.notes NoteManager.with_notes].
  rewrite lookup_set, eqb_refl.
  unfold TextEditor.get_word_count. now rewrite split_strip.
Qed.

Lemma ribbon_counts_saved_words_witness :
  App.update_ribbon (snd (App.save_note {| notes_json := None |} editing_a))
  = [34%N] ++ lit "a" ++ [34%N] ++ lit ", Words: "
      ++ str_of_int
           (TextEditor.get_word_count
              (NoteManager.get_note_content
                 (App.note_manager
                    (snd (App.save_note {| notes_json := None |} editing_a)))
                 (lit "a"))).
Proof.
  apply (ribbon_counts_saved_words {| notes_json := None |} editing_a
           (lit "a") eq_refl eq_refl).
Defined.
